(** * Adaptive Education Platform: the PDF processing backend

    A shallow embedding of [backend/main.py] (a FastAPI application) and the
    properties of its request handlers.

    Conventions of the embedding.
    - A Python [str] is a [string]; a character of the model is a code point
      below 256, which covers every literal of the program.
    - A value decoded from JSON is a [PyVal]; the handlers of the program
      inspect such values dynamically ([.get], subscripting, iteration,
      truthiness), and the embedding keeps the dynamic checks and the
      exceptions they raise.
    - The handlers run in the monad [M]: a state ([World]: the module-level
      dictionary [documents_storage] and the counters of the effects done so
      far) and a Python exception as the failure.
    - What the program obtains from its libraries and from the outside (the
      environment variable, the wall clock, PyPDF2, the upstream HTTP reply,
      [json.loads], pydantic, the texts Starlette and the interpreter give to
      exceptions) is a field of [Env].
    - A [float] computed by the program is a binary64 number of the Standard
      Library's [SpecFloat], with its rounding to nearest, ties to even. *)

From Stdlib Require Import ZArith QArith Ascii String List Lia Bool.
From Stdlib Require SpecFloat.
From stdpp Require Import base tactics option list strings pretty gmap fin_maps.

Local Open Scope Z_scope.
Set Warnings "-register-all".

(* ===================================================================== *)
(** * Part I: definitions                                                 *)
(* ===================================================================== *)

(** ** Python string methods used by the program *)

Definition newline : ascii := "010"%char.
Definition dquote : ascii := "034"%char.
Definition apostrophe : ascii := "039"%char.
Definition lbrace : ascii := "{"%char.
Definition rbrace : ascii := "}"%char.

Definition code (c : ascii) : Z := Z.of_N (N_of_ascii c).

(** [len(s)] *)
Definition len (s : string) : Z := Z.of_nat (String.length s).

(** [s.find(c)] for a one-character needle: the least index, or [-1]. *)
Fixpoint str_find (c : ascii) (s : string) : Z :=
  match s with
  | EmptyString => -1
  | String a s' =>
      if Ascii.eqb a c then 0
      else let r := str_find c s' in if r =? -1 then -1 else r + 1
  end.

(** [s.rfind(c)] for a one-character needle: the greatest index, or [-1]. *)
Fixpoint str_rfind (c : ascii) (s : string) : Z :=
  match s with
  | EmptyString => -1
  | String a s' =>
      let r := str_rfind c s' in
      if r =? -1 then (if Ascii.eqb a c then 0 else -1) else r + 1
  end.

(** The bound of a slice: a negative bound counts from the end, and both
    bounds are clamped to [0 .. len]. *)
Definition slice_bound (n i : Z) : Z :=
  let j := if i <? 0 then i + n else i in
  Z.max 0 (Z.min n j).

(** [s[i:j]] *)
Definition str_slice (s : string) (i j : Z) : string :=
  let lo := slice_bound (len s) i in
  let hi := slice_bound (len s) j in
  if lo <? hi then String.substring (Z.to_nat lo) (Z.to_nat (hi - lo)) s
  else EmptyString.

(** [str.isspace] on one character: the white space below code point 256. *)
Definition is_space (c : ascii) : bool :=
  let n := code c in
  ((9 <=? n) && (n <=? 13)) || ((28 <=? n) && (n <=? 32))
  || (n =? 133) || (n =? 160).

Fixpoint lstrip (s : string) : string :=
  match s with
  | EmptyString => EmptyString
  | String a s' => if is_space a then lstrip s' else s
  end.

Fixpoint rstrip (s : string) : string :=
  match s with
  | EmptyString => EmptyString
  | String a s' =>
      match rstrip s' with
      | EmptyString => if is_space a then EmptyString else String a EmptyString
      | r => String a r
      end
  end.

(** [s.strip()] *)
Definition strip (s : string) : string := rstrip (lstrip s).

(** [c.lower()] below code point 256: A-Z and the accented capitals
    192-222 except the multiplication sign 215. *)
Definition lower_char (c : ascii) : ascii :=
  let n := code c in
  if ((65 <=? n) && (n <=? 90))
     || ((192 <=? n) && (n <=? 222) && negb (n =? 215))
  then ascii_of_N (Z.to_N (n + 32)) else c.

(** [s.lower()] *)
Fixpoint lower (s : string) : string :=
  match s with
  | EmptyString => EmptyString
  | String a s' => String (lower_char a) (lower s')
  end.

(** [s.endswith(suffix)] *)
Definition endswith (s suffix : string) : bool :=
  let n := String.length s in
  let m := String.length suffix in
  (m <=? n)%nat && String.eqb (String.substring (n - m) m s) suffix.

(** Truth value of a string: [not s] is [str_is_empty s]. *)
Definition str_is_empty (s : string) : bool :=
  match s with EmptyString => true | _ => false end.

(** Joining the lines of a triple-quoted literal. *)
Fixpoint lines (l : list string) : string :=
  match l with
  | [] => EmptyString
  | [x] => x
  | x :: rest => x +:+ String newline (lines rest)
  end.

(** The templates of the program are full of double quotes; the literals
    below write an apostrophe for each (the templates hold no apostrophe) and
    [dq] puts the double quotes back. *)
Fixpoint dq (s : string) : string :=
  match s with
  | EmptyString => EmptyString
  | String a s' => String (if Ascii.eqb a apostrophe then dquote else a) (dq s')
  end.

(** ** Values decoded from JSON, as Python sees them *)

(** A finite [float] is kept as the rational it denotes; a [dict] keeps its
    items in insertion order, with one item for each key. *)
Inductive PyVal : Type :=
| PNone
| PBool (b : bool)
| PInt (n : Z)
| PFloat (x : Q)
| PStr (s : string)
| PList (items : list PyVal)
| PDict (items : list (string * PyVal)).

(** The pydantic response models constructed by the handlers. *)
Inductive ModelClass := SummaryResponse | QuizResponse | FlashcardsResponse.

(** The operations of the interpreter that can raise a [TypeError] here:
    [v[k]], iteration over [v], and the call of the class [cls] on the items
    of [v] as keyword arguments. *)
Inductive PyOp := Subscript | Iterate | Unpack (cls : ModelClass).

(** The exception classes that occur in the program.  All of them derive
    from [Exception]; [JSONDecodeError] derives from [ValueError], and
    [RecursionError] from [RuntimeError], not from [ValueError]. *)
Inductive Exn : Type :=
| HTTPException (status_code : Z) (detail : string)
| ValueError (msg : string)
| JSONDecodeError (msg : string)
| RecursionError (msg : string)
| HTTPError (msg : string)
| LibraryError (msg : string)
| KeyError (key : PyVal)
| IndexError (seq idx : PyVal)
| TypeError (op : PyOp) (operand idx : PyVal)
| AttributeError (obj : PyVal) (attr : string).

Inductive Result (A : Type) : Type :=
| Ok (a : A)
| Raise (e : Exn).
Arguments Ok {A} a.
Arguments Raise {A} e.

Definition rbind {A B : Type} (r : Result A) (f : A -> Result B) : Result B :=
  match r with
  | Ok a => f a
  | Raise e => Raise e
  end.

(** [bool(v)] *)
Definition truthy (v : PyVal) : bool :=
  match v with
  | PNone => false
  | PBool b => b
  | PInt n => negb (n =? 0)
  | PFloat x => negb (Qnum x =? 0)
  | PStr s => negb (str_is_empty s)
  | PList l => match l with [] => false | _ => true end
  | PDict l => match l with [] => false | _ => true end
  end.

(** Lookup of a key among the items of a [dict]. *)
Fixpoint dict_lookup (key : string) (items : list (string * PyVal)) : option PyVal :=
  match items with
  | [] => None
  | (k, v) :: rest => if String.eqb k key then Some v else dict_lookup key rest
  end.

(** [v.get(key, default)]: only a [dict] has the method. *)
Definition py_get (v : PyVal) (key : string) (default : PyVal) : Result PyVal :=
  match v with
  | PDict items => Ok (from_option id default (dict_lookup key items))
  | _ => Raise (AttributeError v "get")
  end.

(** An object usable as an index of a sequence: an [int], and a [bool] as
    the [int] it is. *)
Definition as_index (k : PyVal) : option Z :=
  match k with
  | PInt n => Some n
  | PBool b => Some (if b then 1 else 0)
  | _ => None
  end.

(** [l[i]] on a sequence: a negative index counts from the end. *)
Definition seq_index {A : Type} (l : list A) (i : Z) : option A :=
  let n := Z.of_nat (length l) in
  if (0 <=? i) && (i <? n) then l !! Z.to_nat i
  else if (i <? 0) && (- n <=? i) then l !! Z.to_nat (i + n)
  else None.

(** The characters of a string, each a string of length one. *)
Fixpoint chars (s : string) : list PyVal :=
  match s with
  | EmptyString => []
  | String a s' => PStr (String a EmptyString) :: chars s'
  end.

(** [v[k]] *)
Definition py_getitem (v k : PyVal) : Result PyVal :=
  match v with
  | PList l =>
      match as_index k with
      | Some i => match seq_index l i with
                  | Some x => Ok x
                  | None => Raise (IndexError v k)
                  end
      | None => Raise (TypeError Subscript v k)
      end
  | PStr s =>
      match as_index k with
      | Some i => match seq_index (chars s) i with
                  | Some x => Ok x
                  | None => Raise (IndexError v k)
                  end
      | None => Raise (TypeError Subscript v k)
      end
  | PDict items =>
      match k with
      | PStr key => match dict_lookup key items with
                    | Some x => Ok x
                    | None => Raise (KeyError k)
                    end
      | PList _ | PDict _ => Raise (TypeError Subscript v k)
      | _ => Raise (KeyError k)
      end
  | _ => Raise (TypeError Subscript v k)
  end.

(** The items a [for] loop (here through [enumerate]) draws from [v]. *)
Definition py_iter (v : PyVal) : Result (list PyVal) :=
  match v with
  | PList l => Ok l
  | PStr s => Ok (chars s)
  | PDict items => Ok (map (fun kv => PStr (fst kv)) items)
  | _ => Raise (TypeError Iterate v PNone)
  end.

(** ** The outside of the program *)

Record UploadFile := {
  filename : string;
  file_bytes : string
}.

(** What one POST to the upstream endpoint gives: [httpx] raises an
    [HTTPError] (transport failure, time-out, or [raise_for_status] on a
    non-success status), or [response.json()] fails to decode the body, or it
    yields the decoded body. *)
Inductive Upstream : Type :=
| UpHTTPError (msg : string)
| UpBadBody (msg : string)
| UpJSON (result : PyVal).

Record Env := {
  (** [os.getenv] after [load_dotenv()]: the variable OPENROUTER_API_KEY *)
  environ_OPENROUTER_API_KEY : option string;
  (** the [n]-th reading of [datetime.now()], in microseconds since the epoch *)
  datetime_now : nat -> Z;
  (** [d.isoformat()] *)
  isoformat : Z -> string;
  (** PyPDF2: the text of each page of the document, or the text of the
      exception raised while reading it *)
  pdf_reader : string -> string + list string;
  (** the [n]-th POST to [/chat/completions] with this prompt and budget *)
  httpx_post : nat -> string -> Z -> Upstream;
  (** [json.loads]: the value, or the exception it raises: a
      [JSONDecodeError] on a text that is no JSON, a [RecursionError] on a
      text nested deeper than the interpreter allows *)
  json_loads : string -> Result PyVal;
  (** a response model built from the items of a [dict]: the validated
      model, or the text of pydantic's validation error *)
  pydantic_model : ModelClass -> list (string * PyVal) -> string + PyVal;
  (** [str(e)] where Starlette or the interpreter composes the text *)
  exception_text : Exn -> string
}.

(** ** The stored documents *)

Record SummaryRec := {
  sum_id : string;
  sum_document_id : string;
  sum_content : PyVal;
  sum_created_at : string
}.

Record FlashcardRec := {
  fc_id : string;
  fc_document_id : string;
  fc_question : PyVal;
  fc_answer : PyVal;
  fc_created_at : string
}.

Record QuestionRec := {
  q_id : string;
  q_quiz_id : string;
  q_question : PyVal;
  q_options : PyVal;
  q_correct_answer : PyVal;
  q_created_at : string
}.

Record QuizRec := {
  qz_id : string;
  qz_document_id : string;
  qz_title : string;
  qz_created_at : string;
  qz_questions : list QuestionRec
}.

(** A value of [documents_storage]: the keys written by [upload_document],
    and the keys [summary], [flashcards] and [quiz] that [process_document]
    adds ([None] while the key is absent). *)
Record DocRecord := {
  rec_id : string;
  rec_title : string;
  rec_created_at : string;
  rec_user_id : string;
  rec_file_path : string;
  rec_pdf_text : string;
  rec_processed : bool;
  rec_summary : option SummaryRec;
  rec_flashcards : option (list FlashcardRec);
  rec_quiz : option QuizRec
}.

(** The state of the process: the dictionary, and how many times the clock
    was read, the upstream endpoint was called and an upload was read. *)
Record World := {
  documents_storage : gmap string DocRecord;
  now_calls : nat;
  post_calls : nat;
  file_reads : nat
}.

(** ** The monad of the handlers *)

Definition M (A : Type) : Type := World -> Result A * World.

Definition ret {A : Type} (a : A) : M A := fun w => (Ok a, w).

Definition raise {A : Type} (e : Exn) : M A := fun w => (Raise e, w).

Definition bind {A B : Type} (m : M A) (f : A -> M B) : M B :=
  fun w => match m w with
           | (Ok a, w') => f a w'
           | (Raise e, w') => (Raise e, w')
           end.

Definition lift {A : Type} (r : Result A) : M A := fun w => (r, w).

(** [try: m except ...: handler]; a handler re-raises what its clauses do
    not catch. *)
Definition try_except {A : Type} (m : M A) (handler : Exn -> M A) : M A :=
  fun w => match m w with
           | (Ok a, w') => (Ok a, w')
           | (Raise e, w') => handler e w'
           end.

Notation "x <- m ;; k" := (bind m (fun x => k))
  (at level 100, m at next level, right associativity).
Notation "m1 ;;; m2" := (bind m1 (fun _ => m2))
  (at level 100, right associativity).

(** The status code of the response FastAPI sends: 200 for a returned
    value, the code of an [HTTPException], 500 for any other exception. *)
Definition http_status {A : Type} (r : Result A) : Z :=
  match r with
  | Ok _ => 200
  | Raise (HTTPException code _) => code
  | Raise _ => 500
  end.

(** ** Reading and writing the world *)

Definition set_storage (st : gmap string DocRecord) (w : World) : World :=
  {| documents_storage := st; now_calls := now_calls w;
     post_calls := post_calls w; file_reads := file_reads w |}.

Definition count_now (w : World) : World :=
  {| documents_storage := documents_storage w; now_calls := S (now_calls w);
     post_calls := post_calls w; file_reads := file_reads w |}.

Definition count_post (w : World) : World :=
  {| documents_storage := documents_storage w; now_calls := now_calls w;
     post_calls := S (post_calls w); file_reads := file_reads w |}.

Definition count_read (w : World) : World :=
  {| documents_storage := documents_storage w; now_calls := now_calls w;
     post_calls := post_calls w; file_reads := S (file_reads w) |}.

Definition get_storage : M (gmap string DocRecord) :=
  fun w => (Ok (documents_storage w), w).

Definition put_storage (st : gmap string DocRecord) : M unit :=
  fun w => (Ok tt, set_storage st w).

(** The keys [process_document] writes with [dict.update]. *)
Definition update_processed (s : SummaryRec) (f : list FlashcardRec) (q : QuizRec)
    (d : DocRecord) : DocRecord :=
  {| rec_id := rec_id d; rec_title := rec_title d;
     rec_created_at := rec_created_at d; rec_user_id := rec_user_id d;
     rec_file_path := rec_file_path d; rec_pdf_text := rec_pdf_text d;
     rec_processed := true;
     rec_summary := Some s; rec_flashcards := Some f; rec_quiz := Some q |}.

(** ** The program *)

Section Program.

Context (E : Env).

(** [datetime.now()] *)
Definition now : M Z :=
  fun w => (Ok (datetime_now E (now_calls w)), count_now w).

(** [datetime.now().isoformat()] *)
Definition now_isoformat : M string :=
  t <- now ;; ret (isoformat E t).

(** [float(n)] for an [int], rounded to the nearest binary64 number. *)
Definition float_of_int (n : Z) : SpecFloat.spec_float :=
  SpecFloat.binary_normalize 53 1024 n 0 false.

(** [int(x)] for a finite [float]: the fraction is dropped.  (On an infinity
    or a NaN Python raises; the timestamp of a reading is finite.) *)
Definition int_of_float (x : SpecFloat.spec_float) : Z :=
  match x with
  | SpecFloat.S754_finite sign m e =>
      let magnitude := if 0 <=? e then Z.pos m * 2 ^ e else Z.pos m / 2 ^ (- e) in
      if sign then - magnitude else magnitude
  | _ => 0
  end.

(** [d.timestamp()] for the reading [t], in microseconds since the epoch:
    CPython adds the whole seconds, as a [float], and the [float] quotient
    of the microseconds by [1e6]; each operation rounds. *)
Definition timestamp (t : Z) : SpecFloat.spec_float :=
  SpecFloat.SFadd 53 1024
    (float_of_int (t / 1000000))
    (SpecFloat.SFdiv 53 1024 (float_of_int (t mod 1000000)) (float_of_int 1000000)).

(** [int(d.timestamp())] *)
Definition timestamp_int (t : Z) : Z := int_of_float (timestamp t).

(** [str(e)] *)
Definition exn_str (e : Exn) : string :=
  match e with
  | ValueError m | JSONDecodeError m | RecursionError m | HTTPError m
  | LibraryError m => m
  | _ => exception_text E e
  end.

(** The literal default of [os.getenv]; its 64 hexadecimal digits are left
    out here. *)
Definition DEFAULT_API_KEY : string := "sk-or-v1-<64 hexadecimal digits>".

Definition OPENROUTER_API_KEY : string :=
  from_option id DEFAULT_API_KEY (environ_OPENROUTER_API_KEY E).

(** *** Helper functions *)

Definition extract_text_from_pdf (pdf_file : UploadFile) : M string :=
  fun w =>
    match pdf_reader E (file_bytes pdf_file) with
    | inr pages =>
        let text := fold_left (fun text page => text +:+ (page +:+ String newline EmptyString))
                              pages EmptyString in
        (Ok (strip text), count_read w)
    | inl msg =>
        (Raise (HTTPException 400 ("Error extracting PDF text: " +:+ msg)), count_read w)
    end.

(** [result["choices"][0]["message"]["content"]] *)
Definition message_content (result : PyVal) : Result PyVal :=
  rbind (py_getitem result (PStr "choices")) (fun choices =>
  rbind (py_getitem choices (PInt 0)) (fun choice =>
  rbind (py_getitem choice (PStr "message")) (fun message =>
  py_getitem message (PStr "content")))).

(** [await client.post(...)] *)
Definition post (prompt : string) (max_tokens : Z) : M Upstream :=
  fun w => (Ok (httpx_post E (post_calls w) prompt max_tokens), count_post w).

Definition call_openrouter_api (prompt : string) (max_tokens : Z) : M PyVal :=
  if str_is_empty OPENROUTER_API_KEY
  then raise (HTTPException 500 "OpenRouter API key not configured")
  else
    try_except
      (reply <- post prompt max_tokens ;;
       match reply with
       | UpHTTPError msg => raise (HTTPError msg)
       | UpBadBody msg => raise (JSONDecodeError msg)
       | UpJSON result => lift (message_content result)
       end)
      (fun e =>
         match e with
         | HTTPError _ =>
             raise (HTTPException 500 ("OpenRouter API error: " +:+ exn_str e))
         | KeyError _ =>
             raise (HTTPException 500 ("Unexpected API response format: " +:+ exn_str e))
         | _ => raise e
         end).

Definition create_summary_prompt (text : string) : string :=
  lines [
    EmptyString;
    "    Please analyze the following text and provide a comprehensive summary along with key points.";
    "    ";
    "    Text to summarize:";
    "    " +:+ text;
    "    ";
    "    Please respond in the following JSON format:";
    "    {";
    dq "        'summary': 'A comprehensive summary of the text (2-3 paragraphs)',";
    dq "        'key_points': ['Key point 1', 'Key point 2', 'Key point 3', 'Key point 4', 'Key point 5']";
    "    }";
    "    ";
    "    Ensure the response is valid JSON.";
    "    " ].

Definition create_quiz_prompt (text : string) : string :=
  lines [
    EmptyString;
    "    Based on the following text, create 5 multiple-choice questions to test understanding.";
    "    ";
    "    Text:";
    "    " +:+ text;
    "    ";
    "    Please respond in the following JSON format:";
    "    {";
    dq "        'questions': [";
    "            {";
    dq "                'question': 'Question text here?',";
    dq "                'options': ['Option A', 'Option B', 'Option C', 'Option D'],";
    dq "                'correct_answer': 0,";
    dq "                'explanation': 'Brief explanation of why this is correct'";
    "            }";
    "        ]";
    "    }";
    "    ";
    "    Make sure:";
    "    - Each question has exactly 4 options";
    "    - correct_answer is the index (0-3) of the correct option";
    "    - Questions test different aspects of the content";
    "    - Ensure the response is valid JSON";
    "    " ].

Definition create_flashcards_prompt (text : string) : string :=
  lines [
    EmptyString;
    "    Based on the following text, create 8 flashcards for studying key concepts.";
    "    ";
    "    Text:";
    "    " +:+ text;
    "    ";
    "    Please respond in the following JSON format:";
    "    {";
    dq "        'flashcards': [";
    "            {";
    dq "                'front': 'Question or concept',";
    dq "                'back': 'Answer or explanation'";
    "            }";
    "        ]";
    "    }";
    "    ";
    "    Make sure:";
    "    - Each flashcard tests an important concept";
    "    - Front side is concise (question/term)";
    "    - Back side provides clear explanation";
    "    - Cover different topics from the text";
    "    - Ensure the response is valid JSON";
    "    " ].

(** The body of the [try] block of [parse_json_response]. *)
Definition parse_json_body (response : PyVal) : Result PyVal :=
  match response with
  | PStr s =>
      let start_idx := str_find lbrace s in
      let end_idx := str_rfind rbrace s + 1 in
      if (start_idx =? -1) || (end_idx =? 0)
      then Raise (ValueError "No JSON found in response")
      else
        let json_str := str_slice s start_idx end_idx in
        json_loads E json_str
  | _ => Raise (AttributeError response "find")
  end.

Definition parse_json_response (response : PyVal) : Result PyVal :=
  match parse_json_body response with
  | Ok v => Ok v
  | Raise e =>
      match e with
      | JSONDecodeError _ | ValueError _ =>
          Raise (HTTPException 500 ("Error parsing API response: " +:+ exn_str e))
      | _ => Raise e
      end
  end.

(** The construction of a response model from the keys of [data]. *)
Definition new_model (cls : ModelClass) (data : PyVal) : Result PyVal :=
  match data with
  | PDict items =>
      match pydantic_model E cls items with
      | inr model => Ok model
      | inl msg => Raise (LibraryError msg)
      end
  | _ => Raise (TypeError (Unpack cls) data PNone)
  end.

(** *** API endpoints *)

Record ProcessingResponse := {
  pr_summary : PyVal;
  pr_quiz : PyVal;
  pr_flashcards : PyVal
}.

(** POST /upload-pdf *)
Definition upload_and_process_pdf (file : UploadFile) : M ProcessingResponse :=
  if negb (endswith (lower (filename file)) ".pdf")
  then raise (HTTPException 400 "Only PDF files are allowed")
  else
    pdf_text <- extract_text_from_pdf file ;;
    if str_is_empty (strip pdf_text)
    then raise (HTTPException 400 "No text found in PDF")
    else
      try_except
        (let summary_prompt := create_summary_prompt pdf_text in
         summary_response <- call_openrouter_api summary_prompt 2000 ;;
         summary_data <- lift (parse_json_response summary_response) ;;
         let quiz_prompt := create_quiz_prompt pdf_text in
         quiz_response <- call_openrouter_api quiz_prompt 2000 ;;
         quiz_data <- lift (parse_json_response quiz_response) ;;
         let flashcards_prompt := create_flashcards_prompt pdf_text in
         flashcards_response <- call_openrouter_api flashcards_prompt 2000 ;;
         flashcards_data <- lift (parse_json_response flashcards_response) ;;
         summary <- lift (new_model SummaryResponse summary_data) ;;
         quiz <- lift (new_model QuizResponse quiz_data) ;;
         flashcards <- lift (new_model FlashcardsResponse flashcards_data) ;;
         ret {| pr_summary := summary; pr_quiz := quiz; pr_flashcards := flashcards |})
        (fun e => raise (HTTPException 500 ("Error processing PDF: " +:+ exn_str e))).

(** POST /generate-summary *)
Definition generate_summary (text : string) : M PyVal :=
  if str_is_empty (strip text)
  then raise (HTTPException 400 "Text cannot be empty")
  else
    try_except
      (let prompt := create_summary_prompt text in
       response <- call_openrouter_api prompt 2000 ;;
       data <- lift (parse_json_response response) ;;
       lift (new_model SummaryResponse data))
      (fun e => raise (HTTPException 500 ("Error generating summary: " +:+ exn_str e))).

(** POST /generate-quiz *)
Definition generate_quiz (text : string) : M PyVal :=
  if str_is_empty (strip text)
  then raise (HTTPException 400 "Text cannot be empty")
  else
    try_except
      (let prompt := create_quiz_prompt text in
       response <- call_openrouter_api prompt 2000 ;;
       data <- lift (parse_json_response response) ;;
       lift (new_model QuizResponse data))
      (fun e => raise (HTTPException 500 ("Error generating quiz: " +:+ exn_str e))).

(** POST /generate-flashcards *)
Definition generate_flashcards (text : string) : M PyVal :=
  if str_is_empty (strip text)
  then raise (HTTPException 400 "Text cannot be empty")
  else
    try_except
      (let prompt := create_flashcards_prompt text in
       response <- call_openrouter_api prompt 2000 ;;
       data <- lift (parse_json_response response) ;;
       lift (new_model FlashcardsResponse data))
      (fun e => raise (HTTPException 500 ("Error generating flashcards: " +:+ exn_str e))).

(** The response model [Document]. *)
Record Document := {
  resp_id : string;
  resp_title : string;
  resp_created_at : string
}.

(** POST /documents/upload *)
Definition upload_document (pdf : UploadFile) (title : string) : M Document :=
  if negb (endswith (lower (filename pdf)) ".pdf")
  then raise (HTTPException 400 "File must be a PDF")
  else
    try_except
      (pdf_text <- extract_text_from_pdf pdf ;;
       if str_is_empty (strip pdf_text)
       then raise (HTTPException 400 "No text found in PDF")
       else
         t <- now ;;
         let doc_id := pretty (timestamp_int t) in
         created_at <- now_isoformat ;;
         storage <- get_storage ;;
         put_storage
           (<[ doc_id :=
               {| rec_id := doc_id;
                  rec_title := title;
                  rec_created_at := created_at;
                  rec_user_id := "default-user-id";
                  rec_file_path := "/uploads/" +:+ doc_id +:+ ".pdf";
                  rec_pdf_text := pdf_text;
                  rec_processed := false;
                  rec_summary := None;
                  rec_flashcards := None;
                  rec_quiz := None |} ]> storage) ;;;
         document_created_at <- now_isoformat ;;
         ret {| resp_id := doc_id;
                resp_title := title;
                resp_created_at := document_created_at |})
      (fun e => raise (HTTPException 500 ("Error uploading document: " +:+ exn_str e))).

(** The loop over [enumerate(flashcards_data.get("flashcards", []))]; [i] is
    the index of the first card of [cards]. *)
Fixpoint transform_flashcards (document_id : string) (i : nat) (cards : list PyVal)
    : M (list FlashcardRec) :=
  match cards with
  | [] => ret []
  | card :: rest =>
      question <- lift (py_get card "front" (PStr EmptyString)) ;;
      answer <- lift (py_get card "back" (PStr EmptyString)) ;;
      created_at <- now_isoformat ;;
      flashcards <- transform_flashcards document_id (S i) rest ;;
      ret ({| fc_id := "fc-" +:+ document_id +:+ "-" +:+ pretty (i + 1)%nat;
              fc_document_id := document_id;
              fc_question := question;
              fc_answer := answer;
              fc_created_at := created_at |} :: flashcards)
  end.

(** The expression stored under [correct_answer]:
    [q.get('options', [''])[q.get('correct_answer', 0)] if q.get('options') else ''] *)
Definition quiz_correct_answer (q : PyVal) : Result PyVal :=
  rbind (py_get q "options" PNone) (fun cond =>
  if truthy cond
  then
    rbind (py_get q "options" (PList [PStr EmptyString])) (fun options =>
    rbind (py_get q "correct_answer" (PInt 0)) (fun index =>
    py_getitem options index))
  else Ok (PStr EmptyString)).

(** The loop over [enumerate(quiz_data.get("questions", []))]. *)
Fixpoint transform_questions (document_id : string) (i : nat) (qs : list PyVal)
    : M (list QuestionRec) :=
  match qs with
  | [] => ret []
  | q :: rest =>
      question <- lift (py_get q "question" (PStr EmptyString)) ;;
      options <- lift (py_get q "options" (PList [])) ;;
      correct_answer <- lift (quiz_correct_answer q) ;;
      created_at <- now_isoformat ;;
      quiz_questions <- transform_questions document_id (S i) rest ;;
      ret ({| q_id := "q-" +:+ document_id +:+ "-" +:+ pretty (i + 1)%nat;
              q_quiz_id := "quiz-" +:+ document_id;
              q_question := question;
              q_options := options;
              q_correct_answer := correct_answer;
              q_created_at := created_at |} :: quiz_questions)
  end.

(** The reply of a successful [process_document]. *)
Record ProcessReply := {
  reply_status : string;
  reply_message : string;
  reply_document_id : string
}.

(** The body of the [try] block of [process_document]. *)
Definition process_document_body (document_id : string) : M ProcessReply :=
  storage <- get_storage ;;
  match storage !! document_id with
  | None => raise (HTTPException 404 "Document not found")
  | Some document_data =>
      let pdf_text := rec_pdf_text document_data in
      if str_is_empty pdf_text
      then raise (HTTPException 400 "No text content found for this document")
      else
        let summary_prompt := create_summary_prompt pdf_text in
        summary_response <- call_openrouter_api summary_prompt 2000 ;;
        summary_data <- lift (parse_json_response summary_response) ;;
        let quiz_prompt := create_quiz_prompt pdf_text in
        quiz_response <- call_openrouter_api quiz_prompt 2000 ;;
        quiz_data <- lift (parse_json_response quiz_response) ;;
        let flashcards_prompt := create_flashcards_prompt pdf_text in
        flashcards_response <- call_openrouter_api flashcards_prompt 2000 ;;
        flashcards_data <- lift (parse_json_response flashcards_response) ;;
        content <- lift (py_get summary_data "summary" (PStr "Summary not available")) ;;
        summary_created_at <- now_isoformat ;;
        let summary :=
          {| sum_id := "sum-" +:+ document_id;
             sum_document_id := document_id;
             sum_content := content;
             sum_created_at := summary_created_at |} in
        cards <- lift (rbind (py_get flashcards_data "flashcards" (PList [])) py_iter) ;;
        flashcards <- transform_flashcards document_id 0 cards ;;
        qs <- lift (rbind (py_get quiz_data "questions" (PList [])) py_iter) ;;
        quiz_questions <- transform_questions document_id 0 qs ;;
        quiz_created_at <- now_isoformat ;;
        let quiz :=
          {| qz_id := "quiz-" +:+ document_id;
             qz_document_id := document_id;
             qz_title := "Quiz: " +:+ rec_title document_data;
             qz_created_at := quiz_created_at;
             qz_questions := quiz_questions |} in
        storage' <- get_storage ;;
        match storage' !! document_id with
        | None => raise (KeyError (PStr document_id))
        | Some stored =>
            put_storage (<[ document_id := update_processed summary flashcards quiz stored ]> storage') ;;;
            ret {| reply_status := "success";
                   reply_message := "Document processed successfully with AI-generated content";
                   reply_document_id := document_id |}
        end
  end.

(** POST /documents/{document_id}/process *)
Definition process_document (document_id : string) : M ProcessReply :=
  try_except (process_document_body document_id)
    (fun e => raise (HTTPException 500 ("Error processing document: " +:+ exn_str e))).

(** What GET /documents/{document_id} returns. *)
Record DocumentView := {
  view_id : string;
  view_title : string;
  view_created_at : string;
  view_user_id : string;
  view_file_path : string;
  view_summary : option SummaryRec;
  view_flashcards : list FlashcardRec;
  view_quiz : option QuizRec
}.

(** The record returned for an id that is not stored. *)
Definition mock_document (document_id : string) : M DocumentView :=
  created_at <- now_isoformat ;;
  summary_created_at <- now_isoformat ;;
  fc1_created_at <- now_isoformat ;;
  fc2_created_at <- now_isoformat ;;
  fc3_created_at <- now_isoformat ;;
  quiz_created_at <- now_isoformat ;;
  q1_created_at <- now_isoformat ;;
  q2_created_at <- now_isoformat ;;
  ret {|
    view_id := document_id;
    view_title := "Sample Document: AI Fundamentals";
    view_created_at := created_at;
    view_user_id := "default-user-id";
    view_file_path := "/uploads/" +:+ document_id +:+ ".pdf";
    view_summary := Some {|
      sum_id := "sum-" +:+ document_id;
      sum_document_id := document_id;
      sum_content := PStr "This document provides a comprehensive introduction to Artificial Intelligence, covering key concepts such as machine learning, neural networks, natural language processing, and computer vision. It explores the historical development of AI, current applications across various industries, and future prospects for AI technology.";
      sum_created_at := summary_created_at |};
    view_flashcards := [
      {| fc_id := "fc-" +:+ document_id +:+ "-1";
         fc_document_id := document_id;
         fc_question := PStr "What is Artificial Intelligence?";
         fc_answer := PStr "Artificial Intelligence is the simulation of human intelligence processes by machines, especially computer systems.";
         fc_created_at := fc1_created_at |};
      {| fc_id := "fc-" +:+ document_id +:+ "-2";
         fc_document_id := document_id;
         fc_question := PStr "What are the main types of machine learning?";
         fc_answer := PStr "Supervised learning, unsupervised learning, and reinforcement learning.";
         fc_created_at := fc2_created_at |};
      {| fc_id := "fc-" +:+ document_id +:+ "-3";
         fc_document_id := document_id;
         fc_question := PStr "What is a neural network?";
         fc_answer := PStr "A computing system inspired by biological neural networks that processes information using interconnected nodes.";
         fc_created_at := fc3_created_at |} ];
    view_quiz := Some {|
      qz_id := "quiz-" +:+ document_id;
      qz_document_id := document_id;
      qz_title := "AI Fundamentals Quiz";
      qz_created_at := quiz_created_at;
      qz_questions := [
        {| q_id := "q-" +:+ document_id +:+ "-1";
           q_quiz_id := "quiz-" +:+ document_id;
           q_question := PStr "Which of the following is a subset of AI focused on learning from data?";
           q_options := PList [PStr "Machine Learning"; PStr "Computer Graphics";
                               PStr "Database Management"; PStr "Web Development"];
           q_correct_answer := PStr "Machine Learning";
           q_created_at := q1_created_at |};
        {| q_id := "q-" +:+ document_id +:+ "-2";
           q_quiz_id := "quiz-" +:+ document_id;
           q_question := PStr "What type of AI can perform any intellectual task that a human can do?";
           q_options := PList [PStr "Narrow AI"; PStr "General AI"; PStr "Super AI"; PStr "Weak AI"];
           q_correct_answer := PStr "General AI";
           q_created_at := q2_created_at |} ] |}
  |}.

(** GET /documents/{document_id} *)
Definition get_document (document_id : string) : M DocumentView :=
  try_except
    (storage <- get_storage ;;
     match storage !! document_id with
     | Some doc_data =>
         if rec_processed doc_data
         then ret {| view_id := rec_id doc_data;
                     view_title := rec_title doc_data;
                     view_created_at := rec_created_at doc_data;
                     view_user_id := rec_user_id doc_data;
                     view_file_path := rec_file_path doc_data;
                     view_summary := rec_summary doc_data;
                     view_flashcards := from_option id [] (rec_flashcards doc_data);
                     view_quiz := rec_quiz doc_data |}
         else ret {| view_id := rec_id doc_data;
                     view_title := rec_title doc_data;
                     view_created_at := rec_created_at doc_data;
                     view_user_id := rec_user_id doc_data;
                     view_file_path := rec_file_path doc_data;
                     view_summary := None;
                     view_flashcards := [];
                     view_quiz := None |}
     | None => mock_document document_id
     end)
    (fun e => raise (HTTPException 404 ("Document not found: " +:+ exn_str e))).

End Program.

(** ** Sample environments, for the examples *)

(** A clock that is read once every millisecond, from 2023-11-14T22:13:20 UTC
    (1700000000 seconds after the epoch) on. *)
Definition sample_now (n : nat) : Z := 1700000000000000 + 1000 * (Z.of_nat n + 1).

Definition pad (width : nat) (s : string) : string :=
  String.string_of_list_ascii (repeat "0"%char (width - String.length s)) +:+ s.

(** [isoformat] for the readings within that minute; the fraction is left
    out when the microseconds are zero. *)
Definition sample_isoformat (t : Z) : string :=
  let s := t / 1000000 - 1700000000 + 20 in
  let us := t mod 1000000 in
  "2023-11-14T22:13:" +:+ pad 2 (pretty s)
    +:+ (if us =? 0 then EmptyString else "." +:+ pad 6 (pretty us)).

Definition lecture_pdf : string := "%PDF-1.4 lecture".
Definition blank_pdf : string := "%PDF-1.4 blank".

(** Two documents: a lecture of two pages and a single page without text;
    any other content is rejected by the reader. *)
Definition sample_pdf_reader (bytes : string) : string + list string :=
  if String.eqb bytes lecture_pdf
  then inr ["Cells are the basic unit of life."; "They divide."]
  else if String.eqb bytes blank_pdf then inr [EmptyString]
  else inl "EOF marker not found".

Definition summary_json_1 : string :=
  dq "{'summary': 'Cells are the unit of life.', 'key_points': ['Cells divide']}".
Definition summary_val_1 : PyVal :=
  PDict [("summary", PStr "Cells are the unit of life.");
         ("key_points", PList [PStr "Cells divide"])].

Definition quiz_json (index : string) : string :=
  dq "{'questions': [{'question': 'What divides?', 'options': ['Rocks', 'Cells'], 'correct_answer': "
  +:+ index +:+ dq ", 'explanation': 'Cells divide.'}]}".
Definition sample_options : list PyVal := [PStr "Rocks"; PStr "Cells"].
Definition sample_question (index : Z) : list (string * PyVal) :=
  [("question", PStr "What divides?");
   ("options", PList sample_options);
   ("correct_answer", PInt index);
   ("explanation", PStr "Cells divide.")].
Definition quiz_val (index : Z) : PyVal :=
  PDict [("questions", PList [PDict (sample_question index)])].

Definition flashcards_json_1 : string :=
  dq "{'flashcards': [{'front': 'Cell', 'back': 'The unit of life'}]}".
Definition flashcards_val_1 : PyVal :=
  PDict [("flashcards",
          PList [PDict [("front", PStr "Cell"); ("back", PStr "The unit of life")]])].

Definition summary_json_2 : string :=
  dq "{'summary': 'Cells divide by mitosis.', 'key_points': []}".
Definition summary_val_2 : PyVal :=
  PDict [("summary", PStr "Cells divide by mitosis."); ("key_points", PList [])].

Definition flashcards_json_2 : string :=
  dq "{'flashcards': [{'front': 'Mitosis', 'back': 'Division of a cell'}, {'front': 'Cell', 'back': 'A unit'}]}".
Definition flashcards_val_2 : PyVal :=
  PDict [("flashcards",
          PList [PDict [("front", PStr "Mitosis"); ("back", PStr "Division of a cell")];
                 PDict [("front", PStr "Cell"); ("back", PStr "A unit")]])].

(** [json.loads] on the JSON texts of the examples.  The other texts of the
    examples are [deep_json] below, the empty text, where the decoder expects
    a value, and texts that open a brace on something that is no key. *)
Definition sample_json_table : list (string * PyVal) :=
  [ (summary_json_1, summary_val_1);
    (quiz_json "1", quiz_val 1);
    (quiz_json "-1", quiz_val (-1));
    (quiz_json "7", quiz_val 7);
    (flashcards_json_1, flashcards_val_1);
    (summary_json_2, summary_val_2);
    (quiz_json "0", quiz_val 0);
    (flashcards_json_2, flashcards_val_2) ].

(** A reply that opens 100000 objects, each the value of the key "a" of the
    one before, and closes one: its braces are unbalanced, and it is nested
    far deeper than the recursion limit of the interpreter (1000 frames
    unless the program raises it, which this one does not). *)
Definition deep_json : string :=
  N.iter 100000 (fun s => dq "{'a':" +:+ s) (String rbrace EmptyString).


Definition sample_json_loads (s : string) : Result PyVal :=
  match dict_lookup s sample_json_table with
  | Some v => Ok v
  | None =>
      if String.eqb s deep_json
      then Raise (RecursionError
                    "maximum recursion depth exceeded while decoding a JSON object from a unicode string")
      else if str_is_empty s
      then Raise (JSONDecodeError "Expecting value: line 1 column 1 (char 0)")
      else Raise (JSONDecodeError
                    "Expecting property name enclosed in double quotes: line 1 column 2 (char 1)")
  end.

(** pydantic on the sample values: the items are taken as they are. *)
Definition sample_pydantic_model (cls : ModelClass) (items : list (string * PyVal))
    : string + PyVal :=
  inr (PDict items).

Definition type_name (v : PyVal) : string :=
  match v with
  | PNone => "NoneType"
  | PBool _ => "bool"
  | PInt _ => "int"
  | PFloat _ => "float"
  | PStr _ => "str"
  | PList _ => "list"
  | PDict _ => "dict"
  end.

Definition class_name (cls : ModelClass) : string :=
  match cls with
  | SummaryResponse => "SummaryResponse"
  | QuizResponse => "QuizResponse"
  | FlashcardsResponse => "FlashcardsResponse"
  end.

(** The texts of Starlette's [HTTPException.__str__] and of the exceptions
    of the interpreter (CPython 3.11, the program started as a script) that
    the examples meet.  The text of a [KeyError] is the [repr] of the key;
    no key of the examples is a float or holds an apostrophe. *)
Definition sample_exception_text (e : Exn) : string :=
  match e with
  | HTTPException code detail => pretty code +:+ ": " +:+ detail
  | IndexError (PList _) _ => "list index out of range"
  | IndexError _ _ => "string index out of range"
  | KeyError (PStr k) => String apostrophe k +:+ String apostrophe EmptyString
  | KeyError (PInt n) => pretty n
  | KeyError PNone => "None"
  | KeyError (PBool b) => if b then "True" else "False"
  | KeyError _ => "key"
  | AttributeError v attr =>
      String apostrophe (type_name v) +:+ "' object has no attribute '" +:+ attr
        +:+ String apostrophe EmptyString
  | TypeError Iterate v _ =>
      String apostrophe (type_name v) +:+ "' object is not iterable"
  | TypeError (Unpack cls) v _ =>
      "__main__." +:+ class_name cls
        +:+ "() argument after ** must be a mapping, not " +:+ type_name v
  | TypeError Subscript (PList _) k =>
      "list indices must be integers or slices, not " +:+ type_name k
  | TypeError Subscript (PStr _) k =>
      "string indices must be integers, not '" +:+ type_name k
        +:+ String apostrophe EmptyString
  | TypeError Subscript (PDict _) k =>
      "unhashable type: '" +:+ type_name k +:+ String apostrophe EmptyString
  | TypeError Subscript v _ =>
      String apostrophe (type_name v) +:+ "' object is not subscriptable"
  | ValueError m | JSONDecodeError m | RecursionError m | HTTPError m
  | LibraryError m => m
  end.

(** A chat completion whose message content is [text]. *)
Definition completion (text : string) : Upstream :=
  UpJSON (PDict [("id", PStr "gen-1");
                 ("choices",
                  PList [PDict [("index", PInt 0);
                                ("message", PDict [("role", PStr "assistant");
                                                   ("content", PStr text)])]])]).

(** An environment with the given variable and the given upstream replies,
    one for each call in turn; after them the endpoint times out. *)
Definition sample_env (key : option string) (replies : list Upstream) : Env :=
  {| environ_OPENROUTER_API_KEY := key;
     datetime_now := sample_now;
     isoformat := sample_isoformat;
     pdf_reader := sample_pdf_reader;
     httpx_post := fun n _ _ => nth n replies (UpHTTPError "timed out");
     json_loads := sample_json_loads;
     pydantic_model := sample_pydantic_model;
     exception_text := sample_exception_text |}.

Definition prose (json : string) : string :=
  "Here is the result:" +:+ String newline json +:+ String newline "Good luck!".

(** The replies of one processing run, with the given index for the answer
    of the quiz. *)
Definition replies_1 (index : string) : list Upstream :=
  [ completion (prose summary_json_1);
    completion (prose (quiz_json index));
    completion flashcards_json_1 ].

Definition replies_2 : list Upstream :=
  [ completion summary_json_2;
    completion (quiz_json "0");
    completion (prose flashcards_json_2) ].

Definition empty_world : World :=
  {| documents_storage := ∅; now_calls := 0; post_calls := 0; file_reads := 0 |}.

Definition lecture_upload : UploadFile :=
  {| filename := "Lecture1.PDF"; file_bytes := lecture_pdf |}.

Definition blank_upload : UploadFile :=
  {| filename := "blank.pdf"; file_bytes := blank_pdf |}.

(** The world after the lecture has been uploaded. *)
Definition uploaded_world (E : Env) : World :=
  snd (upload_document E lecture_upload "Biology" empty_world).

(** ** Notions used to state the properties *)

(** [c] occurs in [s]. *)
Fixpoint has_char (c : ascii) (s : string) : bool :=
  match s with
  | EmptyString => false
  | String a s' => Ascii.eqb a c || has_char c s'
  end.

(** [needle] occurs in [hay]. *)
Definition is_substring (needle hay : string) : Prop :=
  exists pre post, hay = pre +:+ needle +:+ post.

(** The name ends in ".pdf", in any mix of upper and lower case. *)
Definition ends_in_pdf (name : string) : Prop :=
  exists stem c1 c2 c3,
    name = stem +:+ String "."%char (String c1 (String c2 (String c3 EmptyString)))
    /\ (c1 = "p"%char \/ c1 = "P"%char)
    /\ (c2 = "d"%char \/ c2 = "D"%char)
    /\ (c3 = "f"%char \/ c3 = "F"%char).

(** The text is empty or consists of white space only. *)
Fixpoint whitespace_only (s : string) : bool :=
  match s with
  | EmptyString => true
  | String a s' => is_space a && whitespace_only s'
  end.

(** The text PyPDF2 extracts from the pages, before it is stripped. *)
Definition pages_text (pages : list string) : string :=
  fold_left (fun text page => text +:+ (page +:+ String newline EmptyString))
            pages EmptyString.

(** What the model returned to the [n]-th call with this prompt, decoded by
    the response parser. *)
Definition model_output (E : Env) (n : nat) (prompt : string) : Result PyVal :=
  match httpx_post E n prompt 2000 with
  | UpJSON result => rbind (message_content result) (parse_json_response E)
  | UpHTTPError msg => Raise (HTTPError msg)
  | UpBadBody msg => Raise (JSONDecodeError msg)
  end.

(** The flashcards stored for the cards of the model, from position [i] on. *)
Fixpoint cards_match (document_id : string) (i : nat)
    (cards : list PyVal) (stored : list FlashcardRec) : Prop :=
  match cards, stored with
  | [], [] => True
  | card :: cards', fc :: stored' =>
      fc_id fc = "fc-" +:+ document_id +:+ "-" +:+ pretty (i + 1)%nat
      /\ fc_document_id fc = document_id
      /\ py_get card "front" (PStr EmptyString) = Ok (fc_question fc)
      /\ py_get card "back" (PStr EmptyString) = Ok (fc_answer fc)
      /\ cards_match document_id (S i) cards' stored'
  | _, _ => False
  end.

(** The questions stored for the questions of the model, from position [i]
    on. *)
Fixpoint questions_match (document_id : string) (i : nat)
    (qs : list PyVal) (stored : list QuestionRec) : Prop :=
  match qs, stored with
  | [], [] => True
  | q :: qs', sq :: stored' =>
      q_id sq = "q-" +:+ document_id +:+ "-" +:+ pretty (i + 1)%nat
      /\ q_quiz_id sq = "quiz-" +:+ document_id
      /\ py_get q "question" (PStr EmptyString) = Ok (q_question sq)
      /\ py_get q "options" (PList []) = Ok (q_options sq)
      /\ quiz_correct_answer q = Ok (q_correct_answer sq)
      /\ questions_match document_id (S i) qs' stored'
  | _, _ => False
  end.


(** [m] never changes [documents_storage]. *)
Definition keeps_store {A : Type} (m : M A) : Prop :=
  forall w r w', m w = (r, w') -> documents_storage w' = documents_storage w.

(** When [m] raises, [documents_storage] is as before. *)
Definition fails_clean {A : Type} (m : M A) : Prop :=
  forall w e w', m w = (Raise e, w') -> documents_storage w' = documents_storage w.

(** The text Starlette or the interpreter gives to the configuration error
    when a handler wraps it. *)
Definition unconfigured_text (E : Env) : string :=
  exception_text E (HTTPException 500 "OpenRouter API key not configured").

(** The sample runs: the lecture is uploaded, then processed once, then
    processed again. *)
Definition lecture_id : string := "1700000000".

Definition E_once : Env := sample_env None (replies_1 "1").
Definition E_twice : Env := sample_env None (replies_1 "1" ++ replies_2).
Definition E_negative : Env := sample_env None (replies_1 "-1").
Definition E_beyond : Env := sample_env None (replies_1 "7").
Definition E_empty_key : Env := sample_env (Some EmptyString) (replies_1 "1").

Definition w_uploaded : World := uploaded_world E_once.

(** The record of the lecture after the upload. *)
Definition lecture_record : DocRecord :=
  {| rec_id := lecture_id;
     rec_title := "Biology";
     rec_created_at := "2023-11-14T22:13:20.002000";
     rec_user_id := "default-user-id";
     rec_file_path := "/uploads/1700000000.pdf";
     rec_pdf_text := "Cells are the basic unit of life." +:+ String newline "They divide.";
     rec_processed := false;
     rec_summary := None;
     rec_flashcards := None;
     rec_quiz := None |}.

Definition notes_upload : UploadFile :=
  {| filename := "notes.txt"; file_bytes := lecture_pdf |}.
Definition w_processed (E : Env) : World :=
  snd (process_document E lecture_id w_uploaded).
Definition w_reprocessed : World :=
  snd (process_document E_twice lecture_id (w_processed E_twice)).

Definition success_reply : ProcessReply :=
  {| reply_status := "success";
     reply_message := "Document processed successfully with AI-generated content";
     reply_document_id := lecture_id |}.

(** A chat completion without text: the content of the message is null. *)
Definition null_completion : Upstream :=
  UpJSON (PDict [("id", PStr "gen-2");
                 ("choices",
                  PList [PDict [("index", PInt 0);
                                ("message", PDict [("role", PStr "assistant");
                                                   ("content", PNone)])]])]).

Definition E_null : Env := sample_env None [null_completion].

(** An endpoint that times out on every call. *)
Definition E_down : Env := sample_env None [].


(** The response to the upload of the lecture. *)
Definition lecture_document : Document :=
  {| resp_id := lecture_id;
     resp_title := "Biology";
     resp_created_at := "2023-11-14T22:13:20.003000" |}.

(** ** The session and attempt endpoints *)

Record SessionStarted := {
  started_id : string;
  started_status : string
}.

Record SessionEnded := {
  ended_status : string;
  ended_session_id : string
}.

Record AttemptTracked := {
  tracked_status : string;
  tracked_attempt_id : string
}.

Record QuizAttemptTracked := {
  quiz_tracked_status : string;
  quiz_tracked_attempt_id : string
}.

Section Tracking.

Context (E : Env).

(** POST /analytics/session/start; the body is a JSON object. *)
Definition start_study_session (session_data : list (string * PyVal)) : M SessionStarted :=
  try_except
    (t <- now E ;;
     let session_id := "session-" +:+ pretty (timestamp_int t) in
     ret {| started_id := session_id; started_status := "started" |})
    (fun e => raise (HTTPException 500 ("Error starting session: " +:+ exn_str E e))).

(** POST /analytics/session/{session_id}/end *)
Definition end_study_session (session_id : string) : M SessionEnded :=
  try_except
    (ret {| ended_status := "ended"; ended_session_id := session_id |})
    (fun e => raise (HTTPException 500 ("Error ending session: " +:+ exn_str E e))).

(** POST /analytics/flashcard/attempt *)
Definition track_flashcard_attempt (attempt_data : list (string * PyVal)) : M AttemptTracked :=
  try_except
    (t <- now E ;;
     ret {| tracked_status := "tracked";
            tracked_attempt_id := "attempt-" +:+ pretty (timestamp_int t) |})
    (fun e => raise (HTTPException 500
                       ("Error tracking flashcard attempt: " +:+ exn_str E e))).

(** POST /analytics/quiz/attempt *)
Definition track_quiz_attempt (quiz_data : list (string * PyVal)) : M QuizAttemptTracked :=
  try_except
    (t <- now E ;;
     ret {| quiz_tracked_status := "tracked";
            quiz_tracked_attempt_id := "quiz-attempt-" +:+ pretty (timestamp_int t) |})
    (fun e => raise (HTTPException 500
                       ("Error tracking quiz attempt: " +:+ exn_str E e))).

End Tracking.

(** ** The requests of a client, one after the other *)

Inductive Request : Type :=
| PostUploadPdf (file : UploadFile)
| PostGenerateSummary (text : string)
| PostGenerateQuiz (text : string)
| PostGenerateFlashcards (text : string)
| PostDocumentsUpload (pdf : UploadFile) (title : string)
| PostDocumentProcess (document_id : string)
| GetDocument (document_id : string)
| PostSessionStart (session_data : list (string * PyVal))
| PostSessionEnd (session_id : string)
| PostFlashcardAttempt (attempt_data : list (string * PyVal))
| PostQuizAttempt (quiz_data : list (string * PyVal)).

(** The status of the response and the world after the handler has run. *)
Definition answer {A : Type} (m : M A) (w : World) : Z * World :=
  (http_status (fst (m w)), snd (m w)).

Definition serve (E : Env) (r : Request) : World -> Z * World :=
  match r with
  | PostUploadPdf file => answer (upload_and_process_pdf E file)
  | PostGenerateSummary text => answer (generate_summary E text)
  | PostGenerateQuiz text => answer (generate_quiz E text)
  | PostGenerateFlashcards text => answer (generate_flashcards E text)
  | PostDocumentsUpload pdf title => answer (upload_document E pdf title)
  | PostDocumentProcess document_id => answer (process_document E document_id)
  | GetDocument document_id => answer (get_document E document_id)
  | PostSessionStart session_data => answer (start_study_session E session_data)
  | PostSessionEnd session_id => answer (end_study_session E session_id)
  | PostFlashcardAttempt attempt_data => answer (track_flashcard_attempt E attempt_data)
  | PostQuizAttempt quiz_data => answer (track_quiz_attempt E quiz_data)
  end.

(** The world after the requests have been served in turn. *)
Fixpoint run (E : Env) (requests : list Request) (w : World) : World :=
  match requests with
  | [] => w
  | r :: rest => run E rest (snd (serve E r w))
  end.

(** ** Further notions used to state the properties *)

Definition first_char (s : string) : option ascii :=
  match s with
  | EmptyString => None
  | String a _ => Some a
  end.

Fixpoint last_char (s : string) : option ascii :=
  match s with
  | EmptyString => None
  | String a s' => match last_char s' with Some b => Some b | None => Some a end
  end.

(** The answers the artifacts of a document give about the document they
    belong to. *)
Definition artifacts_of (k : string) (s : SummaryRec) (f : list FlashcardRec)
    (q : QuizRec) : Prop :=
  sum_id s = "sum-" +:+ k
  /\ sum_document_id s = k
  /\ qz_id q = "quiz-" +:+ k
  /\ qz_document_id q = k
  /\ Forall (fun fc => fc_document_id fc = k) f
  /\ Forall (fun sq => q_quiz_id sq = qz_id q) (qz_questions q).

(** A well-formed record of the store, under the key [k]. *)
Definition record_ok (k : string) (d : DocRecord) : Prop :=
  rec_id d = k
  /\ (exists seconds : Z, k = pretty seconds)
  /\ rec_user_id d = "default-user-id"
  /\ rec_file_path d = "/uploads/" +:+ k +:+ ".pdf"
  /\ rec_pdf_text d <> EmptyString
  /\ strip (rec_pdf_text d) = rec_pdf_text d
  /\ (if rec_processed d
      then exists s f q,
             rec_summary d = Some s /\ rec_flashcards d = Some f
             /\ rec_quiz d = Some q /\ artifacts_of k s f q
      else rec_summary d = None /\ rec_flashcards d = None /\ rec_quiz d = None).

Definition store_ok (st : gmap string DocRecord) : Prop :=
  forall k d, st !! k = Some d -> record_ok k d.

(** The record [upload_document] writes. *)
Definition uploaded_record (doc_id title created_at pdf_text : string) : DocRecord :=
  {| rec_id := doc_id;
     rec_title := title;
     rec_created_at := created_at;
     rec_user_id := "default-user-id";
     rec_file_path := "/uploads/" +:+ doc_id +:+ ".pdf";
     rec_pdf_text := pdf_text;
     rec_processed := false;
     rec_summary := None;
     rec_flashcards := None;
     rec_quiz := None |}.

(** Every item is a [dict]. *)
Definition is_dict (v : PyVal) : bool :=
  match v with PDict _ => true | _ => false end.

(** The answer of a question can be computed. *)
Definition answerable (q : PyVal) : bool :=
  match quiz_correct_answer q with Ok _ => true | Raise _ => false end.

(* ===================================================================== *)
(** * Part II: properties                                                 *)
(* ===================================================================== *)

(** ** Strings *)

Lemma app_cons (a : ascii) (s t : string) : String a s +:+ t = String a (s +:+ t).
Proof. reflexivity. Qed.

Lemma app_nil_l (t : string) : EmptyString +:+ t = t.
Proof. reflexivity. Qed.

Lemma app_nil_r (s : string) : s +:+ EmptyString = s.
Proof. induction s as [|a s IH]; [done|]. by rewrite app_cons, IH. Qed.

Lemma app_assoc_str (s t u : string) : (s +:+ t) +:+ u = s +:+ (t +:+ u).
Proof. induction s as [|a s IH]; [done|]. by rewrite !app_cons, IH. Qed.

Lemma length_app_str (s t : string) :
  String.length (s +:+ t) = (String.length s + String.length t)%nat.
Proof. induction s as [|a s IH]; [done|]. rewrite app_cons. simpl. by rewrite IH. Qed.


Lemma len_cons (a : ascii) (s : string) : len (String a s) = len s + 1.
Proof. unfold len. simpl. lia. Qed.


Lemma str_find_range (c : ascii) (s : string) : -1 <= str_find c s < len s.
Proof.
  induction s as [|a s IH]; [unfold len; simpl; lia|].
  rewrite len_cons. simpl. destruct (Ascii.eqb a c); [lia|].
  destruct (Z.eqb_spec (str_find c s) (-1)); lia.
Qed.

Lemma str_rfind_range (c : ascii) (s : string) : -1 <= str_rfind c s < len s.
Proof.
  induction s as [|a s IH]; [unfold len; simpl; lia|].
  rewrite len_cons. simpl.
  destruct (Z.eqb_spec (str_rfind c s) (-1)); [destruct (Ascii.eqb a c)|]; lia.
Qed.



Lemma str_find_present (c : ascii) (s : string) :
  has_char c s = true -> 0 <= str_find c s.
Proof.
  induction s as [|a s IH]; [done|]. simpl.
  destruct (Ascii.eqb a c); [lia|]. simpl. intros H. specialize (IH H).
  destruct (Z.eqb_spec (str_find c s) (-1)); lia.
Qed.

Lemma str_rfind_present (c : ascii) (s : string) :
  has_char c s = true -> 0 <= str_rfind c s.
Proof.
  induction s as [|a s IH]; [done|]. simpl. intros H.
  destruct (Z.eqb_spec (str_rfind c s) (-1)) as [Hr|Hr].
  - destruct (Ascii.eqb a c); [lia|]. simpl in H.
    specialize (IH H). lia.
  - pose proof (str_rfind_range c s). lia.
Qed.



Lemma substring_0_app (s t : string) :
  String.substring 0 (String.length s) (s +:+ t) = s.
Proof.
  induction s as [|a s IH].
  - rewrite app_nil_l. simpl. by destruct t.
  - rewrite app_cons. simpl. by rewrite IH.
Qed.

Lemma substring_skip (pre s : string) (n : nat) :
  String.substring (String.length pre) n (pre +:+ s) = String.substring 0 n s.
Proof. induction pre as [|a pre IH]; [done|]. rewrite app_cons. simpl. apply IH. Qed.



Lemma substring_split (s : string) (k : nat) :
  (k <= String.length s)%nat ->
  s = String.substring 0 k s +:+ String.substring k (String.length s - k) s.
Proof.
  revert k. induction s as [|a s IH]; intros k Hk.
  - simpl in Hk. by replace k with 0%nat by lia.
  - destruct k as [|k].
    + rewrite app_nil_l. simpl. f_equal.
      pose proof (substring_0_app s EmptyString) as H. by rewrite app_nil_r in H.
    + simpl in *. rewrite app_cons. f_equal. apply IH. lia.
Qed.

(** [endswith] holds exactly of the strings that are a prefix followed by
    the suffix. *)
Lemma endswith_true_iff (s suffix : string) :
  endswith s suffix = true <-> exists pre, s = pre +:+ suffix.
Proof.
  unfold endswith. split.
  - intros [Hle Heq]%andb_true_iff.
    apply Nat.leb_le in Hle. apply String.eqb_eq in Heq.
    exists (String.substring 0 (String.length s - String.length suffix) s).
    pose proof (substring_split s (String.length s - String.length suffix)) as H.
    replace (String.length s - (String.length s - String.length suffix))%nat
      with (String.length suffix) in H by lia.
    rewrite Heq in H. apply H. lia.
  - intros [pre ->]. rewrite length_app_str. apply andb_true_iff. split.
    + apply Nat.leb_le. lia.
    + apply String.eqb_eq.
      replace (String.length pre + String.length suffix - String.length suffix)%nat
        with (String.length pre) by lia.
      rewrite substring_skip.
      pose proof (substring_0_app suffix EmptyString) as H. by rewrite app_nil_r in H.
Qed.

Lemma lower_app (s t : string) : lower (s +:+ t) = lower s +:+ lower t.
Proof. induction s as [|a s IH]; [done|]. rewrite !app_cons. simpl. by rewrite IH. Qed.

(** A split of the lowered string comes from a split of the string. *)
Lemma lower_split (s p q : string) :
  lower s = p +:+ q -> exists s1 s2, s = s1 +:+ s2 /\ lower s1 = p /\ lower s2 = q.
Proof.
  revert s. induction p as [|a p IH]; intros s H.
  - exists EmptyString, s. by rewrite !app_nil_l in *.
  - destruct s as [|b s]; [done|]. rewrite app_cons in H. simpl in H.
    injection H as Ha Hs. destruct (IH _ Hs) as (s1 & s2 & -> & H1 & H2).
    exists (String b s1), s2. rewrite app_cons. simpl. by rewrite Ha, H1.
Qed.

Lemma lower_char_dot (c : ascii) : lower_char c = "."%char <-> c = "."%char.
Proof. split; [|by intros ->]. destruct c as [[] [] [] [] [] [] [] []]; by vm_compute. Qed.

Lemma lower_char_p (c : ascii) :
  lower_char c = "p"%char <-> c = "p"%char \/ c = "P"%char.
Proof.
  split; [|by intros [->| ->]].
  destruct c as [[] [] [] [] [] [] [] []]; vm_compute; intros H;
    first [ discriminate H | by left | by right ].
Qed.

Lemma lower_char_d (c : ascii) :
  lower_char c = "d"%char <-> c = "d"%char \/ c = "D"%char.
Proof.
  split; [|by intros [->| ->]].
  destruct c as [[] [] [] [] [] [] [] []]; vm_compute; intros H;
    first [ discriminate H | by left | by right ].
Qed.

Lemma lower_char_f (c : ascii) :
  lower_char c = "f"%char <-> c = "f"%char \/ c = "F"%char.
Proof.
  split; [|by intros [->| ->]].
  destruct c as [[] [] [] [] [] [] [] []]; vm_compute; intros H;
    first [ discriminate H | by left | by right ].
Qed.

(** The test of the two upload handlers accepts exactly the names that end
    in ".pdf" in any case. *)
Lemma endswith_pdf_iff (name : string) :
  endswith (lower name) ".pdf" = true <-> ends_in_pdf name.
Proof.
  rewrite endswith_true_iff. split.
  - intros [pre H]. apply lower_split in H as (stem & ext & -> & _ & Hext).
    destruct ext as [|c0 [|c1 [|c2 [|c3 [|c4 ext]]]]]; simpl in Hext; try discriminate.
    injection Hext as H0 H1 H2 H3.
    apply lower_char_dot in H0 as ->.
    exists stem, c1, c2, c3.
    by rewrite <- lower_char_p, <- lower_char_d, <- lower_char_f.
  - intros (stem & c1 & c2 & c3 & -> & H1 & H2 & H3).
    exists (lower stem). rewrite lower_app. f_equal. simpl.
    apply lower_char_p in H1. apply lower_char_d in H2. apply lower_char_f in H3.
    by rewrite H1, H2, H3.
Qed.

(** A needle inside one line of a template occurs in the template. *)
Lemma is_substring_lines (l : list string) (i : nat) (a needle b : string) :
  l !! i = Some (a +:+ needle +:+ b) -> is_substring needle (lines l).
Proof.
  revert i. induction l as [|x l IH]; intros i H; [done|].
  destruct i as [|i]; simpl in H.
  - injection H as ->. destruct l as [|y l].
    + by exists a, b.
    + exists a, (b +:+ String newline (lines (y :: l))).
      change (lines ((a +:+ needle +:+ b) :: y :: l))
        with ((a +:+ needle +:+ b) +:+ String newline (lines (y :: l))).
      by rewrite !app_assoc_str.
  - destruct (IH _ H) as (p & q & Hpq). destruct l as [|y l]; [done|].
    exists (x +:+ String newline p), q.
    change (lines (x :: y :: l)) with (x +:+ String newline (lines (y :: l))).
    rewrite Hpq. by rewrite app_assoc_str.
Qed.

(** ** The prompt builders *)

Lemma summary_prompt_contains (text : string) :
  is_substring text (create_summary_prompt text)
  /\ is_substring "JSON format" (create_summary_prompt text).
Proof.
  split.
  - apply (is_substring_lines _ 4 "    " text EmptyString).
    by rewrite app_nil_r.
  - by apply (is_substring_lines _ 6 "    Please respond in the following " _ ":").
Qed.

Lemma quiz_prompt_contains (text : string) :
  is_substring text (create_quiz_prompt text)
  /\ is_substring "JSON format" (create_quiz_prompt text).
Proof.
  split.
  - apply (is_substring_lines _ 4 "    " text EmptyString).
    by rewrite app_nil_r.
  - by apply (is_substring_lines _ 6 "    Please respond in the following " _ ":").
Qed.

Lemma flashcards_prompt_contains (text : string) :
  is_substring text (create_flashcards_prompt text)
  /\ is_substring "JSON format" (create_flashcards_prompt text).
Proof.
  split.
  - apply (is_substring_lines _ 4 "    " text EmptyString).
    by rewrite app_nil_r.
  - by apply (is_substring_lines _ 6 "    Please respond in the following " _ ":").
Qed.

(** C7. For every non-empty text, the summary, quiz and flashcards prompts
    each contain the text verbatim and the phrase "JSON format". *)
Theorem prompts_embed_text_and_format (text : string) :
  text <> EmptyString ->
  (is_substring text (create_summary_prompt text)
   /\ is_substring "JSON format" (create_summary_prompt text))
  /\ (is_substring text (create_quiz_prompt text)
      /\ is_substring "JSON format" (create_quiz_prompt text))
  /\ (is_substring text (create_flashcards_prompt text)
      /\ is_substring "JSON format" (create_flashcards_prompt text)).
Proof.
  intros _. split; [|split].
  - apply summary_prompt_contains.
  - apply quiz_prompt_contains.
  - apply flashcards_prompt_contains.
Qed.

(** ** The monad *)

Lemma bind_ok_inv {A B : Type} (m : M A) (f : A -> M B) (w w' : World) (b : B) :
  bind m f w = (Ok b, w') ->
  exists a w1, m w = (Ok a, w1) /\ f a w1 = (Ok b, w').
Proof.
  unfold bind. destruct (m w) as [[a|e] w1]; [|discriminate]. eauto.
Qed.

Lemma bind_ok {A B : Type} (m : M A) (f : A -> M B) (w w1 : World) (a : A) :
  m w = (Ok a, w1) -> bind m f w = f a w1.
Proof. unfold bind. by intros ->. Qed.

Lemma bind_raise {A B : Type} (m : M A) (f : A -> M B) (w w1 : World) (e : Exn) :
  m w = (Raise e, w1) -> bind m f w = (Raise e, w1).
Proof. unfold bind. by intros ->. Qed.

Lemma lift_ok_inv {A : Type} (r : Result A) (w w' : World) (a : A) :
  lift r w = (Ok a, w') -> r = Ok a /\ w' = w.
Proof. unfold lift. by intros [= -> ->]. Qed.

Lemma rbind_ok_inv {A B : Type} (r : Result A) (f : A -> Result B) (b : B) :
  rbind r f = Ok b -> exists a, r = Ok a /\ f a = Ok b.
Proof. destruct r as [a|e]; [|discriminate]. simpl. eauto. Qed.

(** A handler that only raises: the block succeeds exactly when its body
    does. *)
Lemma try_except_wrap_ok_inv {A : Type} (m : M A) (wrap : Exn -> Exn)
    (w w' : World) (a : A) :
  try_except m (fun e => raise (wrap e)) w = (Ok a, w') -> m w = (Ok a, w').
Proof. unfold try_except, raise. by destruct (m w) as [[a'|e] w1]. Qed.

Lemma try_except_wrap_raise {A : Type} (m : M A) (wrap : Exn -> Exn)
    (w w1 : World) (e : Exn) :
  m w = (Raise e, w1) ->
  try_except m (fun e => raise (wrap e)) w = (Raise (wrap e), w1).
Proof. unfold try_except, raise. by intros ->. Qed.

(** ** The response parser *)








(** ** The suffix test of the upload handlers *)

(** C8. When the name of the uploaded file does not end in ".pdf" (in any
    case), POST /upload-pdf and POST /documents/upload both answer 400, and
    the world is as before: the upload was not read, no text was extracted. *)
Theorem non_pdf_upload_rejected (E : Env) (file : UploadFile) (title : string)
    (w : World) :
  ~ ends_in_pdf (filename file) ->
  upload_and_process_pdf E file w =
    (Raise (HTTPException 400 "Only PDF files are allowed"), w)
  /\ upload_document E file title w =
       (Raise (HTTPException 400 "File must be a PDF"), w).
Proof.
  intros Hname.
  assert (endswith (lower (filename file)) ".pdf" = false) as Hsuffix.
  { destruct (endswith _ _) eqn:H; [|done]. by apply endswith_pdf_iff in H. }
  unfold upload_and_process_pdf, upload_document. by rewrite Hsuffix.
Qed.

(** ** White space *)

Lemma lstrip_whitespace (s : string) :
  whitespace_only s = true -> lstrip s = EmptyString.
Proof.
  induction s as [|a s IH]; [done|]. simpl.
  intros [Ha Hs]%andb_true_iff. rewrite Ha. by apply IH.
Qed.

Lemma strip_whitespace (s : string) :
  whitespace_only s = true -> strip s = EmptyString.
Proof. intros H. unfold strip. by rewrite lstrip_whitespace. Qed.

(** ** Extraction and the two upload handlers on a document without text *)

Lemma extract_text_blank (E : Env) (file : UploadFile) (pages : list string) (w : World) :
  pdf_reader E (file_bytes file) = inr pages ->
  whitespace_only (pages_text pages) = true ->
  extract_text_from_pdf E file w = (Ok EmptyString, count_read w).
Proof.
  intros Hpages Hblank. unfold extract_text_from_pdf. rewrite Hpages.
  fold (pages_text pages). by rewrite strip_whitespace.
Qed.

(** POST /upload-pdf answers 400 "No text found in PDF". *)
Lemma upload_pdf_blank (E : Env) (file : UploadFile) (pages : list string) (w : World) :
  endswith (lower (filename file)) ".pdf" = true ->
  pdf_reader E (file_bytes file) = inr pages ->
  whitespace_only (pages_text pages) = true ->
  upload_and_process_pdf E file w =
    (Raise (HTTPException 400 "No text found in PDF"), count_read w).
Proof.
  intros Hname Hpages Hblank. unfold upload_and_process_pdf. rewrite Hname. simpl.
  by rewrite (bind_ok _ _ _ _ _ (extract_text_blank E file pages w Hpages Hblank)).
Qed.

(** POST /documents/upload raises the same 400 inside its [try] block, where
    [except Exception] catches it: the answer is 500. *)
Lemma upload_document_blank (E : Env) (file : UploadFile) (title : string)
    (pages : list string) (w : World) :
  endswith (lower (filename file)) ".pdf" = true ->
  pdf_reader E (file_bytes file) = inr pages ->
  whitespace_only (pages_text pages) = true ->
  upload_document E file title w =
    (Raise (HTTPException 500
              ("Error uploading document: "
               +:+ exception_text E (HTTPException 400 "No text found in PDF"))),
     count_read w).
Proof.
  intros Hname Hpages Hblank. unfold upload_document. rewrite Hname. simpl.
  unfold try_except.
  by rewrite (bind_ok _ _ _ _ _ (extract_text_blank E file pages w Hpages Hblank)).
Qed.

(** C4, at a valid PDF of one page without text, named "blank.pdf":
    POST /upload-pdf answers 400 "No text found in PDF", and
    POST /documents/upload answers 500, not 400. *)
Theorem blank_pdf_upload_statuses :
  let E := sample_env None [] in
  pdf_reader E (file_bytes blank_upload) = inr [EmptyString]
  /\ whitespace_only (pages_text [EmptyString]) = true
  /\ fst (upload_and_process_pdf E blank_upload empty_world) =
       Raise (HTTPException 400 "No text found in PDF")
  /\ fst (upload_document E blank_upload "Blank" empty_world) =
       Raise (HTTPException 500 "Error uploading document: 400: No text found in PDF")
  /\ http_status (fst (upload_document E blank_upload "Blank" empty_world)) = 500.
Proof.
  intros E.
  assert (endswith (lower (filename blank_upload)) ".pdf" = true) as Hname
    by (by vm_compute).
  assert (pdf_reader E (file_bytes blank_upload) = inr [EmptyString]) as Hpages
    by reflexivity.
  assert (whitespace_only (pages_text [EmptyString]) = true) as Hblank
    by reflexivity.
  rewrite (upload_pdf_blank E blank_upload _ empty_world Hname Hpages Hblank).
  rewrite (upload_document_blank E blank_upload "Blank" _ empty_world Hname Hpages Hblank).
  done.
Qed.

(** ** Processing a document that is not stored *)

(** The 404 is raised inside the [try] block of [process_document], where
    [except Exception] catches it: the answer is 500. *)
Lemma process_document_unknown_id (E : Env) (document_id : string) (w : World) :
  documents_storage w !! document_id = None ->
  process_document E document_id w =
    (Raise (HTTPException 500
              ("Error processing document: "
               +:+ exception_text E (HTTPException 404 "Document not found"))),
     w).
Proof.
  intros Hnone. unfold process_document.
  unfold try_except, process_document_body, bind, get_storage. by rewrite Hnone.
Qed.

(** Likewise the 400 for a stored record without text. *)
Lemma process_document_no_text (E : Env) (document_id : string) (w : World)
    (document_data : DocRecord) :
  documents_storage w !! document_id = Some document_data ->
  rec_pdf_text document_data = EmptyString ->
  process_document E document_id w =
    (Raise (HTTPException 500
              ("Error processing document: "
               +:+ exception_text E
                     (HTTPException 400 "No text content found for this document"))),
     w).
Proof.
  intros Hsome Htext. unfold process_document.
  unfold try_except, process_document_body, bind, get_storage.
  by rewrite Hsome, Htext.
Qed.

(** C1, at the id "12345" and an empty store:
    POST /documents/12345/process answers 500, not 404. *)
Theorem process_unknown_id_status :
  let E := sample_env None [] in
  documents_storage empty_world !! "12345" = None
  /\ fst (process_document E "12345" empty_world) =
       Raise (HTTPException 500 "Error processing document: 404: Document not found")
  /\ http_status (fst (process_document E "12345" empty_world)) = 500.
Proof.
  intros E.
  assert (documents_storage empty_world !! "12345" = None) as Hnone
    by apply lookup_empty.
  rewrite (process_document_unknown_id E "12345" empty_world Hnone).
  done.
Qed.

(** ** The ids of uploaded documents *)

Lemma sample_now_increasing (n m : nat) : (n < m)%nat -> sample_now n < sample_now m.
Proof. unfold sample_now. lia. Qed.

(** The id of an uploaded document is the integer part of the timestamp of
    the first clock reading of the request, and the record is stored under
    it. *)
Lemma upload_document_ok_inv (E : Env) (pdf : UploadFile) (title : string)
    (w w' : World) (d : Document) :
  upload_document E pdf title w = (Ok d, w') ->
  resp_id d = pretty (timestamp_int (datetime_now E (now_calls w)))
  /\ (rec_title <$> documents_storage w' !! resp_id d) = Some title
  /\ now_calls w' = (3 + now_calls w)%nat.
Proof.
  unfold upload_document. destruct (negb _); [discriminate|]. intros H.
  apply (try_except_wrap_ok_inv _
           (fun e => HTTPException 500 ("Error uploading document: " +:+ exn_str E e)))
    in H.
  unfold bind at 1 in H. unfold extract_text_from_pdf in H.
  destruct (pdf_reader E (file_bytes pdf)) as [msg|pages]; [discriminate|].
  destruct (str_is_empty _); [discriminate|].
  injection H as <- <-. simpl. by rewrite lookup_insert_eq.
Qed.

(** Two uploads whose first readings have the same integer timestamp get
    the same id, and the record of the second replaces the record of the
    first. *)
Lemma uploads_in_same_second_collide (E : Env) (pdf1 pdf2 : UploadFile)
    (title1 title2 : string) (w w1 w2 : World) (d1 d2 : Document) :
  upload_document E pdf1 title1 w = (Ok d1, w1) ->
  upload_document E pdf2 title2 w1 = (Ok d2, w2) ->
  timestamp_int (datetime_now E (now_calls w))
    = timestamp_int (datetime_now E (now_calls w1)) ->
  resp_id d1 = resp_id d2
  /\ (rec_title <$> documents_storage w2 !! resp_id d1) = Some title2.
Proof.
  intros (Hid1 & _ & _)%upload_document_ok_inv (Hid2 & Hrec2 & _)%upload_document_ok_inv
    Hsame.
  assert (resp_id d1 = resp_id d2) as Heq by congruence.
  by rewrite Heq.
Qed.

(** C3, at two uploads within one second (the clock is read every
    millisecond and never goes back): both uploads succeed, both documents
    get the id "1700000000", and the store holds one record, the second. *)
Theorem uploads_in_one_second_share_id :
  let E := sample_env None [] in
  let first := upload_document E lecture_upload "Biology" empty_world in
  let second := upload_document E lecture_upload "Chemistry" (snd first) in
  (forall n m, (n < m)%nat -> datetime_now E n < datetime_now E m)
  /\ (resp_id <$> (match fst first with Ok d => Some d | Raise _ => None end))
       = Some "1700000000"
  /\ (resp_id <$> (match fst second with Ok d => Some d | Raise _ => None end))
       = Some "1700000000"
  /\ size (documents_storage (snd second)) = 1%nat
  /\ (rec_title <$> (documents_storage (snd second) !! "1700000000"))
       = Some "Chemistry".
Proof.
  split; [exact sample_now_increasing|]. by vm_compute.
Qed.

(** ** The gateway *)

Lemma call_openrouter_api_unconfigured (E : Env) (prompt : string) (max_tokens : Z)
    (w : World) :
  OPENROUTER_API_KEY E = EmptyString ->
  call_openrouter_api E prompt max_tokens w =
    (Raise (HTTPException 500 "OpenRouter API key not configured"), w).
Proof. intros Hkey. unfold call_openrouter_api. by rewrite Hkey. Qed.

Lemma call_openrouter_api_ok_inv (E : Env) (prompt : string) (max_tokens : Z)
    (w w' : World) (content : PyVal) :
  call_openrouter_api E prompt max_tokens w = (Ok content, w') ->
  str_is_empty (OPENROUTER_API_KEY E) = false
  /\ w' = count_post w
  /\ exists result,
       httpx_post E (post_calls w) prompt max_tokens = UpJSON result
       /\ message_content result = Ok content.
Proof.
  unfold call_openrouter_api.
  destruct (str_is_empty (OPENROUTER_API_KEY E)); [discriminate|].
  unfold try_except, bind, post, lift, raise.
  destruct (httpx_post E (post_calls w) prompt max_tokens) as [msg|msg|result];
    try discriminate.
  destruct (message_content result) as [c|e] eqn:Hc.
  - intros [= -> <-]. eauto.
  - by destruct e.
Qed.

(** Whatever the outcome, the gateway leaves the store alone. *)
Lemma call_openrouter_api_storage (E : Env) (prompt : string) (max_tokens : Z)
    (w w' : World) (r : Result PyVal) :
  call_openrouter_api E prompt max_tokens w = (r, w') ->
  documents_storage w' = documents_storage w.
Proof.
  unfold call_openrouter_api.
  destruct (str_is_empty (OPENROUTER_API_KEY E)); [by intros [= _ <-]|].
  unfold try_except, bind, post, lift, raise.
  destruct (httpx_post E (post_calls w) prompt max_tokens) as [msg|msg|result].
  - by intros [= _ <-].
  - by intros [= _ <-].
  - destruct (message_content result) as [c|e]; [by intros [= _ <-]|].
    by destruct e; intros [= _ <-].
Qed.

(** A call followed by a parse gives the output of the model for that call. *)
Lemma model_output_intro (E : Env) (prompt : string) (w w1 : World)
    (content data : PyVal) :
  call_openrouter_api E prompt 2000 w = (Ok content, w1) ->
  parse_json_response E content = Ok data ->
  model_output E (post_calls w) prompt = Ok data /\ w1 = count_post w.
Proof.
  intros (_ & -> & result & Hpost & Hcontent)%call_openrouter_api_ok_inv Hparse.
  split; [|done]. unfold model_output. rewrite Hpost, Hcontent. exact Hparse.
Qed.

Lemma now_isoformat_eq (E : Env) (w : World) :
  now_isoformat E w = (Ok (isoformat E (datetime_now E (now_calls w))), count_now w).
Proof. reflexivity. Qed.

(** ** Stepping through a block that succeeded *)

(** The first statement of the block returned [a] and left the world [w]. *)
Tactic Notation "step_ok" ident(H) "as" ident(a) ident(w) ident(Ha) :=
  apply bind_ok_inv in H as (a & w & Ha & H).

(** The first statement is a pure expression that evaluated to [a]. *)
Tactic Notation "step_pure" ident(H) "as" ident(a) ident(Ha) :=
  let w := fresh "w" in
  apply bind_ok_inv in H as (a & w & [Ha ->]%lift_ok_inv & H).

(** The first statement reads the clock. *)
Ltac step_now H :=
  match type of H with
  | bind (now_isoformat ?E) _ ?w = _ =>
      rewrite (bind_ok _ _ _ _ _ (now_isoformat_eq E w)) in H
  end.

(** ** The transformation loops of [process_document] *)

Lemma transform_flashcards_ok_inv (E : Env) (document_id : string)
    (cards : list PyVal) (i : nat) (w w' : World) (stored : list FlashcardRec) :
  transform_flashcards E document_id i cards w = (Ok stored, w') ->
  cards_match document_id i cards stored
  /\ documents_storage w' = documents_storage w.
Proof.
  revert i w stored. induction cards as [|card cards IH]; intros i w stored H.
  - injection H as <- <-. done.
  - simpl in H.
    step_pure H as question Hq.
    step_pure H as answer Ha.
    step_now H.
    step_ok H as rest w3 Hrest.
    injection H as <- <-.
    apply IH in Hrest as [Hmatch Hst]. simpl. done.
Qed.

Lemma transform_questions_ok_inv (E : Env) (document_id : string)
    (qs : list PyVal) (i : nat) (w w' : World) (stored : list QuestionRec) :
  transform_questions E document_id i qs w = (Ok stored, w') ->
  questions_match document_id i qs stored
  /\ documents_storage w' = documents_storage w.
Proof.
  revert i w stored. induction qs as [|q qs IH]; intros i w stored H.
  - injection H as <- <-. done.
  - simpl in H.
    step_pure H as question Hq.
    step_pure H as options Ho.
    step_pure H as answer Ha.
    step_now H.
    step_ok H as rest w4 Hrest.
    injection H as <- <-.
    apply IH in Hrest as [Hmatch Hst]. simpl. done.
Qed.

(** ** A successful [process_document] *)

(** What a successful run did: the three outputs of the model, the
    artifacts built from them, and the record written. *)
Lemma process_document_ok_inv (E : Env) (document_id : string) (w w' : World)
    (reply : ProcessReply) :
  process_document E document_id w = (Ok reply, w') ->
  exists document_data summary_data quiz_data flashcards_data cards qs
         summary flashcards quiz,
    documents_storage w !! document_id = Some document_data
    /\ rec_pdf_text document_data <> EmptyString
    /\ model_output E (post_calls w)
         (create_summary_prompt (rec_pdf_text document_data)) = Ok summary_data
    /\ model_output E (S (post_calls w))
         (create_quiz_prompt (rec_pdf_text document_data)) = Ok quiz_data
    /\ model_output E (S (S (post_calls w)))
         (create_flashcards_prompt (rec_pdf_text document_data)) = Ok flashcards_data
    /\ py_get summary_data "summary" (PStr "Summary not available")
         = Ok (sum_content summary)
    /\ sum_id summary = "sum-" +:+ document_id
    /\ sum_document_id summary = document_id
    /\ rbind (py_get flashcards_data "flashcards" (PList [])) py_iter = Ok cards
    /\ cards_match document_id 0 cards flashcards
    /\ rbind (py_get quiz_data "questions" (PList [])) py_iter = Ok qs
    /\ questions_match document_id 0 qs (qz_questions quiz)
    /\ qz_id quiz = "quiz-" +:+ document_id
    /\ qz_document_id quiz = document_id
    /\ qz_title quiz = "Quiz: " +:+ rec_title document_data
    /\ documents_storage w' =
         <[ document_id := update_processed summary flashcards quiz document_data ]>
           (documents_storage w)
    /\ reply_document_id reply = document_id.
Proof.
  intros H. unfold process_document in H.
  apply (try_except_wrap_ok_inv _
           (fun e => HTTPException 500 ("Error processing document: " +:+ exn_str E e)))
    in H.
  unfold process_document_body in H.
  apply bind_ok_inv in H as (storage & w0 & [= <- <-] & H).
  destruct (documents_storage w !! document_id) as [document_data|] eqn:Hdoc;
    [|discriminate].
  destruct (str_is_empty (rec_pdf_text document_data)) eqn:Htext; [discriminate|].
  step_ok H as c1 w1 Hcall1.
  step_pure H as summary_data Hparse1.
  destruct (model_output_intro _ _ _ _ _ _ Hcall1 Hparse1) as [Hout1 ->].
  step_ok H as c2 w2 Hcall2.
  step_pure H as quiz_data Hparse2.
  destruct (model_output_intro _ _ _ _ _ _ Hcall2 Hparse2) as [Hout2 ->].
  step_ok H as c3 w3 Hcall3.
  step_pure H as flashcards_data Hparse3.
  destruct (model_output_intro _ _ _ _ _ _ Hcall3 Hparse3) as [Hout3 ->].
  step_pure H as content Hcontent.
  step_now H.
  step_pure H as cards Hcards.
  step_ok H as flashcards w6 Hfc.
  apply transform_flashcards_ok_inv in Hfc as [Hfc Hst6].
  step_pure H as qs Hqs.
  step_ok H as questions w8 Hq.
  apply transform_questions_ok_inv in Hq as [Hq Hst8].
  step_now H.
  apply bind_ok_inv in H as (storage' & w9 & [= <- <-] & H).
  simpl in H. rewrite Hst8, Hst6 in H. simpl in H. rewrite Hdoc in H.
  apply bind_ok_inv in H as ([] & w10 & [= <-] & H).
  injection H as <- <-.
  eexists document_data, summary_data, quiz_data, flashcards_data, cards, qs,
    _, flashcards, _.
  split_and!; cycle 15.
  { simpl. reflexivity. }
  all: simpl; try done.
  by destruct (rec_pdf_text document_data).
Qed.

(** ** Failures leave the store alone *)

Create HintDb store discriminated.

Lemma keeps_store_ret {A : Type} (a : A) : keeps_store (ret a).
Proof. by intros w r w' [= _ <-]. Qed.

Lemma keeps_store_raise {A : Type} (e : Exn) : keeps_store (@raise A e).
Proof. by intros w r w' [= _ <-]. Qed.

Lemma keeps_store_lift {A : Type} (r : Result A) : keeps_store (lift r).
Proof. by intros w r' w' [= _ <-]. Qed.

Lemma keeps_store_get_storage : keeps_store get_storage.
Proof. by intros w r w' [= _ <-]. Qed.

Lemma keeps_store_now_isoformat (E : Env) : keeps_store (now_isoformat E).
Proof. by intros w r w' [= _ <-]. Qed.

Lemma keeps_store_call (E : Env) (prompt : string) (max_tokens : Z) :
  keeps_store (call_openrouter_api E prompt max_tokens).
Proof. intros w r w'. apply call_openrouter_api_storage. Qed.

Lemma keeps_store_bind {A B : Type} (m : M A) (f : A -> M B) :
  keeps_store m -> (forall a, keeps_store (f a)) -> keeps_store (bind m f).
Proof.
  intros Hm Hf w r w'. unfold bind.
  destruct (m w) as [[a|e] w1] eqn:H1.
  - intros H2. rewrite (Hf _ _ _ _ H2). eauto.
  - intros [= _ <-]. eauto.
Qed.

Lemma fails_clean_bind {A B : Type} (m : M A) (f : A -> M B) :
  keeps_store m -> (forall a, fails_clean (f a)) -> fails_clean (bind m f).
Proof.
  intros Hm Hf w e w'. unfold bind.
  destruct (m w) as [[a|e1] w1] eqn:H1.
  - intros H2. rewrite (Hf _ _ _ _ H2). eauto.
  - intros [= _ <-]. eauto.
Qed.

Lemma fails_clean_raise {A : Type} (e : Exn) : fails_clean (@raise A e).
Proof. by intros w e' w' [= _ <-]. Qed.

#[local] Hint Resolve keeps_store_ret keeps_store_raise keeps_store_lift
  keeps_store_get_storage keeps_store_now_isoformat keeps_store_call : store.

Lemma keeps_store_transform_flashcards (E : Env) (document_id : string)
    (cards : list PyVal) (i : nat) :
  keeps_store (transform_flashcards E document_id i cards).
Proof.
  revert i. induction cards as [|card cards IH]; intros i; simpl.
  - auto with store.
  - repeat (apply keeps_store_bind; [auto with store|intros ?]).
    auto with store.
Qed.

Lemma keeps_store_transform_questions (E : Env) (document_id : string)
    (qs : list PyVal) (i : nat) :
  keeps_store (transform_questions E document_id i qs).
Proof.
  revert i. induction qs as [|q qs IH]; intros i; simpl.
  - auto with store.
  - repeat (apply keeps_store_bind; [auto with store|intros ?]).
    auto with store.
Qed.

#[local] Hint Resolve keeps_store_transform_flashcards
  keeps_store_transform_questions : store.

Lemma fails_clean_process_document_body (E : Env) (document_id : string) :
  fails_clean (process_document_body E document_id).
Proof.
  unfold process_document_body.
  apply fails_clean_bind; [auto with store|intros storage].
  destruct (storage !! document_id) as [document_data|];
    [|apply fails_clean_raise].
  destruct (str_is_empty _); [apply fails_clean_raise|].
  repeat (apply fails_clean_bind; [auto with store|intros ?]).
  destruct (_ !! document_id); [|apply fails_clean_raise].
  by intros w e w'.
Qed.

(** [process_document] answers with its reply or with a 500; when it fails,
    the store is as it was before the request. *)
Lemma process_document_outcome (E : Env) (document_id : string) (w : World) :
  (exists reply w', process_document E document_id w = (Ok reply, w'))
  \/ (exists detail w',
        process_document E document_id w = (Raise (HTTPException 500 detail), w')
        /\ documents_storage w' = documents_storage w).
Proof.
  unfold process_document, try_except.
  destruct (process_document_body E document_id w) as [[reply|e] w'] eqn:H.
  - left. eauto.
  - right. eexists _, w'. split; [reflexivity|].
    by apply fails_clean_process_document_body in H.
Qed.

(** ** The answer stored for a question *)

(** Python's indexing, spelled out. *)
Lemma seq_index_spec {A : Type} (l : list A) (k : Z) (x : A) :
  seq_index l k = Some x <->
  (0 <= k < Z.of_nat (length l) /\ l !! Z.to_nat k = Some x)
  \/ (- Z.of_nat (length l) <= k < 0 /\ l !! Z.to_nat (k + Z.of_nat (length l)) = Some x).
Proof.
  unfold seq_index.
  destruct (Z.leb_spec 0 k) as [H0|H0],
    (Z.ltb_spec k (Z.of_nat (length l))) as [H1|H1],
    (Z.ltb_spec k 0) as [H2|H2],
    (Z.leb_spec (- Z.of_nat (length l)) k) as [H3|H3];
    simpl; try (exfalso; lia);
    intuition (try lia; try discriminate; try done).
Qed.

Lemma seq_index_out_of_range {A : Type} (l : list A) (k : Z) :
  k < - Z.of_nat (length l) \/ Z.of_nat (length l) <= k -> seq_index l k = None.
Proof.
  intros H. unfold seq_index.
  destruct (Z.leb_spec 0 k), (Z.ltb_spec k (Z.of_nat (length l))),
    (Z.ltb_spec k 0), (Z.leb_spec (- Z.of_nat (length l)) k); simpl; try done; lia.
Qed.

(** With a non-empty list of options, the stored answer is the option at the
    index of the model (0 when the model gave none). *)
Lemma quiz_correct_answer_index (q answer : PyVal) (opts : list PyVal) :
  py_get q "options" (PList []) = Ok (PList opts) ->
  opts <> [] ->
  quiz_correct_answer q = Ok answer ->
  exists index k,
    py_get q "correct_answer" (PInt 0) = Ok index
    /\ as_index index = Some k
    /\ seq_index opts k = Some answer.
Proof.
  intros Hopts Hne Hanswer.
  destruct q as [| | | | | |items]; try discriminate.
  unfold quiz_correct_answer, py_get in *.
  destruct (dict_lookup "options" items) as [o|] eqn:Ho; simpl in *.
  - injection Hopts as ->. destruct opts as [|o opts]; [done|]. simpl in Hanswer.
    exists (from_option id (PInt 0) (dict_lookup "correct_answer" items)).
    destruct (as_index _) as [k|]; [|discriminate].
    exists k. destruct (seq_index _ k) as [x|]; [|discriminate].
    by injection Hanswer as ->.
  - injection Hopts as <-. done.
Qed.

(** An index outside the range of the list raises [IndexError]. *)
Lemma quiz_correct_answer_out_of_range (items : list (string * PyVal))
    (opts : list PyVal) (k : Z) :
  dict_lookup "options" items = Some (PList opts) ->
  opts <> [] ->
  dict_lookup "correct_answer" items = Some (PInt k) ->
  k < - Z.of_nat (length opts) \/ Z.of_nat (length opts) <= k ->
  quiz_correct_answer (PDict items) = Raise (IndexError (PList opts) (PInt k)).
Proof.
  intros Ho Hne Hk Hrange. unfold quiz_correct_answer, py_get. rewrite Ho, Hk.
  destruct opts as [|o opts]; [done|]. simpl.
  by rewrite seq_index_out_of_range.
Qed.

(** Without the key [correct_answer] the index is 0. *)
Lemma quiz_correct_answer_default_index (items : list (string * PyVal))
    (o : PyVal) (opts : list PyVal) :
  dict_lookup "options" items = Some (PList (o :: opts)) ->
  dict_lookup "correct_answer" items = None ->
  quiz_correct_answer (PDict items) = Ok o.
Proof.
  intros Ho Hk. unfold quiz_correct_answer, py_get. rewrite Ho, Hk. simpl.
  unfold seq_index. simpl.
  destruct (Z.ltb_spec 0 (Z.pos (Pos.of_succ_nat (length opts)))); [done|lia].
Qed.

(** Without options, or with an empty list of them, the answer is the empty
    string. *)
Lemma quiz_correct_answer_no_options (items : list (string * PyVal)) :
  dict_lookup "options" items = None \/ dict_lookup "options" items = Some (PList []) ->
  quiz_correct_answer (PDict items) = Ok (PStr EmptyString).
Proof. intros [H|H]; unfold quiz_correct_answer, py_get; by rewrite H. Qed.

Lemma questions_match_lookup (document_id : string) (qs : list PyVal)
    (stored : list QuestionRec) (i j : nat) (q : PyVal) :
  questions_match document_id i qs stored ->
  qs !! j = Some q ->
  exists sq,
    stored !! j = Some sq
    /\ q_id sq = "q-" +:+ document_id +:+ "-" +:+ pretty (i + j + 1)%nat
    /\ py_get q "question" (PStr EmptyString) = Ok (q_question sq)
    /\ py_get q "options" (PList []) = Ok (q_options sq)
    /\ quiz_correct_answer q = Ok (q_correct_answer sq).
Proof.
  revert i j stored. induction qs as [|q0 qs IH]; intros i j stored Hm Hj; [done|].
  destruct stored as [|sq stored]; [done|].
  destruct Hm as (Hid & _ & Hq & Ho & Ha & Hrest).
  destruct j as [|j]; simpl in Hj.
  - injection Hj as ->. exists sq. rewrite Nat.add_0_r. done.
  - destruct (IH _ _ _ Hrest Hj) as (sq' & ? & Hid' & ?).
    exists sq'. replace (i + S j + 1)%nat with (S i + j + 1)%nat by lia. done.
Qed.

Lemma questions_match_length (document_id : string) (qs : list PyVal)
    (stored : list QuestionRec) (i : nat) :
  questions_match document_id i qs stored -> length stored = length qs.
Proof.
  revert i stored. induction qs as [|q qs IH]; intros i [|sq stored] Hm; try done.
  simpl. f_equal. destruct Hm as (_ & _ & _ & _ & _ & Hrest). eauto.
Qed.

Lemma cards_match_length (document_id : string) (cards : list PyVal)
    (stored : list FlashcardRec) (i : nat) :
  cards_match document_id i cards stored -> length stored = length cards.
Proof.
  revert i stored. induction cards as [|c cards IH]; intros i [|fc stored] Hm; try done.
  simpl. f_equal. destruct Hm as (_ & _ & _ & _ & Hrest). eauto.
Qed.

(** ** What GET /documents/{id} serves after processing *)

Lemma get_document_processed (E : Env) (document_id : string) (w : World)
    (stored : DocRecord) :
  documents_storage w !! document_id = Some stored ->
  rec_processed stored = true ->
  get_document E document_id w =
    (Ok {| view_id := rec_id stored;
           view_title := rec_title stored;
           view_created_at := rec_created_at stored;
           view_user_id := rec_user_id stored;
           view_file_path := rec_file_path stored;
           view_summary := rec_summary stored;
           view_flashcards := from_option id [] (rec_flashcards stored);
           view_quiz := rec_quiz stored |}, w).
Proof.
  intros Hdoc Hp. unfold get_document, try_except, bind, get_storage.
  by rewrite Hdoc, Hp.
Qed.

(** C5, as amended.  After a successful POST /documents/{id}/process: the
    record of the document is marked processed and holds a summary,
    flashcards and a quiz built from the three outputs of the model; GET
    /documents/{id} then returns exactly these three; and for each question
    of the model whose options are a non-empty list, the stored correct
    answer is the option Python indexing selects at the integer index the
    model returned: the index lies between minus the number of options and
    that number less one; from 0 on it selects the option at that position,
    and below 0 the option that many places before the end of the list. *)
Theorem processed_document_is_served (E : Env) (document_id : string)
    (w w' : World) (reply : ProcessReply) :
  process_document E document_id w = (Ok reply, w') ->
  exists document_data summary_data quiz_data flashcards_data cards qs
         summary flashcards quiz stored view,
    documents_storage w !! document_id = Some document_data
    /\ model_output E (post_calls w)
         (create_summary_prompt (rec_pdf_text document_data)) = Ok summary_data
    /\ model_output E (S (post_calls w))
         (create_quiz_prompt (rec_pdf_text document_data)) = Ok quiz_data
    /\ model_output E (S (S (post_calls w)))
         (create_flashcards_prompt (rec_pdf_text document_data)) = Ok flashcards_data
    /\ rbind (py_get flashcards_data "flashcards" (PList [])) py_iter = Ok cards
    /\ rbind (py_get quiz_data "questions" (PList [])) py_iter = Ok qs
    /\ py_get summary_data "summary" (PStr "Summary not available")
         = Ok (sum_content summary)
    /\ cards_match document_id 0 cards flashcards
    /\ questions_match document_id 0 qs (qz_questions quiz)
    /\ documents_storage w' !! document_id = Some stored
    /\ rec_processed stored = true
    /\ rec_summary stored = Some summary
    /\ rec_flashcards stored = Some flashcards
    /\ rec_quiz stored = Some quiz
    /\ get_document E document_id w' = (Ok view, w')
    /\ view_summary view = Some summary
    /\ view_flashcards view = flashcards
    /\ view_quiz view = Some quiz
    /\ (forall i q opts,
          qs !! i = Some q ->
          py_get q "options" (PList []) = Ok (PList opts) ->
          opts <> [] ->
          exists sq index k,
            qz_questions quiz !! i = Some sq
            /\ q_options sq = PList opts
            /\ py_get q "correct_answer" (PInt 0) = Ok index
            /\ as_index index = Some k
            /\ seq_index opts k = Some (q_correct_answer sq)
            /\ - Z.of_nat (length opts) <= k < Z.of_nat (length opts)
            /\ (0 <= k -> opts !! Z.to_nat k = Some (q_correct_answer sq))
            /\ (k < 0 ->
                opts !! Z.to_nat (k + Z.of_nat (length opts))
                = Some (q_correct_answer sq))).
Proof.
  intros H.
  apply process_document_ok_inv in H
    as (document_data & summary_data & quiz_data & flashcards_data & cards & qs
        & summary & flashcards & quiz & Hdoc & _ & Hs & Hq & Hf & Hcontent & _ & _
        & Hcards & Hcm & Hqs & Hqm & _ & _ & _ & Hstore & _).
  set (stored := update_processed summary flashcards quiz document_data).
  assert (documents_storage w' !! document_id = Some stored) as Hstored.
  { rewrite Hstore. apply lookup_insert_eq. }
  eexists document_data, summary_data, quiz_data, flashcards_data, cards, qs,
    summary, flashcards, quiz, stored, _.
  split_and!; try done.
  - by apply get_document_processed.
  - done.
  - done.
  - done.
  - intros i q opts Hi Hopts Hne.
    destruct (questions_match_lookup _ _ _ _ _ _ Hqm Hi)
      as (sq & Hsq & _ & _ & Ho & Ha).
    destruct (quiz_correct_answer_index _ _ _ Hopts Hne Ha)
      as (index & k & Hindex & Hk & Hanswer).
    exists sq, index, k.
    pose proof (proj1 (seq_index_spec _ _ _) Hanswer) as Hspec.
    split_and!; try done.
    + congruence.
    + lia.
    + lia.
    + intros Hk0. destruct Hspec as [[_ ?]|[? _]]; [done|lia].
    + intros Hk0. destruct Hspec as [[? _]|[_ ?]]; [lia|done].
Qed.

(** C9. When POST /documents/{id}/process succeeds a second time, the
    record holds the summary, the flashcards and the quiz built from the
    outputs the model gave to the second call, one flashcard for each card
    and one question for each question of these outputs: the outputs of the
    first call are replaced, nothing is appended.  The other keys of the
    record and the other records are as they were. *)
Theorem reprocessing_overwrites (E : Env) (document_id : string)
    (w0 w1 w2 : World) (r1 r2 : ProcessReply) :
  process_document E document_id w0 = (Ok r1, w1) ->
  process_document E document_id w1 = (Ok r2, w2) ->
  exists first summary1 flashcards1 quiz1
         summary_data quiz_data flashcards_data cards qs
         summary flashcards quiz stored,
    documents_storage w1 !! document_id = Some first
    /\ rec_summary first = Some summary1
    /\ rec_flashcards first = Some flashcards1
    /\ rec_quiz first = Some quiz1
    /\ model_output E (post_calls w1)
         (create_summary_prompt (rec_pdf_text first)) = Ok summary_data
    /\ model_output E (S (post_calls w1))
         (create_quiz_prompt (rec_pdf_text first)) = Ok quiz_data
    /\ model_output E (S (S (post_calls w1)))
         (create_flashcards_prompt (rec_pdf_text first)) = Ok flashcards_data
    /\ rbind (py_get flashcards_data "flashcards" (PList [])) py_iter = Ok cards
    /\ rbind (py_get quiz_data "questions" (PList [])) py_iter = Ok qs
    /\ py_get summary_data "summary" (PStr "Summary not available")
         = Ok (sum_content summary)
    /\ cards_match document_id 0 cards flashcards
    /\ questions_match document_id 0 qs (qz_questions quiz)
    /\ length flashcards = length cards
    /\ length (qz_questions quiz) = length qs
    /\ documents_storage w2 !! document_id = Some stored
    /\ rec_summary stored = Some summary
    /\ rec_flashcards stored = Some flashcards
    /\ rec_quiz stored = Some quiz
    /\ stored = update_processed summary flashcards quiz first
    /\ (forall other, other <> document_id ->
          documents_storage w2 !! other = documents_storage w1 !! other).
Proof.
  intros H1 H2.
  apply process_document_ok_inv in H1
    as (d0 & _ & _ & _ & _ & _ & summary1 & flashcards1 & quiz1 & _ & _ & _ & _ & _
        & _ & _ & _ & _ & _ & _ & _ & _ & _ & _ & Hstore1 & _).
  apply process_document_ok_inv in H2
    as (first & summary_data & quiz_data & flashcards_data & cards & qs
        & summary & flashcards & quiz & Hdoc & _ & Hs & Hq & Hf & Hcontent & _ & _
        & Hcards & Hcm & Hqs & Hqm & _ & _ & _ & Hstore2 & _).
  assert (first = update_processed summary1 flashcards1 quiz1 d0) as Hfirst.
  { rewrite Hstore1, lookup_insert_eq in Hdoc. by injection Hdoc. }
  exists first, summary1, flashcards1, quiz1, summary_data, quiz_data,
    flashcards_data, cards, qs, summary, flashcards, quiz,
    (update_processed summary flashcards quiz first).
  split_and!; try done.
  - by rewrite Hfirst.
  - by rewrite Hfirst.
  - by rewrite Hfirst.
  - by apply cards_match_length in Hcm.
  - by apply questions_match_length in Hqm.
  - rewrite Hstore2. apply lookup_insert_eq.
  - intros other Hother. rewrite Hstore2. by apply lookup_insert_ne.
Qed.

(** C10 (amended). In POST /documents/{id}/process: (1) when a question of
    the quiz the model returned has a non-empty list of options and an
    integer [correct_answer] that is outside the index range of the list,
    that is at least its length or below minus its length, the expression
    for the stored answer raises [IndexError], the request fails with a 500
    and the store is as before; (2) without the key [correct_answer] the
    index is 0; (3) without options, or with an empty list, the stored
    answer is the empty string. *)
Theorem answer_index_out_of_range_fails (E : Env) :
  (forall document_id w document_data quiz_data qs i items opts k,
      documents_storage w !! document_id = Some document_data ->
      model_output E (S (post_calls w))
        (create_quiz_prompt (rec_pdf_text document_data)) = Ok quiz_data ->
      rbind (py_get quiz_data "questions" (PList [])) py_iter = Ok qs ->
      qs !! i = Some (PDict items) ->
      dict_lookup "options" items = Some (PList opts) ->
      opts <> [] ->
      dict_lookup "correct_answer" items = Some (PInt k) ->
      k < - Z.of_nat (length opts) \/ Z.of_nat (length opts) <= k ->
      quiz_correct_answer (PDict items) = Raise (IndexError (PList opts) (PInt k))
      /\ exists detail w',
           process_document E document_id w = (Raise (HTTPException 500 detail), w')
           /\ documents_storage w' = documents_storage w)
  /\ (forall items o opts,
        dict_lookup "options" items = Some (PList (o :: opts)) ->
        dict_lookup "correct_answer" items = None ->
        quiz_correct_answer (PDict items) = Ok o)
  /\ (forall items,
        dict_lookup "options" items = None
        \/ dict_lookup "options" items = Some (PList []) ->
        quiz_correct_answer (PDict items) = Ok (PStr EmptyString)).
Proof.
  split_and!.
  - intros document_id w document_data quiz_data qs i items opts k
      Hdoc Hquiz Hqs Hi Ho Hne Hk Hrange.
    pose proof (quiz_correct_answer_out_of_range _ _ _ Ho Hne Hk Hrange) as Hraise.
    split; [done|].
    destruct (process_document_outcome E document_id w)
      as [(reply & w' & Hok)|(detail & w' & Hfail & Hst)]; [exfalso|by eauto].
    apply process_document_ok_inv in Hok
      as (d & _ & quiz_data' & _ & _ & qs' & _ & _ & quiz & Hdoc' & _ & _ & Hquiz'
          & _ & _ & _ & _ & _ & _ & Hqs' & Hqm & _).
    assert (d = document_data) as -> by congruence.
    assert (quiz_data' = quiz_data) as -> by congruence.
    assert (qs' = qs) as -> by congruence.
    destruct (questions_match_lookup _ _ _ _ _ _ Hqm Hi) as (sq & _ & _ & _ & _ & Ha).
    congruence.
  - apply quiz_correct_answer_default_index.
  - apply quiz_correct_answer_no_options.
Qed.

(** ** Stripping twice *)

Lemma rstrip_idempotent (s : string) : rstrip (rstrip s) = rstrip s.
Proof.
  induction s as [|a s IH]; [done|]. simpl.
  destruct (rstrip s) as [|b r] eqn:Hr.
  - destruct (is_space a) eqn:Ha; [done|]. simpl. by rewrite Ha.
  - simpl in *. by rewrite IH.
Qed.

Lemma lstrip_head (s : string) :
  match lstrip s with
  | EmptyString => True
  | String a _ => is_space a = false
  end.
Proof.
  induction s as [|a s IH]; [done|]. simpl.
  destruct (is_space a) eqn:Ha; [exact IH|exact Ha].
Qed.

Lemma rstrip_head (a : ascii) (s : string) :
  is_space a = false -> exists r, rstrip (String a s) = String a r.
Proof.
  intros Ha. simpl. destruct (rstrip s); rewrite ?Ha; eauto.
Qed.

Lemma strip_idempotent (s : string) : strip (strip s) = strip s.
Proof.
  unfold strip. pose proof (lstrip_head s) as Hh.
  destruct (lstrip s) as [|a u]; [done|].
  destruct (rstrip_head a u Hh) as [r Hr]. rewrite Hr.
  change (lstrip (String a r)) with (if is_space a then lstrip r else String a r).
  rewrite Hh, <- Hr. apply rstrip_idempotent.
Qed.

(** ** A key that is not configured *)

Lemma OPENROUTER_API_KEY_absent (E : Env) :
  environ_OPENROUTER_API_KEY E = None -> OPENROUTER_API_KEY E = DEFAULT_API_KEY.
Proof. unfold OPENROUTER_API_KEY. by intros ->. Qed.

Lemma extract_text_ok (E : Env) (file : UploadFile) (pages : list string) (w : World) :
  pdf_reader E (file_bytes file) = inr pages ->
  extract_text_from_pdf E file w = (Ok (strip (pages_text pages)), count_read w).
Proof. intros H. unfold extract_text_from_pdf. by rewrite H. Qed.

Lemma str_is_empty_false (s : string) : s <> EmptyString -> str_is_empty s = false.
Proof. by destruct s. Qed.

(** C2 (amended). When the variable OPENROUTER_API_KEY is set to the empty
    string, the gateway raises the 500 "OpenRouter API key not configured"
    for every prompt, without a call to the upstream endpoint, and each of
    the five generation endpoints answers 500 with that error wrapped in its
    own detail, for every input that reaches the gateway step. *)
Theorem empty_key_fails_generation (E : Env) :
  environ_OPENROUTER_API_KEY E = Some EmptyString ->
  (forall prompt max_tokens w,
     call_openrouter_api E prompt max_tokens w =
       (Raise (HTTPException 500 "OpenRouter API key not configured"), w))
  /\ (forall file pages w,
        endswith (lower (filename file)) ".pdf" = true ->
        pdf_reader E (file_bytes file) = inr pages ->
        strip (pages_text pages) <> EmptyString ->
        upload_and_process_pdf E file w =
          (Raise (HTTPException 500 ("Error processing PDF: " +:+ unconfigured_text E)),
           count_read w))
  /\ (forall text w,
        strip text <> EmptyString ->
        generate_summary E text w =
          (Raise (HTTPException 500 ("Error generating summary: " +:+ unconfigured_text E)), w)
        /\ generate_quiz E text w =
          (Raise (HTTPException 500 ("Error generating quiz: " +:+ unconfigured_text E)), w)
        /\ generate_flashcards E text w =
          (Raise (HTTPException 500 ("Error generating flashcards: " +:+ unconfigured_text E)), w))
  /\ (forall document_id document_data w,
        documents_storage w !! document_id = Some document_data ->
        rec_pdf_text document_data <> EmptyString ->
        process_document E document_id w =
          (Raise (HTTPException 500 ("Error processing document: " +:+ unconfigured_text E)), w)).
Proof.
  intros Henv.
  assert (OPENROUTER_API_KEY E = EmptyString) as Hkey.
  { unfold OPENROUTER_API_KEY. by rewrite Henv. }
  assert (forall prompt max_tokens w,
            call_openrouter_api E prompt max_tokens w =
              (Raise (HTTPException 500 "OpenRouter API key not configured"), w)) as Hcall.
  { intros. by apply call_openrouter_api_unconfigured. }
  split_and!.
  - exact Hcall.
  - intros file pages w Hname Hpages Htext.
    unfold upload_and_process_pdf. rewrite Hname. simpl.
    rewrite (bind_ok _ _ _ _ _ (extract_text_ok E file pages w Hpages)).
    rewrite strip_idempotent, (str_is_empty_false _ Htext).
    unfold try_except. by rewrite (bind_raise _ _ _ _ _ (Hcall _ _ _)).
  - intros text w Htext. unfold generate_summary, generate_quiz, generate_flashcards.
    rewrite (str_is_empty_false _ Htext). unfold try_except.
    by rewrite !(bind_raise _ _ _ _ _ (Hcall _ _ _)).
  - intros document_id document_data w Hdoc Htext.
    unfold process_document, try_except, process_document_body.
    unfold bind at 1. unfold get_storage. rewrite Hdoc.
    rewrite (str_is_empty_false _ Htext).
    by rewrite (bind_raise _ _ _ _ _ (Hcall _ _ _)).
Qed.

(** ** The properties at the sample runs *)

Lemma prompts_embed_text_and_format_witness :
  "Cells divide." <> EmptyString
  /\ ((is_substring "Cells divide." (create_summary_prompt "Cells divide.")
       /\ is_substring "JSON format" (create_summary_prompt "Cells divide."))
      /\ (is_substring "Cells divide." (create_quiz_prompt "Cells divide.")
          /\ is_substring "JSON format" (create_quiz_prompt "Cells divide."))
      /\ (is_substring "Cells divide." (create_flashcards_prompt "Cells divide.")
          /\ is_substring "JSON format" (create_flashcards_prompt "Cells divide."))).
Proof.
  assert ("Cells divide." <> EmptyString) as H by discriminate.
  split; [exact H|]. exact (prompts_embed_text_and_format "Cells divide." H).
Defined.

Lemma non_pdf_upload_rejected_witness :
  ~ ends_in_pdf (filename notes_upload)
  /\ (upload_and_process_pdf E_once notes_upload empty_world =
        (Raise (HTTPException 400 "Only PDF files are allowed"), empty_world)
      /\ upload_document E_once notes_upload "Notes" empty_world =
           (Raise (HTTPException 400 "File must be a PDF"), empty_world)).
Proof.
  assert (~ ends_in_pdf (filename notes_upload)) as H.
  { intros H%endswith_pdf_iff. vm_compute in H. discriminate H. }
  split; [exact H|]. exact (non_pdf_upload_rejected E_once notes_upload "Notes" empty_world H).
Defined.


Lemma processed_document_is_served_witness :
  process_document E_once lecture_id w_uploaded = (Ok success_reply, w_processed E_once)
  /\ (exists document_data summary_data quiz_data flashcards_data cards qs
         summary flashcards quiz stored view,
    documents_storage w_uploaded !! lecture_id = Some document_data
    /\ model_output E_once (post_calls w_uploaded)
         (create_summary_prompt (rec_pdf_text document_data)) = Ok summary_data
    /\ model_output E_once (S (post_calls w_uploaded))
         (create_quiz_prompt (rec_pdf_text document_data)) = Ok quiz_data
    /\ model_output E_once (S (S (post_calls w_uploaded)))
         (create_flashcards_prompt (rec_pdf_text document_data)) = Ok flashcards_data
    /\ rbind (py_get flashcards_data "flashcards" (PList [])) py_iter = Ok cards
    /\ rbind (py_get quiz_data "questions" (PList [])) py_iter = Ok qs
    /\ py_get summary_data "summary" (PStr "Summary not available")
         = Ok (sum_content summary)
    /\ cards_match lecture_id 0 cards flashcards
    /\ questions_match lecture_id 0 qs (qz_questions quiz)
    /\ documents_storage (w_processed E_once) !! lecture_id = Some stored
    /\ rec_processed stored = true
    /\ rec_summary stored = Some summary
    /\ rec_flashcards stored = Some flashcards
    /\ rec_quiz stored = Some quiz
    /\ get_document E_once lecture_id (w_processed E_once) = (Ok view, (w_processed E_once))
    /\ view_summary view = Some summary
    /\ view_flashcards view = flashcards
    /\ view_quiz view = Some quiz
    /\ (forall i q opts,
          qs !! i = Some q ->
          py_get q "options" (PList []) = Ok (PList opts) ->
          opts <> [] ->
          exists sq index k,
            qz_questions quiz !! i = Some sq
            /\ q_options sq = PList opts
            /\ py_get q "correct_answer" (PInt 0) = Ok index
            /\ as_index index = Some k
            /\ seq_index opts k = Some (q_correct_answer sq)
            /\ - Z.of_nat (length opts) <= k < Z.of_nat (length opts)
            /\ (0 <= k -> opts !! Z.to_nat k = Some (q_correct_answer sq))
            /\ (k < 0 ->
                opts !! Z.to_nat (k + Z.of_nat (length opts))
                = Some (q_correct_answer sq)))).
Proof.
  assert (process_document E_once lecture_id w_uploaded
          = (Ok success_reply, w_processed E_once)) as H by (by vm_compute).
  split; [exact H|].
  exact (processed_document_is_served E_once lecture_id w_uploaded
           (w_processed E_once) success_reply H).
Defined.

Lemma reprocessing_overwrites_witness :
  process_document E_twice lecture_id w_uploaded = (Ok success_reply, w_processed E_twice)
  /\ process_document E_twice lecture_id (w_processed E_twice)
       = (Ok success_reply, w_reprocessed)
  /\ (exists first summary1 flashcards1 quiz1
         summary_data quiz_data flashcards_data cards qs
         summary flashcards quiz stored,
    documents_storage (w_processed E_twice) !! lecture_id = Some first
    /\ rec_summary first = Some summary1
    /\ rec_flashcards first = Some flashcards1
    /\ rec_quiz first = Some quiz1
    /\ model_output E_twice (post_calls (w_processed E_twice))
         (create_summary_prompt (rec_pdf_text first)) = Ok summary_data
    /\ model_output E_twice (S (post_calls (w_processed E_twice)))
         (create_quiz_prompt (rec_pdf_text first)) = Ok quiz_data
    /\ model_output E_twice (S (S (post_calls (w_processed E_twice))))
         (create_flashcards_prompt (rec_pdf_text first)) = Ok flashcards_data
    /\ rbind (py_get flashcards_data "flashcards" (PList [])) py_iter = Ok cards
    /\ rbind (py_get quiz_data "questions" (PList [])) py_iter = Ok qs
    /\ py_get summary_data "summary" (PStr "Summary not available")
         = Ok (sum_content summary)
    /\ cards_match lecture_id 0 cards flashcards
    /\ questions_match lecture_id 0 qs (qz_questions quiz)
    /\ length flashcards = length cards
    /\ length (qz_questions quiz) = length qs
    /\ documents_storage w_reprocessed !! lecture_id = Some stored
    /\ rec_summary stored = Some summary
    /\ rec_flashcards stored = Some flashcards
    /\ rec_quiz stored = Some quiz
    /\ stored = update_processed summary flashcards quiz first
    /\ (forall other, other <> lecture_id ->
          documents_storage w_reprocessed !! other = documents_storage (w_processed E_twice) !! other)).
Proof.
  assert (process_document E_twice lecture_id w_uploaded
          = (Ok success_reply, w_processed E_twice)) as H1 by (by vm_compute).
  assert (process_document E_twice lecture_id (w_processed E_twice)
          = (Ok success_reply, w_reprocessed)) as H2 by (by vm_compute).
  split_and!; [exact H1|exact H2|].
  exact (reprocessing_overwrites E_twice lecture_id w_uploaded (w_processed E_twice)
           w_reprocessed success_reply success_reply H1 H2).
Defined.

(** After the second run the record holds the two flashcards of the second
    run; the one of the first run is gone. *)
Example reprocessed_flashcards :
  (length <$> (documents_storage (w_processed E_twice) !! lecture_id ≫= rec_flashcards))
    = Some 1%nat
  /\ (map fc_question <$> (documents_storage w_reprocessed !! lecture_id ≫= rec_flashcards))
       = Some [PStr "Mitosis"; PStr "Cell"].
Proof. by vm_compute. Qed.

(** C10, as stated, fails at the index -1: with the two options "Rocks" and
    "Cells", the index -1 is outside 0..1, and yet the request succeeds and
    the answer stored is the last option. *)
Lemma negative_answer_index_accepted :
  let run := process_document E_negative lecture_id w_uploaded in
  documents_storage w_uploaded !! lecture_id = Some lecture_record
  /\ model_output E_negative 1 (create_quiz_prompt (rec_pdf_text lecture_record))
       = Ok (quiz_val (-1))
  /\ dict_lookup "options" (sample_question (-1)) = Some (PList sample_options)
  /\ dict_lookup "correct_answer" (sample_question (-1)) = Some (PInt (-1))
  /\ length sample_options = 2%nat
  /\ fst run = Ok success_reply
  /\ http_status (fst run) = 200
  /\ (q_correct_answer <$>
        ((documents_storage (snd run) !! lecture_id ≫= rec_quiz)
           ≫= (fun quiz => qz_questions quiz !! 0%nat)))
       = Some (PStr "Cells").
Proof. by vm_compute. Qed.

Lemma answer_index_out_of_range_fails_witness :
  (documents_storage w_uploaded !! lecture_id = Some lecture_record
   /\ model_output E_beyond (S (post_calls w_uploaded))
        (create_quiz_prompt (rec_pdf_text lecture_record)) = Ok (quiz_val 7)
   /\ rbind (py_get (quiz_val 7) "questions" (PList [])) py_iter
        = Ok [PDict (sample_question 7)]
   /\ [PDict (sample_question 7)] !! 0%nat = Some (PDict (sample_question 7))
   /\ dict_lookup "options" (sample_question 7) = Some (PList sample_options)
   /\ sample_options <> []
   /\ dict_lookup "correct_answer" (sample_question 7) = Some (PInt 7)
   /\ (7 < - Z.of_nat (length sample_options) \/ Z.of_nat (length sample_options) <= 7))
  /\ (quiz_correct_answer (PDict (sample_question 7))
        = Raise (IndexError (PList sample_options) (PInt 7))
      /\ exists detail w',
           process_document E_beyond lecture_id w_uploaded
             = (Raise (HTTPException 500 detail), w')
           /\ documents_storage w' = documents_storage w_uploaded)
  /\ quiz_correct_answer (PDict [("options", PList sample_options)]) = Ok (PStr "Rocks")
  /\ quiz_correct_answer (PDict [("question", PStr "What divides?")]) = Ok (PStr EmptyString).
Proof.
  destruct (answer_index_out_of_range_fails E_beyond) as (H1 & H2 & H3).
  assert (documents_storage w_uploaded !! lecture_id = Some lecture_record)
    as Hdoc by (vm_compute; reflexivity).
  assert (model_output E_beyond (S (post_calls w_uploaded))
            (create_quiz_prompt (rec_pdf_text lecture_record)) = Ok (quiz_val 7))
    as Hquiz by (vm_compute; reflexivity).
  assert (rbind (py_get (quiz_val 7) "questions" (PList [])) py_iter
          = Ok [PDict (sample_question 7)]) as Hqs by reflexivity.
  assert ([PDict (sample_question 7)] !! 0%nat = Some (PDict (sample_question 7)))
    as Hi by reflexivity.
  assert (dict_lookup "options" (sample_question 7) = Some (PList sample_options))
    as Ho by reflexivity.
  assert (sample_options <> []) as Hne by discriminate.
  assert (dict_lookup "correct_answer" (sample_question 7) = Some (PInt 7))
    as Hk by reflexivity.
  assert (7 < - Z.of_nat (length sample_options) \/ Z.of_nat (length sample_options) <= 7)
    as Hrange by (right; simpl; lia).
  pose proof (H1 lecture_id w_uploaded lecture_record (quiz_val 7)
                [PDict (sample_question 7)] 0%nat (sample_question 7)
                sample_options 7 Hdoc Hquiz Hqs Hi Ho Hne Hk Hrange) as [Hraise Hfail].
  split; [exact (conj Hdoc (conj Hquiz (conj Hqs (conj Hi (conj Ho (conj Hne (conj Hk Hrange)))))))|].
  split; [exact (conj Hraise Hfail)|].
  split.
  - exact (H2 [("options", PList sample_options)] (PStr "Rocks") [PStr "Cells"]
              eq_refl eq_refl).
  - exact (H3 [("question", PStr "What divides?")] (or_introl eq_refl)).
Defined.

(** C2, as stated, fails when the variable is absent: the key is then the
    default of the program, the gateway calls the upstream endpoint, and the
    endpoints answer 200. *)
Lemma absent_key_uses_default :
  environ_OPENROUTER_API_KEY E_once = None
  /\ OPENROUTER_API_KEY E_once = DEFAULT_API_KEY
  /\ call_openrouter_api E_once (create_summary_prompt "Cells divide.") 2000 empty_world
       = (Ok (PStr (prose summary_json_1)), count_post empty_world)
  /\ fst (process_document E_once lecture_id w_uploaded) = Ok success_reply
  /\ http_status (fst (process_document E_once lecture_id w_uploaded)) = 200
  /\ http_status (fst (upload_and_process_pdf E_once lecture_upload empty_world)) = 200
  /\ http_status (fst (generate_summary E_once "Cells divide." empty_world)) = 200.
Proof. by vm_compute. Qed.

Lemma empty_key_fails_generation_witness :
  environ_OPENROUTER_API_KEY E_empty_key = Some EmptyString
  /\ call_openrouter_api E_empty_key (create_quiz_prompt "Cells divide.") 2000 empty_world =
       (Raise (HTTPException 500 "OpenRouter API key not configured"), empty_world)
  /\ upload_and_process_pdf E_empty_key lecture_upload empty_world =
       (Raise (HTTPException 500 ("Error processing PDF: " +:+ unconfigured_text E_empty_key)),
        count_read empty_world)
  /\ (generate_summary E_empty_key "Cells divide." empty_world =
        (Raise (HTTPException 500
                  ("Error generating summary: " +:+ unconfigured_text E_empty_key)),
         empty_world)
      /\ generate_quiz E_empty_key "Cells divide." empty_world =
        (Raise (HTTPException 500
                  ("Error generating quiz: " +:+ unconfigured_text E_empty_key)),
         empty_world)
      /\ generate_flashcards E_empty_key "Cells divide." empty_world =
        (Raise (HTTPException 500
                  ("Error generating flashcards: " +:+ unconfigured_text E_empty_key)),
         empty_world))
  /\ process_document E_empty_key lecture_id w_uploaded =
       (Raise (HTTPException 500
                 ("Error processing document: " +:+ unconfigured_text E_empty_key)),
        w_uploaded).
Proof.
  assert (environ_OPENROUTER_API_KEY E_empty_key = Some EmptyString) as Henv
    by reflexivity.
  destruct (empty_key_fails_generation E_empty_key Henv) as (H1 & H2 & H3 & H4).
  split_and!.
  - exact Henv.
  - exact (H1 _ 2000 empty_world).
  - refine (H2 lecture_upload _ empty_world eq_refl eq_refl _). by vm_compute.
  - refine (proj1 (H3 "Cells divide." empty_world _)). by vm_compute.
  - refine (proj1 (proj2 (H3 "Cells divide." empty_world _))). by vm_compute.
  - refine (proj2 (proj2 (H3 "Cells divide." empty_world _))). by vm_compute.
  - refine (H4 lecture_id lecture_record w_uploaded _ _); by vm_compute.
Defined.

(** C5, as stated, fails at the index -1: the model returned the index -1
    for a question with the two options "Rocks" and "Cells"; the request
    succeeds and GET /documents/{id} serves "Cells" as the correct answer,
    which is the option at position 1, while no option is at the index -1. *)
Lemma served_answer_not_at_returned_index :
  let run := process_document E_negative lecture_id w_uploaded in
  let served := fst (get_document E_negative lecture_id (snd run)) in
  fst run = Ok success_reply
  /\ model_output E_negative 1 (create_quiz_prompt (rec_pdf_text lecture_record))
       = Ok (quiz_val (-1))
  /\ rbind (py_get (quiz_val (-1)) "questions" (PList [])) py_iter
       = Ok [PDict (sample_question (-1))]
  /\ py_get (PDict (sample_question (-1))) "options" (PList [])
       = Ok (PList sample_options)
  /\ py_get (PDict (sample_question (-1))) "correct_answer" (PInt 0) = Ok (PInt (-1))
  /\ exists view quiz sq,
       served = Ok view
       /\ view_quiz view = Some quiz
       /\ qz_questions quiz = [sq]
       /\ q_options sq = PList sample_options
       /\ q_correct_answer sq = PStr "Cells"
       /\ sample_options !! 1%nat = Some (q_correct_answer sq)
       /\ ~ (exists i : nat,
               Z.of_nat i = -1 /\ sample_options !! i = Some (q_correct_answer sq)).
Proof.
  intros run served. subst run served.
  split; [vm_compute; reflexivity|].
  split; [vm_compute; reflexivity|].
  split; [reflexivity|].
  split; [reflexivity|].
  split; [reflexivity|].
  eexists _, _, _.
  split; [vm_compute; reflexivity|].
  split; [vm_compute; reflexivity|].
  split; [vm_compute; reflexivity|].
  split; [reflexivity|].
  split; [reflexivity|].
  split; [reflexivity|].
  intros (i & Hi & _). lia.
Qed.


(* ===================================================================== *)
(** * Part III: further properties of the program                         *)
(* ===================================================================== *)

(** ** What [strip] leaves *)

Lemma lstrip_empty_inv (s : string) :
  lstrip s = EmptyString -> whitespace_only s = true.
Proof.
  induction s as [|a s IH]; [done|]. simpl.
  destruct (is_space a); [exact IH|discriminate].
Qed.

Lemma rstrip_empty_inv (s : string) :
  rstrip s = EmptyString -> whitespace_only s = true.
Proof.
  induction s as [|a s IH]; [done|]. simpl.
  destruct (rstrip s) as [|b r]; [|discriminate].
  destruct (is_space a); [|discriminate]. intros _. by apply IH.
Qed.

Lemma whitespace_only_lstrip (s : string) :
  whitespace_only (lstrip s) = true -> whitespace_only s = true.
Proof.
  induction s as [|a s IH]; [done|]. simpl.
  destruct (is_space a) eqn:Ha; [exact IH|]. simpl. by rewrite Ha.
Qed.

Lemma strip_empty_iff (s : string) :
  strip s = EmptyString <-> whitespace_only s = true.
Proof.
  split; [|apply strip_whitespace].
  unfold strip. intros H%rstrip_empty_inv. by apply whitespace_only_lstrip.
Qed.

Lemma first_char_rstrip (s : string) (c : ascii) :
  first_char (rstrip s) = Some c -> first_char s = Some c.
Proof.
  destruct s as [|a s]; [done|]. simpl.
  destruct (rstrip s); [destruct (is_space a)|]; simpl; congruence.
Qed.

Lemma last_char_rstrip (s : string) (c : ascii) :
  last_char (rstrip s) = Some c -> is_space c = false.
Proof.
  induction s as [|a s IH]; [done|]. simpl.
  destruct (rstrip s) as [|b r] eqn:Hr.
  - destruct (is_space a) eqn:Ha; [done|]. simpl. congruence.
  - change (last_char (String a (String b r)))
      with (match last_char (String b r) with Some x => Some x | None => Some a end).
    destruct (last_char (String b r)) as [x|] eqn:Hl;
      [|simpl in Hl; destruct (last_char r); discriminate].
    intros [= ->]. by apply IH.
Qed.

(** The text [strip] returns is empty exactly for a text of white space
    only, and otherwise neither starts nor ends with a white-space
    character. *)
Lemma strip_edges (s : string) :
  (strip s = EmptyString <-> whitespace_only s = true)
  /\ (forall c, first_char (strip s) = Some c -> is_space c = false)
  /\ (forall c, last_char (strip s) = Some c -> is_space c = false).
Proof.
  split_and!.
  - apply strip_empty_iff.
  - intros c H. unfold strip in H. apply first_char_rstrip in H.
    pose proof (lstrip_head s) as Hh. destruct (lstrip s); simpl in H; congruence.
  - intros c. apply last_char_rstrip.
Qed.

(** ** Text extraction *)

Lemma pages_text_fold (pages : list string) (acc : string) :
  fold_left (fun text page => text +:+ (page +:+ String newline EmptyString)) pages acc
  = acc +:+ pages_text pages.
Proof.
  unfold pages_text. revert acc. induction pages as [|p pages IH]; intros acc; simpl.
  - by rewrite app_nil_r.
  - rewrite IH. rewrite (IH (EmptyString +:+ _)).
    by rewrite app_nil_l, app_assoc_str.
Qed.

Lemma whitespace_only_app (s t : string) :
  whitespace_only (s +:+ t) = whitespace_only s && whitespace_only t.
Proof.
  induction s as [|a s IH]; [done|]. rewrite app_cons. simpl.
  by rewrite IH, andb_assoc.
Qed.

Lemma pages_text_cons (p : string) (pages : list string) :
  pages_text (p :: pages) = p +:+ String newline (pages_text pages).
Proof.
  unfold pages_text at 1. simpl. rewrite pages_text_fold.
  by rewrite app_nil_l, app_assoc_str.
Qed.

(** The text of the pages is white space only if and only if the text of
    each page is. *)
Lemma pages_text_blank_iff (pages : list string) :
  whitespace_only (pages_text pages) = true
  <-> Forall (fun page => whitespace_only page = true) pages.
Proof.
  induction pages as [|p pages IH].
  - split; [by constructor|done].
  - rewrite pages_text_cons, whitespace_only_app. simpl.
    rewrite Forall_cons, andb_true_iff, IH. done.
Qed.

(** X1. [extract_text_from_pdf] reads the upload once, whatever the outcome.
    When the PDF reader fails it raises a 400 that carries the text of the
    reader's exception.  Otherwise it returns the text of the pages, each
    followed by a newline, stripped: a text that neither starts nor ends with
    white space, and that is empty exactly when every page is blank. *)
Theorem extract_text_from_pdf_outcome (E : Env) (file : UploadFile) (w w' : World)
    (r : Result string) :
  extract_text_from_pdf E file w = (r, w') ->
  w' = count_read w
  /\ ((exists pages text,
         pdf_reader E (file_bytes file) = inr pages
         /\ r = Ok text
         /\ text = strip (pages_text pages)
         /\ (text = EmptyString
             <-> Forall (fun page => whitespace_only page = true) pages)
         /\ (forall c, first_char text = Some c -> is_space c = false)
         /\ (forall c, last_char text = Some c -> is_space c = false))
      \/ (exists msg,
            pdf_reader E (file_bytes file) = inl msg
            /\ r = Raise (HTTPException 400 ("Error extracting PDF text: " +:+ msg)))).
Proof.
  unfold extract_text_from_pdf.
  destruct (pdf_reader E (file_bytes file)) as [msg|pages]; intros [= <- <-].
  - split; [done|]. right. eauto.
  - split; [done|]. left. exists pages, (strip (pages_text pages)).
    destruct (strip_edges (pages_text pages)) as (Hempty & Hfirst & Hlast).
    split_and!; try done. by rewrite Hempty, pages_text_blank_iff.
Qed.

(** ** The statuses of a guarded block *)

(** A block whose handler wraps every exception into a 500 answers 200 or
    500. *)
Lemma wrapped_block_status {A : Type} (m : M A) (detail : Exn -> string) (w : World) :
  let r := fst (try_except m (fun e => raise (HTTPException 500 (detail e))) w) in
  (exists a, r = Ok a) \/ (exists e, r = Raise (HTTPException 500 (detail e))).
Proof.
  unfold try_except, raise. destruct (m w) as [[a|e] w']; simpl; eauto.
Qed.

Lemma wrapped_block_not_400 {A : Type} (m : M A) (detail : Exn -> string) (w : World) :
  http_status (fst (try_except m (fun e => raise (HTTPException 500 (detail e))) w)) <> 400.
Proof.
  destruct (wrapped_block_status m detail w) as [[a ->]|[e ->]]; simpl; lia.
Qed.

(** ** The endpoints that generate one artifact from a text *)

(** X2. Each of POST /generate-summary, /generate-quiz and
    /generate-flashcards answers 400 exactly when the text is empty or white
    space only, and then with the detail "Text cannot be empty" and without a
    call to the upstream endpoint (the world is unchanged). *)
Theorem generate_rejects_exactly_blank_text (E : Env) (text : string) (w : World) :
  (http_status (fst (generate_summary E text w)) = 400 <-> whitespace_only text = true)
  /\ (http_status (fst (generate_quiz E text w)) = 400 <-> whitespace_only text = true)
  /\ (http_status (fst (generate_flashcards E text w)) = 400
      <-> whitespace_only text = true)
  /\ (whitespace_only text = true ->
      generate_summary E text w = (Raise (HTTPException 400 "Text cannot be empty"), w)
      /\ generate_quiz E text w = (Raise (HTTPException 400 "Text cannot be empty"), w)
      /\ generate_flashcards E text w =
           (Raise (HTTPException 400 "Text cannot be empty"), w)).
Proof.
  unfold generate_summary, generate_quiz, generate_flashcards.
  destruct (whitespace_only text) eqn:Hblank.
  - rewrite (strip_whitespace _ Hblank). simpl. done.
  - assert (str_is_empty (strip text) = false) as ->.
    { destruct (strip text) eqn:Hs; [|done].
      apply strip_empty_iff in Hs. congruence. }
    assert (forall (A : Type) (m : M A) (detail : Exn -> string),
              http_status
                (fst (try_except m (fun e => raise (HTTPException 500 (detail e))) w))
              = 400 <-> false = true) as Hnot.
    { intros A m detail. split; [|discriminate].
      intros H. by apply wrapped_block_not_400 in H. }
    repeat split; try apply Hnot; discriminate.
Qed.

(** X3. POST /upload-pdf answers 400 in exactly three cases: the name of the
    file does not end in ".pdf", the PDF reader fails, or every page of the
    document is blank.  In every other case it answers 200 or 500. *)
Theorem upload_pdf_400_iff (E : Env) (file : UploadFile) (w : World) :
  let status := http_status (fst (upload_and_process_pdf E file w)) in
  (status = 400 <->
     ~ ends_in_pdf (filename file)
     \/ (exists msg, pdf_reader E (file_bytes file) = inl msg)
     \/ (exists pages,
           pdf_reader E (file_bytes file) = inr pages
           /\ Forall (fun page => whitespace_only page = true) pages))
  /\ (status = 200 \/ status = 400 \/ status = 500).
Proof.
  intros status. subst status.
  destruct (upload_and_process_pdf E file w) as [r w'] eqn:Hres. simpl.
  unfold upload_and_process_pdf in Hres.
  destruct (endswith (lower (filename file)) ".pdf") eqn:Hname; simpl in Hres.
  2:{ injection Hres as <- <-. simpl. split; [|by auto]. split; [|done].
      intros _. left. intros H%endswith_pdf_iff. congruence. }
  apply endswith_pdf_iff in Hname.
  unfold bind at 1 in Hres. unfold extract_text_from_pdf in Hres.
  destruct (pdf_reader E (file_bytes file)) as [msg|pages] eqn:Hpages.
  { injection Hres as <- <-. simpl. split; [|by auto]. split; [|done].
    intros _. right. left. eauto. }
  fold (pages_text pages) in Hres. rewrite strip_idempotent in Hres.
  destruct (strip (pages_text pages)) as [|a t] eqn:Hstrip; simpl in Hres.
  { injection Hres as <- <-. simpl. split; [|by auto]. split; [|done].
    intros _. right. right. exists pages.
    split; [done|]. by apply pages_text_blank_iff, strip_empty_iff. }
  assert (http_status r = 200 \/ http_status r = 500) as Hst.
  { match type of Hres with try_except ?m _ ?w0 = _ =>
      pose proof (wrapped_block_status m
                    (fun e => "Error processing PDF: " +:+ exn_str E e) w0) as Hst
    end.
    simpl in Hst. rewrite Hres in Hst. simpl in Hst.
    destruct Hst as [[resp ->]|[e ->]]; simpl; auto. }
  split; [|destruct Hst; auto].
  split; [destruct Hst; lia|].
  intros [H|[[msg H]|(pages' & H & Hblank)]]; [done|congruence|].
  assert (pages' = pages) as -> by congruence.
  apply pages_text_blank_iff, strip_empty_iff in Hblank. congruence.
Qed.

(** ** The gateway *)

Lemma py_getitem_no_http_error (v k : PyVal) (msg : string) :
  py_getitem v k <> Raise (HTTPError msg).
Proof. unfold py_getitem. repeat case_match; discriminate. Qed.

Lemma rbind_no_http_error {A B : Type} (r : Result A) (f : A -> Result B)
    (msg : string) :
  r <> Raise (HTTPError msg) ->
  (forall a, f a <> Raise (HTTPError msg)) ->
  rbind r f <> Raise (HTTPError msg).
Proof. destruct r as [a|e]; simpl; [auto|congruence]. Qed.

(** [message_content] raises no [HTTPError]. *)
Lemma message_content_no_http_error (result : PyVal) (msg : string) :
  message_content result <> Raise (HTTPError msg).
Proof.
  unfold message_content.
  repeat (apply rbind_no_http_error; [apply py_getitem_no_http_error|intros ?]).
  apply py_getitem_no_http_error.
Qed.

Lemma call_openrouter_api_configured (E : Env) (prompt : string) (max_tokens : Z)
    (w : World) :
  str_is_empty (OPENROUTER_API_KEY E) = false ->
  call_openrouter_api E prompt max_tokens w =
    match httpx_post E (post_calls w) prompt max_tokens with
    | UpHTTPError msg =>
        (Raise (HTTPException 500 ("OpenRouter API error: " +:+ msg)), count_post w)
    | UpBadBody msg => (Raise (JSONDecodeError msg), count_post w)
    | UpJSON result =>
        match message_content result with
        | Ok content => (Ok content, count_post w)
        | Raise (KeyError k) =>
            (Raise (HTTPException 500
                      ("Unexpected API response format: "
                       +:+ exception_text E (KeyError k))), count_post w)
        | Raise e => (Raise e, count_post w)
        end
    end.
Proof.
  intros Hkey. unfold call_openrouter_api. rewrite Hkey.
  unfold try_except, bind, post, lift, raise.
  destruct (httpx_post E (post_calls w) prompt max_tokens) as [msg|msg|result];
    try reflexivity.
  destruct (message_content result) as [c|e] eqn:Hc; [reflexivity|].
  destruct e; try reflexivity. by apply message_content_no_http_error in Hc.
Qed.

(** X4. One call of the gateway makes one POST to the upstream endpoint when
    a key is configured, whatever the reply, and none when the key is empty:
    there is no retry.  The store is not touched, and neither an
    [httpx.HTTPError] nor a [KeyError] leaves the gateway: what it raises for
    them is an [HTTPException] with status 500. *)
Theorem gateway_posts_once (E : Env) (prompt : string) (max_tokens : Z)
    (w w' : World) (r : Result PyVal) :
  call_openrouter_api E prompt max_tokens w = (r, w') ->
  documents_storage w' = documents_storage w
  /\ now_calls w' = now_calls w
  /\ post_calls w' =
       (if str_is_empty (OPENROUTER_API_KEY E) then post_calls w
        else S (post_calls w))
  /\ (forall msg, r <> Raise (HTTPError msg))
  /\ (forall k, r <> Raise (KeyError k)).
Proof.
  destruct (str_is_empty (OPENROUTER_API_KEY E)) eqn:Hkey.
  - unfold call_openrouter_api. rewrite Hkey. intros [= <- <-]. done.
  - rewrite (call_openrouter_api_configured _ _ _ _ Hkey).
    destruct (httpx_post E (post_calls w) prompt max_tokens) as [msg|msg|result].
    + intros [= <- <-]. done.
    + intros [= <- <-]. done.
    + pose proof (message_content_no_http_error result) as Hno.
      destruct (message_content result) as [c|e]; [by intros [= <- <-]|].
      destruct e; intros [= <- <-]; split_and!; done.
Qed.

(** X5. When the upstream body is a JSON object whose [choices] is a list
    that starts with an object whose [message] is an object with a key
    [content], the gateway returns that content, whatever else the body
    holds. *)
Theorem gateway_returns_content (E : Env) (prompt : string) (max_tokens : Z)
    (w : World) (body choice message : list (string * PyVal))
    (others : list PyVal) (content : PyVal) :
  str_is_empty (OPENROUTER_API_KEY E) = false ->
  httpx_post E (post_calls w) prompt max_tokens = UpJSON (PDict body) ->
  dict_lookup "choices" body = Some (PList (PDict choice :: others)) ->
  dict_lookup "message" choice = Some (PDict message) ->
  dict_lookup "content" message = Some content ->
  call_openrouter_api E prompt max_tokens w = (Ok content, count_post w).
Proof.
  intros Hkey Hpost Hchoices Hmessage Hcontent.
  rewrite (call_openrouter_api_configured _ _ _ _ Hkey), Hpost.
  unfold message_content. simpl. rewrite Hchoices. simpl.
  rewrite Hmessage. simpl. by rewrite Hcontent.
Qed.

(** X6. The failures of the upstream call, with a key configured: an
    [httpx.HTTPError] becomes a 500 "OpenRouter API error"; a body without
    the key [choices] (or whose [choices] is an object) becomes a 500
    "Unexpected API response format"; but an empty list of choices raises an
    [IndexError], and a body that is no JSON a [JSONDecodeError], that the
    gateway does not catch. *)
Theorem gateway_failures (E : Env) (prompt : string) (max_tokens : Z) (w : World) :
  str_is_empty (OPENROUTER_API_KEY E) = false ->
  (forall msg,
     httpx_post E (post_calls w) prompt max_tokens = UpHTTPError msg ->
     call_openrouter_api E prompt max_tokens w =
       (Raise (HTTPException 500 ("OpenRouter API error: " +:+ msg)), count_post w))
  /\ (forall body,
        httpx_post E (post_calls w) prompt max_tokens = UpJSON (PDict body) ->
        dict_lookup "choices" body = None ->
        call_openrouter_api E prompt max_tokens w =
          (Raise (HTTPException 500
                    ("Unexpected API response format: "
                     +:+ exception_text E (KeyError (PStr "choices")))),
           count_post w))
  /\ (forall body items,
        httpx_post E (post_calls w) prompt max_tokens = UpJSON (PDict body) ->
        dict_lookup "choices" body = Some (PDict items) ->
        call_openrouter_api E prompt max_tokens w =
          (Raise (HTTPException 500
                    ("Unexpected API response format: "
                     +:+ exception_text E (KeyError (PInt 0)))),
           count_post w))
  /\ (forall body,
        httpx_post E (post_calls w) prompt max_tokens = UpJSON (PDict body) ->
        dict_lookup "choices" body = Some (PList []) ->
        call_openrouter_api E prompt max_tokens w =
          (Raise (IndexError (PList []) (PInt 0)), count_post w))
  /\ (forall msg,
        httpx_post E (post_calls w) prompt max_tokens = UpBadBody msg ->
        call_openrouter_api E prompt max_tokens w =
          (Raise (JSONDecodeError msg), count_post w)).
Proof.
  intros Hkey. split_and!.
  - intros msg Hpost. by rewrite (call_openrouter_api_configured _ _ _ _ Hkey), Hpost.
  - intros body Hpost Hchoices.
    rewrite (call_openrouter_api_configured _ _ _ _ Hkey), Hpost.
    unfold message_content. simpl. by rewrite Hchoices.
  - intros body items Hpost Hchoices.
    rewrite (call_openrouter_api_configured _ _ _ _ Hkey), Hpost.
    unfold message_content. simpl. by rewrite Hchoices.
  - intros body Hpost Hchoices.
    rewrite (call_openrouter_api_configured _ _ _ _ Hkey), Hpost.
    unfold message_content. simpl. by rewrite Hchoices.
  - intros msg Hpost. by rewrite (call_openrouter_api_configured _ _ _ _ Hkey), Hpost.
Qed.

(** ** When generation succeeds *)

Lemma model_output_ok_inv (E : Env) (n : nat) (prompt : string) (data : PyVal) :
  model_output E n prompt = Ok data ->
  exists result content,
    httpx_post E n prompt 2000 = UpJSON result
    /\ message_content result = Ok content
    /\ parse_json_response E content = Ok data.
Proof.
  unfold model_output.
  destruct (httpx_post E n prompt 2000) as [msg|msg|result]; try discriminate.
  intros (content & Hc & Hp)%rbind_ok_inv. eauto.
Qed.

(** With a key configured, a call and a parse continue with the output of
    the model. *)
Lemma call_then_parse (E : Env) {A : Type} (prompt : string) (data : PyVal)
    (k : PyVal -> M A) (w : World) :
  str_is_empty (OPENROUTER_API_KEY E) = false ->
  model_output E (post_calls w) prompt = Ok data ->
  (response <- call_openrouter_api E prompt 2000 ;;
   data <- lift (parse_json_response E response) ;;
   k data) w
  = k data (count_post w).
Proof.
  intros Hkey (result & content & Hpost & Hcontent & Hparse)%model_output_ok_inv.
  unfold bind at 1.
  rewrite (call_openrouter_api_configured _ _ _ _ Hkey), Hpost, Hcontent.
  unfold bind, lift. by rewrite Hparse.
Qed.

(** The block of the three endpoints that generate one artifact. *)
Lemma generate_block_ok_iff (E : Env) (prompt : string) (cls : ModelClass)
    (detail : Exn -> string) (w w' : World) (model : PyVal) :
  try_except
    (response <- call_openrouter_api E prompt 2000 ;;
     data <- lift (parse_json_response E response) ;;
     lift (new_model E cls data))
    (fun e => raise (HTTPException 500 (detail e))) w = (Ok model, w')
  <-> str_is_empty (OPENROUTER_API_KEY E) = false
      /\ w' = count_post w
      /\ exists items,
           model_output E (post_calls w) prompt = Ok (PDict items)
           /\ pydantic_model E cls items = inr model.
Proof.
  split.
  - intros H.
    apply (try_except_wrap_ok_inv _ (fun e => HTTPException 500 (detail e))) in H.
    step_ok H as response w1 Hcall.
    step_pure H as data Hparse.
    apply lift_ok_inv in H as [Hmodel ->].
    destruct (model_output_intro _ _ _ _ _ _ Hcall Hparse) as [Hout ->].
    apply call_openrouter_api_ok_inv in Hcall as (Hkey & _ & _).
    split_and!; try done.
    unfold new_model in Hmodel. destruct data; try discriminate.
    destruct (pydantic_model E cls items) eqn:Hp; [discriminate|].
    injection Hmodel as ->. eauto.
  - intros (Hkey & -> & items & Hout & Hmodel).
    unfold try_except. rewrite (call_then_parse E _ _ _ _ Hkey Hout).
    unfold lift, new_model. by rewrite Hmodel.
Qed.

Lemma nonblank_strip (text : string) :
  whitespace_only text = false <-> str_is_empty (strip text) = false.
Proof.
  pose proof (strip_empty_iff text) as H.
  destruct (strip text) eqn:Hs; simpl; destruct (whitespace_only text);
    intuition congruence.
Qed.

(** X7. POST /generate-summary, /generate-quiz and /generate-flashcards
    succeed in exactly one case: the text is not blank, a key is configured,
    the model's reply to the one call made decodes to a JSON object, and
    pydantic accepts the items of that object for the response model of the
    endpoint; the response is then the validated model. *)
Theorem generate_ok_iff (E : Env) (text : string) (w w' : World) (model : PyVal) :
  (generate_summary E text w = (Ok model, w')
   <-> whitespace_only text = false
       /\ str_is_empty (OPENROUTER_API_KEY E) = false
       /\ w' = count_post w
       /\ exists items,
            model_output E (post_calls w) (create_summary_prompt text) = Ok (PDict items)
            /\ pydantic_model E SummaryResponse items = inr model)
  /\ (generate_quiz E text w = (Ok model, w')
      <-> whitespace_only text = false
          /\ str_is_empty (OPENROUTER_API_KEY E) = false
          /\ w' = count_post w
          /\ exists items,
               model_output E (post_calls w) (create_quiz_prompt text) = Ok (PDict items)
               /\ pydantic_model E QuizResponse items = inr model)
  /\ (generate_flashcards E text w = (Ok model, w')
      <-> whitespace_only text = false
          /\ str_is_empty (OPENROUTER_API_KEY E) = false
          /\ w' = count_post w
          /\ exists items,
               model_output E (post_calls w) (create_flashcards_prompt text)
                 = Ok (PDict items)
               /\ pydantic_model E FlashcardsResponse items = inr model).
Proof.
  unfold generate_summary, generate_quiz, generate_flashcards.
  rewrite nonblank_strip.
  destruct (str_is_empty (strip text)).
  - split_and!; (split; [discriminate|by intros [? _]]).
  - rewrite !generate_block_ok_iff. split_and!; (split; [done|by intros [_ ?]]).
Qed.

Lemma new_model_ok_iff (E : Env) (cls : ModelClass) (data model : PyVal) :
  new_model E cls data = Ok model
  <-> exists items, data = PDict items /\ pydantic_model E cls items = inr model.
Proof.
  unfold new_model. split.
  - destruct data; try discriminate.
    destruct (pydantic_model E cls items) eqn:Hp; [discriminate|].
    intros [= ->]. eauto.
  - intros (items & -> & ->). done.
Qed.

(** X8. POST /upload-pdf is all or nothing.  It succeeds in exactly one
    case: the name ends in ".pdf", the reader extracts a text that is not
    blank, a key is configured, each of the three calls (summary, quiz,
    flashcards, in this order, with the stripped text in the prompt) gets a
    reply that decodes to a JSON object, and pydantic accepts all three.  The
    response then holds the three validated models; the upload was read once
    and the upstream endpoint called three times. *)
Theorem upload_pdf_ok_iff (E : Env) (file : UploadFile) (w w' : World)
    (resp : ProcessingResponse) :
  upload_and_process_pdf E file w = (Ok resp, w')
  <-> ends_in_pdf (filename file)
      /\ str_is_empty (OPENROUTER_API_KEY E) = false
      /\ w' = count_post (count_post (count_post (count_read w)))
      /\ exists pages summary_items quiz_items flashcards_items,
           pdf_reader E (file_bytes file) = inr pages
           /\ strip (pages_text pages) <> EmptyString
           /\ model_output E (post_calls w)
                (create_summary_prompt (strip (pages_text pages)))
                = Ok (PDict summary_items)
           /\ model_output E (S (post_calls w))
                (create_quiz_prompt (strip (pages_text pages)))
                = Ok (PDict quiz_items)
           /\ model_output E (S (S (post_calls w)))
                (create_flashcards_prompt (strip (pages_text pages)))
                = Ok (PDict flashcards_items)
           /\ pydantic_model E SummaryResponse summary_items = inr (pr_summary resp)
           /\ pydantic_model E QuizResponse quiz_items = inr (pr_quiz resp)
           /\ pydantic_model E FlashcardsResponse flashcards_items
                = inr (pr_flashcards resp).
Proof.
  rewrite <- endswith_pdf_iff. unfold upload_and_process_pdf. split.
  - destruct (endswith (lower (filename file)) ".pdf"); [simpl|discriminate].
    intros H. unfold bind at 1 in H. unfold extract_text_from_pdf in H.
    destruct (pdf_reader E (file_bytes file)) as [msg|pages]; [discriminate|].
    fold (pages_text pages) in H. rewrite strip_idempotent in H.
    destruct (str_is_empty (strip (pages_text pages))) eqn:Hempty; [discriminate|].
    apply (try_except_wrap_ok_inv _
             (fun e => HTTPException 500 ("Error processing PDF: " +:+ exn_str E e)))
      in H.
    step_ok H as c1 w1 Hcall1. step_pure H as summary_data Hparse1.
    destruct (model_output_intro _ _ _ _ _ _ Hcall1 Hparse1) as [Hout1 ->].
    step_ok H as c2 w2 Hcall2. step_pure H as quiz_data Hparse2.
    destruct (model_output_intro _ _ _ _ _ _ Hcall2 Hparse2) as [Hout2 ->].
    step_ok H as c3 w3 Hcall3. step_pure H as flashcards_data Hparse3.
    destruct (model_output_intro _ _ _ _ _ _ Hcall3 Hparse3) as [Hout3 ->].
    step_pure H as summary Hs. step_pure H as quiz Hq. step_pure H as flashcards Hf.
    injection H as <- <-.
    apply call_openrouter_api_ok_inv in Hcall1 as (Hkey & _ & _).
    apply new_model_ok_iff in Hs as (si & -> & Hs).
    apply new_model_ok_iff in Hq as (qi & -> & Hq).
    apply new_model_ok_iff in Hf as (fi & -> & Hf).
    split_and!; try done. exists pages, si, qi, fi.
    split_and!; try done. by destruct (strip (pages_text pages)).
  - intros (-> & Hkey & -> & pages & si & qi & fi & Hpages & Htext & Hout1 & Hout2
            & Hout3 & Hs & Hq & Hf).
    simpl. unfold bind at 1. unfold extract_text_from_pdf. rewrite Hpages.
    fold (pages_text pages). rewrite strip_idempotent.
    rewrite (str_is_empty_false _ Htext). unfold try_except.
    rewrite (call_then_parse E _ _ _ (count_read w) Hkey Hout1).
    rewrite (call_then_parse E _ _ _ (count_post (count_read w)) Hkey Hout2).
    rewrite (call_then_parse E _ _ _ (count_post (count_post (count_read w)))
               Hkey Hout3).
    unfold bind, lift, new_model, ret. rewrite Hs, Hq, Hf. by destruct resp.
Qed.

(** ** Uploading a document *)

(** The world a successful upload leaves. *)
Lemma upload_document_ok_world (E : Env) (pdf : UploadFile) (title : string)
    (w w' : World) (d : Document) :
  upload_document E pdf title w = (Ok d, w') ->
  endswith (lower (filename pdf)) ".pdf" = true
  /\ exists pages,
       pdf_reader E (file_bytes pdf) = inr pages
       /\ strip (pages_text pages) <> EmptyString
       /\ d = {| resp_id := pretty (timestamp_int (datetime_now E (now_calls w)));
                 resp_title := title;
                 resp_created_at :=
                   isoformat E (datetime_now E (S (S (now_calls w)))) |}
       /\ w' = {| documents_storage :=
                    <[ pretty (timestamp_int (datetime_now E (now_calls w))) :=
                       uploaded_record
                         (pretty (timestamp_int (datetime_now E (now_calls w))))
                         title
                         (isoformat E (datetime_now E (S (now_calls w))))
                         (strip (pages_text pages)) ]> (documents_storage w);
                  now_calls := S (S (S (now_calls w)));
                  post_calls := post_calls w;
                  file_reads := S (file_reads w) |}.
Proof.
  unfold upload_document.
  destruct (endswith (lower (filename pdf)) ".pdf"); [simpl|discriminate].
  intros H.
  apply (try_except_wrap_ok_inv _
           (fun e => HTTPException 500 ("Error uploading document: " +:+ exn_str E e)))
    in H.
  unfold bind at 1 in H. unfold extract_text_from_pdf in H.
  destruct (pdf_reader E (file_bytes pdf)) as [msg|pages]; [discriminate|].
  fold (pages_text pages) in H. rewrite strip_idempotent in H.
  destruct (str_is_empty (strip (pages_text pages))) eqn:Hempty; [discriminate|].
  injection H as <- <-. split; [done|]. exists pages.
  split_and!; try done. by destruct (strip (pages_text pages)).
Qed.

(** X9. POST /documents/upload succeeds exactly when the name ends in ".pdf"
    and the reader extracts a text that is not blank; no key is needed and
    the upstream endpoint is not called.  The id is [int(d.timestamp())] for
    the first of three clock readings, the integer part of a float; the
    record is stored under it with the stripped text, the title, the second
    reading as [created_at], the flag [processed] off and no artifact; the
    response carries the same id and title but the third reading as
    [created_at]. *)
Theorem upload_document_ok_iff (E : Env) (pdf : UploadFile) (title : string)
    (w w' : World) (d : Document) :
  upload_document E pdf title w = (Ok d, w')
  <-> ends_in_pdf (filename pdf)
      /\ exists pages,
           pdf_reader E (file_bytes pdf) = inr pages
           /\ strip (pages_text pages) <> EmptyString
           /\ let n := now_calls w in
              let doc_id := pretty (timestamp_int (datetime_now E n)) in
              d = {| resp_id := doc_id;
                     resp_title := title;
                     resp_created_at := isoformat E (datetime_now E (S (S n))) |}
              /\ w' = {| documents_storage :=
                           <[ doc_id :=
                              uploaded_record doc_id title
                                (isoformat E (datetime_now E (S n)))
                                (strip (pages_text pages)) ]> (documents_storage w);
                         now_calls := S (S (S n));
                         post_calls := post_calls w;
                         file_reads := S (file_reads w) |}.
Proof.
  rewrite <- endswith_pdf_iff. split.
  - intros (Hname & pages & Hpages & Htext & -> & ->)%upload_document_ok_world.
    split; [done|]. exists pages. done.
  - intros (Hname & pages & Hpages & Htext & -> & ->).
    unfold upload_document. rewrite Hname. simpl.
    unfold try_except. unfold bind at 1. unfold extract_text_from_pdf.
    rewrite Hpages. fold (pages_text pages). rewrite strip_idempotent.
    by rewrite (str_is_empty_false _ Htext).
Qed.

(** X10. The statuses of POST /documents/upload: 400 exactly when the name
    does not end in ".pdf"; 500 exactly when the name does but the reader
    fails or every page is blank; 200 otherwise.  Whenever the upload fails
    the store is unchanged. *)
Theorem upload_document_statuses (E : Env) (pdf : UploadFile) (title : string)
    (w : World) :
  let status := http_status (fst (upload_document E pdf title w)) in
  let unusable :=
    (exists msg, pdf_reader E (file_bytes pdf) = inl msg)
    \/ (exists pages,
          pdf_reader E (file_bytes pdf) = inr pages
          /\ Forall (fun page => whitespace_only page = true) pages) in
  (status = 400 <-> ~ ends_in_pdf (filename pdf))
  /\ (status = 500 <-> ends_in_pdf (filename pdf) /\ unusable)
  /\ (status = 200 <-> ends_in_pdf (filename pdf) /\ ~ unusable)
  /\ (status <> 200 ->
      documents_storage (snd (upload_document E pdf title w)) = documents_storage w).
Proof.
  intros status unusable. subst status unusable.
  rewrite <- endswith_pdf_iff.
  destruct (upload_document E pdf title w) as [r w'] eqn:Hres. simpl.
  unfold upload_document in Hres.
  destruct (endswith (lower (filename pdf)) ".pdf"); simpl in Hres.
  2:{ injection Hres as <- <-. simpl.
      split_and!; first [done | split; intros; first [done|lia|naive_solver]]. }
  unfold try_except in Hres. unfold bind at 1 in Hres.
  unfold extract_text_from_pdf in Hres.
  destruct (pdf_reader E (file_bytes pdf)) as [msg|pages] eqn:Hpages.
  { injection Hres as <- <-. simpl.
    split_and!; first [done | split; intros; first [done|lia|naive_solver]]. }
  fold (pages_text pages) in Hres. rewrite strip_idempotent in Hres.
  destruct (strip (pages_text pages)) as [|a t] eqn:Hstrip; simpl in Hres.
  - injection Hres as <- <-. simpl.
    assert (Forall (fun page => whitespace_only page = true) pages) as Hblank
      by (by apply pages_text_blank_iff, strip_empty_iff).
    split_and!; first [done | split; intros; first [done|lia|naive_solver]].
  - injection Hres as <- <-. simpl.
    assert (~ ((exists msg : string, @inr string _ pages = inl msg)
               \/ (exists pages' : list string,
                     @inr string _ pages = inr pages'
                     /\ Forall (fun page => whitespace_only page = true) pages')))
      as Husable.
    { intros [[msg H]|(pages' & [= <-] & Hblank)]; [discriminate|].
      apply pages_text_blank_iff, strip_empty_iff in Hblank. congruence. }
    split_and!; first [done | split; intros; first [done|lia|naive_solver]].
Qed.

(** X11. After a successful upload, GET /documents/{id} with the id of the
    response returns the document that was just stored: the same id and
    title, no summary, no flashcards and no quiz, without reading the clock
    or changing the world.  Its [created_at] is the second clock reading of
    the upload, whereas the upload answered with the third. *)
Theorem upload_then_get (E : Env) (pdf : UploadFile) (title : string)
    (w w' : World) (d : Document) :
  upload_document E pdf title w = (Ok d, w') ->
  exists view,
    get_document E (resp_id d) w' = (Ok view, w')
    /\ view_id view = resp_id d
    /\ view_title view = resp_title d
    /\ view_summary view = None
    /\ view_flashcards view = []
    /\ view_quiz view = None
    /\ view_created_at view = isoformat E (datetime_now E (S (now_calls w)))
    /\ resp_created_at d = isoformat E (datetime_now E (S (S (now_calls w)))).
Proof.
  intros (_ & pages & _ & _ & -> & ->)%upload_document_ok_world.
  eexists. unfold get_document, try_except, bind, get_storage. simpl.
  rewrite lookup_insert_eq. simpl. split_and!; reflexivity.
Qed.

(** ** Fetching a document *)

(** X12. GET /documents/{id} never fails and never answers 404: for a stored
    id it returns the stored record and leaves the world as it is (with no
    artifact while the record is not processed); for any other id it returns
    the sample document, made for that id, after eight clock readings: three
    flashcards and two questions with ids numbered from 1, each question with
    its correct answer among its options.  The store is never changed and the
    upstream endpoint never called. *)
Theorem get_document_never_fails (E : Env) (document_id : string) (w : World) :
  exists view w',
    get_document E document_id w = (Ok view, w')
    /\ documents_storage w' = documents_storage w
    /\ post_calls w' = post_calls w
    /\ (forall d,
          documents_storage w !! document_id = Some d ->
          w' = w
          /\ view_id view = rec_id d
          /\ view_title view = rec_title d
          /\ view_created_at view = rec_created_at d
          /\ (rec_processed d = false ->
              view_summary view = None /\ view_flashcards view = []
              /\ view_quiz view = None))
    /\ (documents_storage w !! document_id = None ->
        now_calls w' = (8 + now_calls w)%nat
        /\ view_id view = document_id
        /\ view_file_path view = "/uploads/" +:+ document_id +:+ ".pdf"
        /\ map fc_id (view_flashcards view)
             = ["fc-" +:+ document_id +:+ "-1"; "fc-" +:+ document_id +:+ "-2";
                "fc-" +:+ document_id +:+ "-3"]
        /\ exists quiz,
             view_quiz view = Some quiz
             /\ map q_id (qz_questions quiz)
                  = ["q-" +:+ document_id +:+ "-1"; "q-" +:+ document_id +:+ "-2"]
             /\ Forall (fun sq => exists opts,
                          q_options sq = PList opts /\ q_correct_answer sq ∈ opts)
                       (qz_questions quiz)).
Proof.
  unfold get_document, try_except. unfold bind at 1. unfold get_storage.
  destruct (documents_storage w !! document_id) as [d|] eqn:Hdoc.
  - destruct (rec_processed d) eqn:Hp; eexists _, w;
      (split; [reflexivity|]); split_and!; try done;
      intros d' [= <-]; split_and!; try done. by rewrite Hp.
  - eexists _, _. split; [reflexivity|]. simpl.
    split; [done|]. split; [done|]. split; [done|]. intros _.
    split_and!; try reflexivity.
    eexists. split; [reflexivity|]. simpl. split; [reflexivity|].
    repeat constructor; eexists; (split; [reflexivity|]);
      apply list_elem_of_In; simpl; auto.
Qed.

(** ** The answer of a question, forwards *)

(** X13. The answer stored for a question whose [options] is a non-empty
    list: when [correct_answer] is an integer (or a boolean, taken as 0 or
    1), the answer is exactly the option Python indexing selects, and
    computing it fails exactly when that index is out of range; when
    [correct_answer] is anything else (a string, a float, null), computing
    it raises a [TypeError], so that the request fails. *)
Theorem correct_answer_by_index (items : list (string * PyVal)) (opts : list PyVal)
    (index : PyVal) :
  dict_lookup "options" items = Some (PList opts) ->
  opts <> [] ->
  dict_lookup "correct_answer" items = Some index ->
  (forall k, as_index index = Some k ->
     (forall o, quiz_correct_answer (PDict items) = Ok o <-> seq_index opts k = Some o)
     /\ (0 <= k < Z.of_nat (length opts) ->
         exists o, opts !! Z.to_nat k = Some o
                   /\ quiz_correct_answer (PDict items) = Ok o))
  /\ (as_index index = None ->
      quiz_correct_answer (PDict items)
        = Raise (TypeError Subscript (PList opts) index)).
Proof.
  intros Ho Hne Hi.
  assert (quiz_correct_answer (PDict items) = py_getitem (PList opts) index) as ->.
  { unfold quiz_correct_answer, py_get. rewrite Ho, Hi. simpl.
    by destruct opts. }
  unfold py_getitem. split.
  - intros k ->. split.
    + intros o. destruct (seq_index opts k); split; congruence.
    + intros Hk. destruct (lookup_lt_is_Some_2 opts (Z.to_nat k)) as [o Hlook]; [lia|].
      exists o. split; [done|].
      assert (seq_index opts k = Some o) as ->; [|done].
      apply seq_index_spec. left. done.
  - by intros ->.
Qed.

(** ** When processing succeeds *)

Lemma transform_flashcards_total (E : Env) (document_id : string)
    (cards : list PyVal) (i : nat) (w : World) :
  forallb is_dict cards = true ->
  exists stored w',
    transform_flashcards E document_id i cards w = (Ok stored, w')
    /\ documents_storage w' = documents_storage w
    /\ now_calls w' = (length cards + now_calls w)%nat
    /\ post_calls w' = post_calls w
    /\ file_reads w' = file_reads w.
Proof.
  revert i w. induction cards as [|card cards IH]; intros i w Hall.
  - eexists _, _. split; [reflexivity|]. done.
  - simpl in Hall. apply andb_true_iff in Hall as [Hcard Hall].
    destruct card; try discriminate.
    destruct (IH (S i) (count_now w) Hall) as (stored & w' & Hrest & Hst & Hn & Hp & Hf).
    eexists _, w'. split.
    + cbn [transform_flashcards].
      unfold now_isoformat, now, ret, lift, py_get, bind. cbv beta iota.
      rewrite Hrest. reflexivity.
    + simpl in *. split_and!; try done. lia.
Qed.

Lemma transform_questions_total (E : Env) (document_id : string)
    (qs : list PyVal) (i : nat) (w : World) :
  forallb answerable qs = true ->
  exists stored w',
    transform_questions E document_id i qs w = (Ok stored, w')
    /\ documents_storage w' = documents_storage w
    /\ now_calls w' = (length qs + now_calls w)%nat
    /\ post_calls w' = post_calls w
    /\ file_reads w' = file_reads w.
Proof.
  revert i w. induction qs as [|q qs IH]; intros i w Hall.
  - eexists _, _. split; [reflexivity|]. done.
  - simpl in Hall. apply andb_true_iff in Hall as [Hq Hall].
    unfold answerable in Hq.
    destruct (quiz_correct_answer q) as [answer|] eqn:Hanswer; [|discriminate].
    assert (exists items, q = PDict items) as [items ->].
    { destruct q; try discriminate. eauto. }
    destruct (IH (S i) (count_now w) Hall) as (stored & w' & Hrest & Hst & Hn & Hp & Hf).
    eexists _, w'. split.
    + cbn [transform_questions].
      unfold now_isoformat, now, ret, lift, py_get, bind. cbv beta iota.
      rewrite Hanswer. cbv beta iota. rewrite Hrest. reflexivity.
    + simpl in *. split_and!; try done. lia.
Qed.

Lemma cards_match_dicts (document_id : string) (cards : list PyVal)
    (stored : list FlashcardRec) (i : nat) :
  cards_match document_id i cards stored -> forallb is_dict cards = true.
Proof.
  revert i stored. induction cards as [|c cards IH]; intros i [|fc stored] Hm; try done.
  destruct Hm as (_ & _ & Hfront & _ & Hrest). simpl.
  rewrite (IH _ _ Hrest), andb_true_r. by destruct c.
Qed.

Lemma questions_match_answerable (document_id : string) (qs : list PyVal)
    (stored : list QuestionRec) (i : nat) :
  questions_match document_id i qs stored -> forallb answerable qs = true.
Proof.
  revert i stored. induction qs as [|q qs IH]; intros i [|sq stored] Hm; try done.
  destruct Hm as (_ & _ & _ & _ & Ha & Hrest). simpl.
  rewrite (IH _ _ Hrest), andb_true_r. unfold answerable. by rewrite Ha.
Qed.

(** X14. POST /documents/{id}/process succeeds in exactly one case: the id
    is stored with a text, a key is configured, the replies to the three
    calls decode to values of which the first is an object, the flashcards
    of the third are objects, and the questions of the second are objects
    whose answer can be computed.  (1) A success implies all of this; (2) all
    of this implies the success, and then the upstream endpoint was called
    three times and the clock read once for the summary, once for each
    flashcard, once for each question and once for the quiz. *)
Theorem process_document_succeeds_exactly (E : Env) (document_id : string) (w : World) :
  (forall reply w',
     process_document E document_id w = (Ok reply, w') ->
     exists document_data summary_data quiz_data flashcards_data cards qs,
       documents_storage w !! document_id = Some document_data
       /\ rec_pdf_text document_data <> EmptyString
       /\ str_is_empty (OPENROUTER_API_KEY E) = false
       /\ model_output E (post_calls w)
            (create_summary_prompt (rec_pdf_text document_data)) = Ok summary_data
       /\ model_output E (S (post_calls w))
            (create_quiz_prompt (rec_pdf_text document_data)) = Ok quiz_data
       /\ model_output E (S (S (post_calls w)))
            (create_flashcards_prompt (rec_pdf_text document_data))
            = Ok flashcards_data
       /\ is_dict summary_data = true
       /\ rbind (py_get flashcards_data "flashcards" (PList [])) py_iter = Ok cards
       /\ forallb is_dict cards = true
       /\ rbind (py_get quiz_data "questions" (PList [])) py_iter = Ok qs
       /\ forallb answerable qs = true)
  /\ (forall document_data summary_data quiz_data flashcards_data cards qs,
        documents_storage w !! document_id = Some document_data ->
        rec_pdf_text document_data <> EmptyString ->
        str_is_empty (OPENROUTER_API_KEY E) = false ->
        model_output E (post_calls w)
          (create_summary_prompt (rec_pdf_text document_data)) = Ok summary_data ->
        model_output E (S (post_calls w))
          (create_quiz_prompt (rec_pdf_text document_data)) = Ok quiz_data ->
        model_output E (S (S (post_calls w)))
          (create_flashcards_prompt (rec_pdf_text document_data))
          = Ok flashcards_data ->
        is_dict summary_data = true ->
        rbind (py_get flashcards_data "flashcards" (PList [])) py_iter = Ok cards ->
        forallb is_dict cards = true ->
        rbind (py_get quiz_data "questions" (PList [])) py_iter = Ok qs ->
        forallb answerable qs = true ->
        exists w',
          process_document E document_id w
            = (Ok {| reply_status := "success";
                     reply_message :=
                       "Document processed successfully with AI-generated content";
                     reply_document_id := document_id |}, w')
          /\ post_calls w' = (3 + post_calls w)%nat
          /\ now_calls w' = (2 + length cards + length qs + now_calls w)%nat
          /\ file_reads w' = file_reads w).
Proof.
  split.
  - intros reply w' H.
    pose proof H as H0.
    apply process_document_ok_inv in H
      as (d & sd & qd & fd & cards & qs & s & f & q & Hdoc & Htext & Hs & Hq & Hf
          & Hcontent & _ & _ & Hcards & Hcm & Hqs & Hqm & _).
    assert (str_is_empty (OPENROUTER_API_KEY E) = false) as Hkey.
    { destruct (str_is_empty (OPENROUTER_API_KEY E)) eqn:Hkey; [exfalso|done].
      assert (OPENROUTER_API_KEY E = EmptyString) as Hk
        by (by destruct (OPENROUTER_API_KEY E)).
      unfold process_document, try_except, process_document_body in H0.
      unfold bind at 1 in H0. unfold get_storage in H0. rewrite Hdoc in H0.
      rewrite (str_is_empty_false _ Htext) in H0.
      rewrite (bind_raise _ _ _ _ _ (call_openrouter_api_unconfigured E _ _ _ Hk)) in H0.
      discriminate. }
    pose proof (cards_match_dicts _ _ _ _ Hcm) as Hcd.
    pose proof (questions_match_answerable _ _ _ _ Hqm) as Hqa.
    assert (is_dict sd = true) as Hsd by (by destruct sd).
    exists d, sd, qd, fd, cards, qs. split_and!; done.
  - intros d sd qd fd cards qs Hdoc Htext Hkey Hs Hq Hf Hsd Hcards Hcd Hqs Hqa.
    destruct sd as [| | | | | |sitems]; try discriminate.
    unfold process_document, try_except, process_document_body.
    unfold bind at 1. unfold get_storage. rewrite Hdoc.
    rewrite (str_is_empty_false _ Htext).
    rewrite (call_then_parse E _ _ _ w Hkey Hs).
    rewrite (call_then_parse E _ _ _ (count_post w) Hkey Hq).
    rewrite (call_then_parse E _ _ _ (count_post (count_post w)) Hkey Hf).
    unfold bind at 1. unfold lift at 1. unfold py_get at 1.
    match goal with |- context [bind (now_isoformat E) _ ?w0] =>
      rewrite (bind_ok _ _ _ _ _ (now_isoformat_eq E w0)) end.
    unfold bind at 1. unfold lift at 1. rewrite Hcards.
    destruct (transform_flashcards_total E document_id cards 0
                (count_now (count_post (count_post (count_post w)))) Hcd)
      as (f' & w5 & Hf' & Hst5 & Hn5 & Hp5 & Hr5).
    rewrite (bind_ok _ _ _ _ _ Hf').
    unfold bind at 1. unfold lift at 1. rewrite Hqs.
    destruct (transform_questions_total E document_id qs 0 w5 Hqa)
      as (q' & w6 & Hq' & Hst6 & Hn6 & Hp6 & Hr6).
    rewrite (bind_ok _ _ _ _ _ Hq').
    rewrite (bind_ok _ _ _ _ _ (now_isoformat_eq E w6)).
    unfold bind at 1. unfold get_storage. simpl.
    rewrite Hst6, Hst5. simpl. rewrite Hdoc.
    eexists. split; [reflexivity|]. simpl in *. split_and!; lia.
Qed.

(** ** The ids of the artifacts *)

Lemma numbered_id_inj (prefix : string) (i j : nat) :
  prefix +:+ pretty (i + 1)%nat = prefix +:+ pretty (j + 1)%nat -> i = j.
Proof.
  intros H%(inj (String.app prefix)). apply (inj pretty) in H. lia.
Qed.

Lemma NoDup_numbered (prefix : string) (i n : nat) :
  NoDup (map (fun j => prefix +:+ pretty (j + 1)%nat) (seq i n)).
Proof.
  apply NoDup_fmap_2_strong; [|apply NoDup_seq].
  intros a b _ _. apply numbered_id_inj.
Qed.

Lemma cards_match_ids (document_id : string) (cards : list PyVal)
    (stored : list FlashcardRec) (i : nat) :
  cards_match document_id i cards stored ->
  map fc_id stored
  = map (fun j => ("fc-" +:+ document_id +:+ "-") +:+ pretty (j + 1)%nat)
        (seq i (length stored))
  /\ Forall (fun fc => fc_document_id fc = document_id) stored.
Proof.
  revert i stored. induction cards as [|c cards IH]; intros i [|fc stored] Hm; try done.
  destruct Hm as (Hid & Hdoc & _ & _ & Hrest).
  destruct (IH _ _ Hrest) as [Hids Hdocs]. simpl. split.
  - rewrite Hid, Hids. by rewrite !app_assoc_str.
  - by constructor.
Qed.

Lemma questions_match_ids (document_id : string) (qs : list PyVal)
    (stored : list QuestionRec) (i : nat) :
  questions_match document_id i qs stored ->
  map q_id stored
  = map (fun j => ("q-" +:+ document_id +:+ "-") +:+ pretty (j + 1)%nat)
        (seq i (length stored))
  /\ Forall (fun sq => q_quiz_id sq = "quiz-" +:+ document_id) stored.
Proof.
  revert i stored. induction qs as [|q qs IH]; intros i [|sq stored] Hm; try done.
  destruct Hm as (Hid & Hquiz & _ & _ & _ & Hrest).
  destruct (IH _ _ Hrest) as [Hids Hquizzes]. simpl. split.
  - rewrite Hid, Hids. by rewrite !app_assoc_str.
  - by constructor.
Qed.

(** X15. After a successful POST /documents/{id}/process, the flashcards
    stored for the document carry the ids "fc-{id}-1", "fc-{id}-2", ... in
    order, and the questions of its quiz the ids "q-{id}-1", "q-{id}-2",
    ...: within the document no two flashcards and no two questions share an
    id.  Every question names the quiz it belongs to. *)
Theorem artifact_ids_numbered (E : Env) (document_id : string) (w w' : World)
    (reply : ProcessReply) :
  process_document E document_id w = (Ok reply, w') ->
  exists stored flashcards quiz,
    documents_storage w' !! document_id = Some stored
    /\ rec_flashcards stored = Some flashcards
    /\ rec_quiz stored = Some quiz
    /\ map fc_id flashcards
       = map (fun j => ("fc-" +:+ document_id +:+ "-") +:+ pretty (j + 1)%nat)
             (seq 0 (length flashcards))
    /\ NoDup (map fc_id flashcards)
    /\ map q_id (qz_questions quiz)
       = map (fun j => ("q-" +:+ document_id +:+ "-") +:+ pretty (j + 1)%nat)
             (seq 0 (length (qz_questions quiz)))
    /\ NoDup (map q_id (qz_questions quiz))
    /\ Forall (fun sq => q_quiz_id sq = qz_id quiz) (qz_questions quiz).
Proof.
  intros H.
  apply process_document_ok_inv in H
    as (d & _ & _ & _ & cards & qs & s & f & q & _ & _ & _ & _ & _ & _ & _ & _
        & _ & Hcm & _ & Hqm & Hqid & _ & _ & Hstore & _).
  destruct (cards_match_ids _ _ _ _ Hcm) as [Hfc _].
  destruct (questions_match_ids _ _ _ _ Hqm) as [Hq Hquiz].
  exists (update_processed s f q d), f, q.
  split_and!; try done.
  - rewrite Hstore. apply lookup_insert_eq.
  - rewrite Hfc. apply NoDup_numbered.
  - rewrite Hq. apply NoDup_numbered.
  - by rewrite Hqid.
Qed.

(** ** The store under any sequence of requests *)

Lemma keeps_store_try_except {A : Type} (m : M A) (handler : Exn -> M A) :
  keeps_store m -> (forall e, keeps_store (handler e)) ->
  keeps_store (try_except m handler).
Proof.
  intros Hm Hh w r w'. unfold try_except.
  destruct (m w) as [[a|e] w1] eqn:H1.
  - intros [= _ <-]. eauto.
  - intros H2. rewrite (Hh _ _ _ _ H2). eauto.
Qed.

Lemma keeps_store_extract (E : Env) (file : UploadFile) :
  keeps_store (extract_text_from_pdf E file).
Proof.
  intros w r w'. unfold extract_text_from_pdf.
  by destruct (pdf_reader E (file_bytes file)); intros [= _ <-].
Qed.

Lemma keeps_store_now (E : Env) : keeps_store (now E).
Proof. by intros w r w' [= _ <-]. Qed.

#[local] Hint Resolve keeps_store_extract keeps_store_now : store.

Ltac keeps_store_steps :=
  repeat first
    [ apply keeps_store_try_except; [|intros ?]
    | apply keeps_store_bind; [|intros ?]
    | progress auto with store ].

Lemma keeps_store_upload_pdf (E : Env) (file : UploadFile) :
  keeps_store (upload_and_process_pdf E file).
Proof.
  unfold upload_and_process_pdf. destruct (negb _); [auto with store|].
  apply keeps_store_bind; [auto with store|intros pdf_text].
  destruct (str_is_empty _); [auto with store|]. keeps_store_steps.
Qed.

Lemma keeps_store_generate (E : Env) (text : string) :
  keeps_store (generate_summary E text)
  /\ keeps_store (generate_quiz E text)
  /\ keeps_store (generate_flashcards E text).
Proof.
  unfold generate_summary, generate_quiz, generate_flashcards.
  destruct (str_is_empty _); split_and!; keeps_store_steps.
Qed.

Lemma keeps_store_get_document (E : Env) (document_id : string) :
  keeps_store (get_document E document_id).
Proof.
  unfold get_document.
  apply keeps_store_try_except; [|intros ?; auto with store].
  apply keeps_store_bind; [auto with store|intros storage].
  destruct (storage !! document_id) as [d|].
  - destruct (rec_processed d); auto with store.
  - unfold mock_document. keeps_store_steps.
Qed.

Lemma keeps_store_tracking (E : Env) :
  (forall data, keeps_store (start_study_session E data))
  /\ (forall session_id, keeps_store (end_study_session E session_id))
  /\ (forall data, keeps_store (track_flashcard_attempt E data))
  /\ (forall data, keeps_store (track_quiz_attempt E data)).
Proof.
  unfold start_study_session, end_study_session, track_flashcard_attempt,
    track_quiz_attempt.
  split_and!; intros ?; keeps_store_steps.
Qed.

Lemma fails_clean_try_wrap {A : Type} (m : M A) (wrap : Exn -> Exn) :
  fails_clean m -> fails_clean (try_except m (fun e => raise (wrap e))).
Proof.
  intros Hm w e w'. unfold try_except, raise.
  destruct (m w) as [[a|e1] w1] eqn:H; [discriminate|].
  intros [= _ <-]. eauto.
Qed.

(** When the upload fails, the store is as before. *)
Lemma upload_document_fails_clean (E : Env) (pdf : UploadFile) (title : string) :
  fails_clean (upload_document E pdf title).
Proof.
  unfold upload_document. destruct (negb _); [apply fails_clean_raise|].
  apply (fails_clean_try_wrap _
           (fun e => HTTPException 500 ("Error uploading document: " +:+ exn_str E e))).
  apply fails_clean_bind; [auto with store|intros pdf_text].
  destruct (str_is_empty _); [apply fails_clean_raise|].
  by intros w2 e2 w3.
Qed.

Lemma record_ok_uploaded (seconds : Z) (title created_at text : string) :
  strip text <> EmptyString ->
  record_ok (pretty seconds)
    (uploaded_record (pretty seconds) title created_at (strip text)).
Proof.
  intros Htext. unfold record_ok, uploaded_record. simpl.
  split_and!; try done.
  - by exists seconds.
  - apply strip_idempotent.
Qed.

Lemma store_ok_insert (st : gmap string DocRecord) (k : string) (d : DocRecord) :
  store_ok st -> record_ok k d -> store_ok (<[ k := d ]> st).
Proof.
  intros Hst Hd k' d'. destruct (decide (k = k')) as [<-|Hne].
  - rewrite lookup_insert_eq. by intros [= <-].
  - rewrite lookup_insert_ne by done. apply Hst.
Qed.

Lemma store_ok_upload (E : Env) (pdf : UploadFile) (title : string) (w : World) :
  store_ok (documents_storage w) ->
  store_ok (documents_storage (snd (upload_document E pdf title w))).
Proof.
  intros Hok. destruct (upload_document E pdf title w) as [[d|e] w'] eqn:H; simpl.
  - apply upload_document_ok_world in H as (_ & pages & _ & Htext & _ & ->). simpl.
    apply store_ok_insert; [done|]. by apply record_ok_uploaded.
  - by rewrite (upload_document_fails_clean E pdf title _ _ _ H).
Qed.

Lemma store_ok_process (E : Env) (document_id : string) (w : World) :
  store_ok (documents_storage w) ->
  store_ok (documents_storage (snd (process_document E document_id w))).
Proof.
  intros Hok.
  destruct (process_document_outcome E document_id w)
    as [(reply & w' & H)|(detail & w' & H & Hst)]; rewrite H; simpl;
    [|by rewrite Hst].
  apply process_document_ok_inv in H
    as (d & _ & _ & _ & cards & qs & s & f & q & Hdoc & _ & _ & _ & _ & _ & Hsid
        & Hsdoc & _ & Hcm & _ & Hqm & Hqid & Hqdoc & _ & Hstore & _).
  rewrite Hstore. apply store_ok_insert; [done|].
  destruct (Hok _ _ Hdoc) as (Hid & Hnum & Huser & Hpath & Htext & Hstrip & _).
  unfold record_ok, update_processed. simpl. split_and!; try done.
  exists s, f, q. split_and!; try done. unfold artifacts_of. split_and!; try done.
  - by destruct (cards_match_ids _ _ _ _ Hcm).
  - destruct (questions_match_ids _ _ _ _ Hqm) as [_ Hquiz]. by rewrite Hqid.
Qed.

Lemma answer_keeps_store {A : Type} (m : M A) (w : World) :
  keeps_store m -> documents_storage (snd (answer m w)) = documents_storage w.
Proof.
  intros Hm. unfold answer. simpl. destruct (m w) as [r0 w0] eqn:H. simpl. eauto.
Qed.

(** The requests other than an upload and a processing leave the store as
    it is. *)
Lemma serve_reads_only (E : Env) (r : Request) (w : World) :
  match r with
  | PostDocumentsUpload _ _ | PostDocumentProcess _ => True
  | _ => documents_storage (snd (serve E r w)) = documents_storage w
  end.
Proof.
  destruct (keeps_store_tracking E) as (Hstart & Hend & Hfc & Hquiz).
  destruct r; simpl serve; try done; apply answer_keeps_store;
    first [ apply keeps_store_upload_pdf | apply keeps_store_generate
          | apply keeps_store_get_document | apply Hstart | apply Hend
          | apply Hfc | apply Hquiz ].
Qed.

(** One request keeps the store well formed. *)
Lemma serve_store_ok (E : Env) (r : Request) (w : World) :
  store_ok (documents_storage w) ->
  store_ok (documents_storage (snd (serve E r w))).
Proof.
  intros Hok. pose proof (serve_reads_only E r w) as Hread.
  destruct r; try (by rewrite Hread).
  - by apply store_ok_upload.
  - by apply store_ok_process.
Qed.

(** One request keeps the keys of the store. *)
Lemma serve_keeps_keys (E : Env) (r : Request) (w : World) (k : string) :
  is_Some (documents_storage w !! k) ->
  is_Some (documents_storage (snd (serve E r w)) !! k).
Proof.
  intros Hk. pose proof (serve_reads_only E r w) as Hread.
  destruct r; try (by rewrite Hread); simpl serve; unfold answer; simpl.
  - destruct (upload_document E pdf title w) as [[d|e] w'] eqn:H; simpl.
    + apply upload_document_ok_world in H as (_ & pages & _ & _ & _ & ->). simpl.
      rewrite lookup_insert. by case_decide.
    + by rewrite (upload_document_fails_clean E pdf title _ _ _ H).
  - destruct (process_document_outcome E document_id w)
      as [(reply & w' & H)|(detail & w' & H & Hst)]; rewrite H; simpl;
      [|by rewrite Hst].
    apply process_document_ok_inv in H
      as (d & _ & _ & _ & _ & _ & s & f & q & _ & _ & _ & _ & _ & _ & _ & _ & _ & _
          & _ & _ & _ & _ & _ & Hstore & _).
    rewrite Hstore, lookup_insert. by case_decide.
Qed.

(** X16. However many requests have been served since the start of the
    process, in whatever order and whatever the outside did, the store is
    well formed: each record is stored under its own id, which is a decimal
    number; its user id and file path are the fixed ones; its text is not
    empty and is stripped; and it is either not processed and without
    artifacts, or processed with a summary, flashcards and a quiz that all
    name the document. *)
Theorem store_well_formed (E : Env) (requests : list Request) :
  store_ok (documents_storage (run E requests empty_world)).
Proof.
  assert (forall w, store_ok (documents_storage w) ->
                    store_ok (documents_storage (run E requests w))) as Hrun.
  { induction requests as [|r rs IH]; intros w Hok; [done|].
    simpl. apply IH. by apply serve_store_ok. }
  apply Hrun. intros k d. unfold empty_world. simpl. by rewrite lookup_empty.
Qed.

(** X17. No request deletes a document: an id that is stored stays stored
    through any sequence of requests. *)
Theorem documents_never_deleted (E : Env) (requests : list Request) (w : World)
    (k : string) :
  is_Some (documents_storage w !! k) ->
  is_Some (documents_storage (run E requests w) !! k).
Proof.
  revert w. induction requests as [|r rs IH]; intros w Hk; [done|].
  simpl. apply IH. by apply serve_keeps_keys.
Qed.

(** ** The statuses and the effects of the endpoints *)

Lemma guarded_status {A : Type} (m : M A) (detail : Exn -> string) (w : World) :
  let status :=
    http_status (fst (try_except m (fun e => raise (HTTPException 500 (detail e))) w)) in
  status = 200 \/ status = 400 \/ status = 500.
Proof.
  destruct (wrapped_block_status m detail w) as [[a H]|[e H]]; simpl in *;
    rewrite H; simpl; auto.
Qed.

Lemma get_document_ok (E : Env) (document_id : string) (w : World) :
  exists view w',
    get_document E document_id w = (Ok view, w')
    /\ post_calls w' = post_calls w /\ file_reads w' = file_reads w.
Proof.
  unfold get_document, try_except. unfold bind at 1. unfold get_storage.
  destruct (documents_storage w !! document_id) as [d|].
  - destruct (rec_processed d); eexists _, _; (split; [reflexivity|done]).
  - eexists _, _. split; [reflexivity|done].
Qed.

Lemma serve_status (E : Env) (r : Request) (w : World) :
  let status := fst (serve E r w) in
  status = 200 \/ status = 400 \/ status = 500.
Proof.
  destruct r; simpl serve; unfold answer; simpl.
  - destruct (upload_and_process_pdf E file w) as [res w1] eqn:H. simpl.
    unfold upload_and_process_pdf in H.
    destruct (negb _); [injection H as <- <-; simpl; auto|].
    unfold bind at 1 in H. unfold extract_text_from_pdf in H.
    destruct (pdf_reader E (file_bytes file)); [injection H as <- <-; simpl; auto|].
    destruct (str_is_empty _); [injection H as <- <-; simpl; auto|].
    match type of H with try_except ?m _ ?w0 = _ =>
      pose proof (guarded_status m (fun e => "Error processing PDF: " +:+ exn_str E e) w0)
        as Hst
    end.
    simpl in Hst. by rewrite H in Hst.
  - unfold generate_summary. destruct (str_is_empty _); [simpl; auto|].
    apply guarded_status.
  - unfold generate_quiz. destruct (str_is_empty _); [simpl; auto|].
    apply guarded_status.
  - unfold generate_flashcards. destruct (str_is_empty _); [simpl; auto|].
    apply guarded_status.
  - unfold upload_document. destruct (negb _); [simpl; auto|].
    apply guarded_status.
  - apply guarded_status.
  - destruct (get_document_ok E document_id w) as (view & w1 & -> & _). auto.
  - auto.
  - auto.
  - auto.
  - auto.
Qed.

(** X18. Whatever the request, the world and the outside: (1) the status is
    200, 400 or 500, never 404 or another code; (2) the store is written by
    POST /documents/upload and POST /documents/{id}/process only; (3) fetching
    a document and the four session and attempt endpoints always answer 200,
    and neither they nor an upload call the upstream endpoint; (4)
    processing never answers 400. *)
Theorem endpoint_statuses_and_effects (E : Env) (r : Request) (w : World) :
  let status := fst (serve E r w) in
  let w' := snd (serve E r w) in
  (status = 200 \/ status = 400 \/ status = 500)
  /\ match r with
     | PostDocumentsUpload _ _ | PostDocumentProcess _ => True
     | _ => documents_storage w' = documents_storage w
     end
  /\ match r with
     | GetDocument _ | PostSessionStart _ | PostSessionEnd _
     | PostFlashcardAttempt _ | PostQuizAttempt _ =>
         status = 200 /\ post_calls w' = post_calls w
     | PostDocumentsUpload _ _ => post_calls w' = post_calls w
     | PostDocumentProcess _ => status <> 400
     | _ => True
     end.
Proof.
  intros status w'. subst status w'.
  split; [apply serve_status|]. split; [apply serve_reads_only|].
  destruct r; try done; simpl serve; unfold answer; simpl.
  - unfold upload_document. destruct (negb _); [done|].
    unfold try_except. unfold bind at 1. unfold extract_text_from_pdf.
    destruct (pdf_reader E (file_bytes pdf)); [done|].
    by destruct (str_is_empty _).
  - apply wrapped_block_not_400.
  - destruct (get_document_ok E document_id w) as (view & w1 & -> & Hp & _). done.
Qed.

(** ** The prompts determine the text *)

Lemma lines_cons (x y : string) (l : list string) :
  lines (x :: y :: l) = x +:+ String newline (lines (y :: l)).
Proof. reflexivity. Qed.

(** A template is its lines before the text, the text, and its lines after. *)
Lemma lines_around (before : list string) (indent text : string)
    (next : string) (after : list string) :
  lines (before ++ (indent +:+ text) :: next :: after)
  = lines (before ++ [indent]) +:+ text +:+ String newline (lines (next :: after)).
Proof.
  induction before as [|x before IH].
  - change (lines ((indent +:+ text) :: next :: after)
            = indent +:+ text +:+ String newline (lines (next :: after))).
    by rewrite lines_cons, app_assoc_str.
  - destruct before as [|y before].
    + change (lines (x :: (indent +:+ text) :: next :: after)
              = lines [x; indent] +:+ text +:+ String newline (lines (next :: after))).
      rewrite (lines_cons x), (lines_cons x indent []).
      change (lines ((indent +:+ text) :: next :: after))
        with (lines ([] ++ (indent +:+ text) :: next :: after)).
      rewrite IH.
      change (lines ([] ++ [indent])) with indent. change (lines [indent]) with indent.
      by rewrite ?app_assoc_str, ?app_cons, ?app_assoc_str.
    + change (lines (x :: y :: (before ++ (indent +:+ text) :: next :: after))
              = lines (x :: y :: (before ++ [indent])) +:+ text
                +:+ String newline (lines (next :: after))).
      rewrite !(lines_cons x y).
      change (y :: before ++ (indent +:+ text) :: next :: after)
        with ((y :: before) ++ (indent +:+ text) :: next :: after).
      rewrite IH.
      change ((y :: before) ++ [indent]) with (y :: before ++ [indent]).
      by rewrite ?app_assoc_str, ?app_cons, ?app_assoc_str.
Qed.

Lemma app_inv_tail_str (s t post : string) : s +:+ post = t +:+ post -> s = t.
Proof.
  revert t. induction s as [|a s IH]; intros [|b t] H.
  - done.
  - apply (f_equal String.length) in H. rewrite app_nil_l, length_app_str in H.
    simpl in H. lia.
  - apply (f_equal String.length) in H. rewrite app_nil_l, length_app_str in H.
    simpl in H. lia.
  - rewrite !app_cons in H. injection H as -> H. f_equal. by apply IH.
Qed.

Lemma around_inj (pre post s t : string) :
  pre +:+ s +:+ post = pre +:+ t +:+ post -> s = t.
Proof. intros H%(inj (String.app pre)). by apply app_inv_tail_str in H. Qed.

Lemma lines_split (l : list string) (n : nat) (indent text : string) :
  l !! n = Some (indent +:+ text) ->
  (S n < length l)%nat ->
  lines l = lines (take n l ++ [indent]) +:+ text
            +:+ String newline (lines (drop (S n) l)).
Proof.
  intros Hn Hlen. rewrite <- (take_drop_middle l n _ Hn) at 1.
  destruct (drop (S n) l) as [|next after] eqn:Hdrop.
  - apply (f_equal length) in Hdrop. rewrite length_drop in Hdrop. simpl in Hdrop. lia.
  - apply lines_around.
Qed.

(** X19. Each prompt builder puts the text, untouched and whole, between a
    fixed head and a fixed tail: the prompt is as long as the text plus a
    constant (there is no truncation), two texts give the same prompt only if
    they are the same text, and the prompts of the three builders differ
    from each other whatever the texts. *)
Theorem prompts_determine_text (text other : string) :
  (String.length (create_summary_prompt text) = 418 + String.length text
   /\ String.length (create_quiz_prompt text) = 700 + String.length text
   /\ String.length (create_flashcards_prompt text) = 567 + String.length text)%nat
  /\ (create_summary_prompt text = create_summary_prompt other -> text = other)
  /\ (create_quiz_prompt text = create_quiz_prompt other -> text = other)
  /\ (create_flashcards_prompt text = create_flashcards_prompt other -> text = other)
  /\ create_summary_prompt text <> create_quiz_prompt other
  /\ create_summary_prompt text <> create_flashcards_prompt other
  /\ create_quiz_prompt text <> create_flashcards_prompt other.
Proof.
  assert (forall l t, l !! 4%nat = Some ("    " +:+ t) -> (5 < length l)%nat ->
            String.length (lines l)
            = (String.length (lines (take 4 l ++ ["    "]))
               + String.length (String newline (lines (drop 5 l)))
               + String.length t)%nat) as Hlen.
  { intros l t Hl Hn. rewrite (lines_split l 4 "    " t Hl Hn).
    rewrite !length_app_str. lia. }
  split_and!.
  - unfold create_summary_prompt.
    rewrite (Hlen _ text); [|reflexivity|simpl; lia]. vm_compute. reflexivity.
  - unfold create_quiz_prompt.
    rewrite (Hlen _ text); [|reflexivity|simpl; lia]. vm_compute. reflexivity.
  - unfold create_flashcards_prompt.
    rewrite (Hlen _ text); [|reflexivity|simpl; lia]. vm_compute. reflexivity.
  - unfold create_summary_prompt. intros H.
    match type of H with
    | lines ?a = lines ?b =>
        rewrite (lines_split a 4 "    " text eq_refl ltac:(simpl; lia)),
                (lines_split b 4 "    " other eq_refl ltac:(simpl; lia)) in H
    end.
    exact (around_inj _ _ _ _ H).
  - unfold create_quiz_prompt. intros H.
    match type of H with
    | lines ?a = lines ?b =>
        rewrite (lines_split a 4 "    " text eq_refl ltac:(simpl; lia)),
                (lines_split b 4 "    " other eq_refl ltac:(simpl; lia)) in H
    end.
    exact (around_inj _ _ _ _ H).
  - unfold create_flashcards_prompt. intros H.
    match type of H with
    | lines ?a = lines ?b =>
        rewrite (lines_split a 4 "    " text eq_refl ltac:(simpl; lia)),
                (lines_split b 4 "    " other eq_refl ltac:(simpl; lia)) in H
    end.
    exact (around_inj _ _ _ _ H).
  - intros H. apply (f_equal (String.substring 0 6)) in H. vm_compute in H.
    discriminate H.
  - intros H. apply (f_equal (String.substring 0 6)) in H. vm_compute in H.
    discriminate H.
  - intros H. apply (f_equal (String.substring 0 46)) in H. vm_compute in H.
    discriminate H.
Qed.

(** ** A reply without text *)

(** The block of the three endpoints that generate one artifact, when the
    content of the reply is no string. *)
Lemma generate_block_non_text (E : Env) (prompt : string) (cls : ModelClass)
    (prefix : string) (w : World) (result content : PyVal) :
  (forall s, content <> PStr s) ->
  str_is_empty (OPENROUTER_API_KEY E) = false ->
  httpx_post E (post_calls w) prompt 2000 = UpJSON result ->
  message_content result = Ok content ->
  try_except
    (response <- call_openrouter_api E prompt 2000 ;;
     data <- lift (parse_json_response E response) ;;
     lift (new_model E cls data))
    (fun e => raise (HTTPException 500 (prefix +:+ exn_str E e))) w
  = (Raise (HTTPException 500
              (prefix +:+ exception_text E (AttributeError content "find"))),
     count_post w).
Proof.
  intros Hcontent Hkey Hpost Hmsg.
  unfold try_except, bind at 1.
  rewrite (call_openrouter_api_configured _ _ _ _ Hkey), Hpost, Hmsg.
  unfold bind, lift, raise.
  destruct content; try reflexivity. by destruct (Hcontent s).
Qed.

(** X20. A reply whose message content is no string (null, a number, a list,
    an object) passes the gateway as it is, and the response parser, which
    catches only the decoding error and its own [ValueError], lets the
    [AttributeError] of [response.find] through.  Each of POST
    /generate-summary, /generate-quiz and /generate-flashcards then answers
    500 with the text of that error after the prefix of the endpoint, after
    its one call to the upstream endpoint. *)
Theorem non_text_content_fails_generation (E : Env) (text : string) (w : World)
    (content : PyVal) :
  (forall s, content <> PStr s) ->
  parse_json_response E content = Raise (AttributeError content "find")
  /\ (whitespace_only text = false ->
      str_is_empty (OPENROUTER_API_KEY E) = false ->
      (forall result,
         httpx_post E (post_calls w) (create_summary_prompt text) 2000 = UpJSON result ->
         message_content result = Ok content ->
         generate_summary E text w =
           (Raise (HTTPException 500
                     ("Error generating summary: "
                      +:+ exception_text E (AttributeError content "find"))),
            count_post w))
      /\ (forall result,
            httpx_post E (post_calls w) (create_quiz_prompt text) 2000 = UpJSON result ->
            message_content result = Ok content ->
            generate_quiz E text w =
              (Raise (HTTPException 500
                        ("Error generating quiz: "
                         +:+ exception_text E (AttributeError content "find"))),
               count_post w))
      /\ (forall result,
            httpx_post E (post_calls w) (create_flashcards_prompt text) 2000
              = UpJSON result ->
            message_content result = Ok content ->
            generate_flashcards E text w =
              (Raise (HTTPException 500
                        ("Error generating flashcards: "
                         +:+ exception_text E (AttributeError content "find"))),
               count_post w))).
Proof.
  intros Hcontent. split.
  - destruct content; try reflexivity. by destruct (Hcontent s).
  - intros Htext%nonblank_strip Hkey.
    unfold generate_summary, generate_quiz, generate_flashcards. rewrite Htext.
    split_and!; intros result Hpost Hmsg;
      by apply (generate_block_non_text E _ _ _ w result content).
Qed.

(** ** The session and attempt endpoints *)

(** X21. The session and attempt endpoints ignore the body they are sent and
    always succeed.  The ids they answer with are [int(d.timestamp())] for
    one clock reading, the integer part of a float, after the prefix of the
    endpoint: two sessions get the same id exactly when these integers
    agree, and an id of one endpoint is never an id of another.  The integer
    is not always the second of the reading: sessions started at
    22:13:20.000001 and at 22:13:20.999999 on 2023-11-14 both get the id of
    that second, but so do a session started at 2600-01-01T00:00:00.999999
    and one started at 00:00:01.000000, because the float of the former is
    rounded up to the next second.  Ending a session reads nothing, not even
    the clock: it echoes any id, whether or not a session was started with
    it. *)
Theorem tracking_ids_by_timestamp (E : Env) (body body' : list (string * PyVal))
    (w w' : World) :
  let stamp := timestamp_int (datetime_now E (now_calls w)) in
  let stamp' := timestamp_int (datetime_now E (now_calls w')) in
  exists s s' f q,
    start_study_session E body w = (Ok s, count_now w)
    /\ start_study_session E body' w' = (Ok s', count_now w')
    /\ track_flashcard_attempt E body w = (Ok f, count_now w)
    /\ track_quiz_attempt E body w = (Ok q, count_now w)
    /\ started_id s = "session-" +:+ pretty stamp
    /\ tracked_attempt_id f = "attempt-" +:+ pretty stamp
    /\ quiz_tracked_attempt_id q = "quiz-attempt-" +:+ pretty stamp
    /\ (started_id s = started_id s' <-> stamp = stamp')
    /\ (datetime_now E (now_calls w) = 1700000000000001 ->
        datetime_now E (now_calls w') = 1700000000999999 ->
        started_id s = "session-1700000000" /\ started_id s' = "session-1700000000")
    /\ (datetime_now E (now_calls w) = 19880899200999999 ->
        datetime_now E (now_calls w') = 19880899201000000 ->
        started_id s = "session-19880899201"
        /\ started_id s' = "session-19880899201")
    /\ started_id s <> tracked_attempt_id f
    /\ started_id s <> quiz_tracked_attempt_id q
    /\ tracked_attempt_id f <> quiz_tracked_attempt_id q
    /\ (forall session_id,
          end_study_session E session_id w
          = (Ok {| ended_status := "ended"; ended_session_id := session_id |}, w)).
Proof.
  intros stamp stamp'. subst stamp stamp'.
  eexists _, _, _, _. split_and!; try reflexivity.
  - simpl. split.
    + intros H%(inj (String.app "session-")). by apply (inj pretty) in H.
    + intros H. by rewrite H.
  - intros H1 H2. simpl. rewrite H1, H2. split; vm_compute; reflexivity.
  - intros H1 H2. simpl. rewrite H1, H2. split; vm_compute; reflexivity.
  - simpl. rewrite !app_cons. discriminate.
  - simpl. rewrite !app_cons. discriminate.
  - simpl. rewrite !app_cons. discriminate.
Qed.

(** ** What processing leaves as it is *)

(** X22. POST /documents/{id}/process touches one record at most, and of
    that record the artifacts and the flag only: every other id is mapped as
    before; the id, title, creation time, user, path and text of the record
    are kept, so that processing again starts from the same text; a record
    that was processed stays processed; and when the answer is not 200, or
    the id is not stored, the whole store is as before. *)
Theorem process_touches_one_record (E : Env) (document_id other : string) (w : World) :
  let status := http_status (fst (process_document E document_id w)) in
  let w' := snd (process_document E document_id w) in
  (other <> document_id ->
   documents_storage w' !! other = documents_storage w !! other)
  /\ (forall d,
        documents_storage w !! document_id = Some d ->
        exists d',
          documents_storage w' !! document_id = Some d'
          /\ rec_id d' = rec_id d
          /\ rec_title d' = rec_title d
          /\ rec_created_at d' = rec_created_at d
          /\ rec_user_id d' = rec_user_id d
          /\ rec_file_path d' = rec_file_path d
          /\ rec_pdf_text d' = rec_pdf_text d
          /\ (rec_processed d = true -> rec_processed d' = true)
          /\ (status = 200 -> rec_processed d' = true))
  /\ (documents_storage w !! document_id = None ->
      status = 500 /\ documents_storage w' = documents_storage w)
  /\ (status <> 200 -> documents_storage w' = documents_storage w).
Proof.
  intros status w'. subst status w'.
  destruct (process_document_outcome E document_id w)
    as [(reply & w' & H)|(detail & w' & H & Hst)]; rewrite H; simpl.
  - apply process_document_ok_inv in H
      as (d0 & _ & _ & _ & _ & _ & s & f & q & Hdoc & _ & _ & _ & _ & _ & _
          & _ & _ & _ & _ & _ & _ & _ & _ & Hstore & _).
    rewrite Hstore. split_and!.
    + intros Hne. by rewrite lookup_insert_ne.
    + intros d Hd. rewrite Hdoc in Hd. injection Hd as <-.
      exists (update_processed s f q d0). rewrite lookup_insert_eq.
      by split_and!.
    + intros Hnone. by rewrite Hdoc in Hnone.
    + done.
  - rewrite Hst. split_and!; try done.
    intros d Hd. exists d. split_and!; try done.
Qed.

(** ** The further properties at the sample runs *)

Lemma extract_text_from_pdf_outcome_witness :
  extract_text_from_pdf E_once lecture_upload empty_world
    = (Ok (rec_pdf_text lecture_record), count_read empty_world)
  /\ (exists pages,
        pdf_reader E_once (file_bytes lecture_upload) = inr pages
        /\ rec_pdf_text lecture_record = strip (pages_text pages)
        /\ (rec_pdf_text lecture_record = EmptyString
            <-> Forall (fun page => whitespace_only page = true) pages)).
Proof.
  assert (extract_text_from_pdf E_once lecture_upload empty_world
          = (Ok (rec_pdf_text lecture_record), count_read empty_world)) as H
    by (vm_compute; reflexivity).
  split; [exact H|].
  destruct (extract_text_from_pdf_outcome E_once lecture_upload empty_world
              (count_read empty_world) (Ok (rec_pdf_text lecture_record)) H)
    as [_ [(pages & text & Hp & Hr & Ht & He & _)|(msg & _ & Hr)]].
  - injection Hr as <-. exists pages.
    split; [exact Hp|]. split; [exact Ht|exact He].
  - discriminate Hr.
Defined.

Lemma gateway_posts_once_witness :
  call_openrouter_api E_once (create_summary_prompt "Cells divide.") 2000 empty_world
    = (Ok (PStr (prose summary_json_1)), count_post empty_world)
  /\ (documents_storage (count_post empty_world) = documents_storage empty_world
      /\ now_calls (count_post empty_world) = now_calls empty_world
      /\ post_calls (count_post empty_world) =
           (if str_is_empty (OPENROUTER_API_KEY E_once) then post_calls empty_world
            else S (post_calls empty_world))
      /\ (forall msg, Ok (PStr (prose summary_json_1)) <> Raise (HTTPError msg))
      /\ (forall k, Ok (PStr (prose summary_json_1)) <> Raise (KeyError k))).
Proof.
  assert (call_openrouter_api E_once (create_summary_prompt "Cells divide.") 2000
            empty_world
          = (Ok (PStr (prose summary_json_1)), count_post empty_world)) as H
    by (vm_compute; reflexivity).
  split; [exact H|].
  exact (gateway_posts_once E_once _ 2000 empty_world _ _ H).
Defined.

Lemma gateway_returns_content_witness :
  str_is_empty (OPENROUTER_API_KEY E_null) = false
  /\ call_openrouter_api E_null (create_quiz_prompt "Cells divide.") 2000 empty_world
       = (Ok PNone, count_post empty_world).
Proof.
  split; [reflexivity|].
  exact (gateway_returns_content E_null (create_quiz_prompt "Cells divide.") 2000
           empty_world
           [("id", PStr "gen-2");
            ("choices",
             PList [PDict [("index", PInt 0);
                           ("message", PDict [("role", PStr "assistant");
                                              ("content", PNone)])]])]
           [("index", PInt 0);
            ("message", PDict [("role", PStr "assistant"); ("content", PNone)])]
           [("role", PStr "assistant"); ("content", PNone)]
           [] PNone eq_refl eq_refl eq_refl eq_refl eq_refl).
Defined.

Lemma gateway_failures_witness :
  str_is_empty (OPENROUTER_API_KEY E_down) = false
  /\ call_openrouter_api E_down (create_summary_prompt "Cells divide.") 2000 empty_world
       = (Raise (HTTPException 500 "OpenRouter API error: timed out"),
          count_post empty_world).
Proof.
  split; [reflexivity|].
  exact (proj1 (gateway_failures E_down (create_summary_prompt "Cells divide.") 2000
                  empty_world eq_refl) "timed out" eq_refl).
Defined.

Lemma upload_then_get_witness :
  upload_document E_once lecture_upload "Biology" empty_world
    = (Ok lecture_document, w_uploaded)
  /\ exists view,
       get_document E_once (resp_id lecture_document) w_uploaded = (Ok view, w_uploaded)
       /\ view_id view = resp_id lecture_document
       /\ view_title view = resp_title lecture_document
       /\ view_summary view = None
       /\ view_flashcards view = []
       /\ view_quiz view = None
       /\ view_created_at view
            = isoformat E_once (datetime_now E_once (S (now_calls empty_world)))
       /\ resp_created_at lecture_document
            = isoformat E_once (datetime_now E_once (S (S (now_calls empty_world)))).
Proof.
  assert (upload_document E_once lecture_upload "Biology" empty_world
          = (Ok lecture_document, w_uploaded)) as H by (vm_compute; reflexivity).
  split; [exact H|].
  exact (upload_then_get E_once lecture_upload "Biology" empty_world w_uploaded
           lecture_document H).
Defined.

Lemma correct_answer_by_index_witness :
  (dict_lookup "options" (sample_question 1) = Some (PList sample_options)
   /\ sample_options <> []
   /\ dict_lookup "correct_answer" (sample_question 1) = Some (PInt 1))
  /\ quiz_correct_answer (PDict (sample_question 1)) = Ok (PStr "Cells").
Proof.
  assert (sample_options <> []) as Hne by discriminate.
  split; [split_and!; [reflexivity|exact Hne|reflexivity]|].
  destruct (correct_answer_by_index (sample_question 1) sample_options (PInt 1)
              eq_refl Hne eq_refl) as [H _].
  destruct (H 1 eq_refl) as [Hiff _].
  exact (proj2 (Hiff (PStr "Cells")) eq_refl).
Defined.

Lemma artifact_ids_numbered_witness :
  process_document E_once lecture_id w_uploaded = (Ok success_reply, w_processed E_once)
  /\ exists stored flashcards quiz,
       documents_storage (w_processed E_once) !! lecture_id = Some stored
       /\ rec_flashcards stored = Some flashcards
       /\ rec_quiz stored = Some quiz
       /\ map fc_id flashcards
          = map (fun j => ("fc-" +:+ lecture_id +:+ "-") +:+ pretty (j + 1)%nat)
                (seq 0 (length flashcards))
       /\ NoDup (map fc_id flashcards)
       /\ map q_id (qz_questions quiz)
          = map (fun j => ("q-" +:+ lecture_id +:+ "-") +:+ pretty (j + 1)%nat)
                (seq 0 (length (qz_questions quiz)))
       /\ NoDup (map q_id (qz_questions quiz))
       /\ Forall (fun sq => q_quiz_id sq = qz_id quiz) (qz_questions quiz).
Proof.
  assert (process_document E_once lecture_id w_uploaded
          = (Ok success_reply, w_processed E_once)) as H by (vm_compute; reflexivity).
  split; [exact H|].
  exact (artifact_ids_numbered E_once lecture_id w_uploaded (w_processed E_once)
           success_reply H).
Defined.

Lemma documents_never_deleted_witness :
  is_Some (documents_storage w_uploaded !! lecture_id)
  /\ is_Some (documents_storage
                (run E_once
                   [PostDocumentProcess lecture_id; GetDocument "42";
                    PostDocumentsUpload blank_upload "Blank"; PostSessionStart []]
                   w_uploaded) !! lecture_id).
Proof.
  assert (documents_storage w_uploaded !! lecture_id = Some lecture_record) as Hdoc
    by (vm_compute; reflexivity).
  assert (is_Some (documents_storage w_uploaded !! lecture_id)) as H
    by (exists lecture_record; exact Hdoc).
  split; [exact H|].
  exact (documents_never_deleted E_once _ w_uploaded lecture_id H).
Defined.

Lemma non_text_content_fails_generation_witness :
  (forall s, PNone <> PStr s)
  /\ parse_json_response E_null PNone = Raise (AttributeError PNone "find")
  /\ generate_summary E_null "Cells divide." empty_world
       = (Raise (HTTPException 500
                   "Error generating summary: 'NoneType' object has no attribute 'find'"),
          count_post empty_world).
Proof.
  assert (forall s, PNone <> PStr s) as Hnone by discriminate.
  split; [exact Hnone|].
  destruct (non_text_content_fails_generation E_null "Cells divide." empty_world PNone
              Hnone) as [Hparse Hgen].
  split; [exact Hparse|].
  destruct (Hgen eq_refl eq_refl) as [Hsummary _].
  exact (Hsummary _ eq_refl eq_refl).
Defined.
